(** * Data Alchemist: validation, upload and export core

    A shallow embedding of the TypeScript sources
      - utils/validation   (validateData, getRequiredColumns, findIdColumn,
                            validateCell),
      - components/FileUpload.tsx  (processFile, detectFileType),
      - components/ExportPanel     (generateCleanedCSV),
      - components/PrioritizationInterface (handleSliderChange, templates,
                            applyTemplate, resetToDefault),
      - types              (DataFile, ValidationError, RuleCondition, ...),
      - components/FileUpload.tsx  (onDrop, removeFile, handleContinue),
      - components/ExportPanel     (the original-data export,
                            generateValidationReport, generateRulesJSON,
                            getExportSummary),
      - components/DataGrid        (the validation effect, filteredData,
                            getCellErrors, getCellClass, handleCellClick,
                            handleCellSave),
      - components/ValidationPanel (filteredErrors, errorCounts),
      - components/RulesBuilder.tsx (getAvailableFields, the condition and
                            action editors, saveRule, editRule, deleteRule,
                            toggleRule),
      - the page           (handleDataUpdate, the Continue button),
    together with the JavaScript built-ins they call (String.prototype
    methods, parseInt, parseFloat, RegExp.test for the one pattern used,
    JSON.parse as a recogniser).

    Conventions.  A JavaScript string is modelled by [string]; each [ascii]
    stands for one UTF-16 code unit below 256 (the Latin-1 range).  Numbers
    that only count or index are [Z]; the priority weights are IEEE doubles
    ([PrimFloat.float]).  Code that can throw runs in the monad [Js]. *)

From Stdlib Require Import Bool Ascii String List ZArith Lia.
From Stdlib Require Import DecimalString QArith.
From Stdlib Require Import PrimFloat.
From Stdlib Require DecimalZ.

Set Warnings "-inexact-float".
Set Warnings "-notation-overridden".
Close Scope Q_scope.
Import ListNotations.

Local Open Scope string_scope.
Local Open Scope list_scope.

(* ================================================================== *)
(** * JavaScript strings *)
(* ================================================================== *)

Definition code (c : ascii) : nat := nat_of_ascii c.

(** The double quote, line feed and carriage return characters. *)
Definition DQUOTE : ascii := "034"%char.
Definition LF : ascii := "010"%char.
Definition CR : ascii := "013"%char.

(** A one-character string holding the double quote. *)
Definition quote : string := String DQUOTE EmptyString.

Definition between (lo n hi : nat) : bool := Nat.leb lo n && Nat.leb n hi.

(** WhiteSpace and LineTerminator code units below 256: TAB, LF, VT, FF, CR,
    SP and NBSP.  [trim], [parseInt], [parseFloat] and the regular
    expression class [\s] all use this set. *)
Definition isWhiteSpace (c : ascii) : bool :=
  between 9 (code c) 13 || Nat.eqb (code c) 32 || Nat.eqb (code c) 160.

Definition isDigit (c : ascii) : bool := between 48 (code c) 57.

Definition isLowerAlpha (c : ascii) : bool := between 97 (code c) 122.

(** String.prototype.toLowerCase on one code unit: A-Z and the Latin-1
    capitals U+00C0..U+00DE (except the multiplication sign U+00D7) move up
    by 32. *)
Definition lowerChar (c : ascii) : ascii :=
  let n := code c in
  if between 65 n 90 || (between 192 n 222 && negb (Nat.eqb n 215))
  then ascii_of_nat (n + 32) else c.

Fixpoint toLowerCase (s : string) : string :=
  match s with
  | EmptyString => EmptyString
  | String c s' => String (lowerChar c) (toLowerCase s')
  end.

Fixpoint trimStart (s : string) : string :=
  match s with
  | EmptyString => EmptyString
  | String c s' => if isWhiteSpace c then trimStart s' else s
  end.

Fixpoint trimEnd (s : string) : string :=
  match s with
  | EmptyString => EmptyString
  | String c s' =>
      match trimEnd s' with
      | EmptyString => if isWhiteSpace c then EmptyString else String c EmptyString
      | t => String c t
      end
  end.

(** String.prototype.trim *)
Definition trim (s : string) : string := trimEnd (trimStart s).

(** [startsWith s p] is [s.startsWith(p)]. *)
Definition startsWith (s p : string) : bool := prefix p s.

(** [includes s sub] is [s.includes(sub)]. *)
Fixpoint includes (s sub : string) : bool :=
  prefix sub s ||
  match s with
  | EmptyString => false
  | String _ s' => includes s' sub
  end.

(** [s.replace(/[...]/g, r)] for a character class given as a predicate and
    a replacement of zero or one characters. *)
Fixpoint replaceAllChars (p : ascii -> bool) (r : string) (s : string) : string :=
  match s with
  | EmptyString => EmptyString
  | String c s' =>
      if p c then r ++ replaceAllChars p r s'
      else String c (replaceAllChars p r s')
  end.

(** [ls.join(sep)] *)
Definition join (sep : string) (ls : list string) : string := String.concat sep ls.

(** Longest prefix whose characters satisfy [p], and the rest. *)
Fixpoint span (p : ascii -> bool) (s : string) : string * string :=
  match s with
  | EmptyString => (EmptyString, EmptyString)
  | String c s' =>
      if p c then let (a, b) := span p s' in (String c a, b)
      else (EmptyString, s)
  end.

Definition isEmptyString (s : string) : bool :=
  match s with EmptyString => true | _ => false end.

(* ================================================================== *)
(** * JavaScript numbers read from text *)
(* ================================================================== *)

(** Value of a digit in radix up to 36. *)
Definition digitValue (c : ascii) : option Z :=
  let n := code c in
  if between 48 n 57 then Some (Z.of_nat (n - 48))
  else if between 97 n 122 then Some (Z.of_nat (n - 87))
  else if between 65 n 90 then Some (Z.of_nat (n - 55))
  else None.

Definition isRadixDigit (R : Z) (c : ascii) : bool :=
  match digitValue c with
  | Some d => Z.ltb d R
  | None => false
  end.

(** Mathematical value of a digit string in radix [R], most significant
    digit first. *)
Fixpoint digitsValueAcc (R : Z) (acc : Z) (s : string) : Z :=
  match s with
  | EmptyString => acc
  | String c s' =>
      digitsValueAcc R (acc * R + match digitValue c with Some d => d | None => 0 end) s'
  end.

Definition digitsValue (R : Z) (s : string) : Z := digitsValueAcc R 0 s.

(** An optional leading sign: [(true, rest)] when the text starts with
    a minus sign. *)
Definition stripSign (s : string) : bool * string :=
  match s with
  | String "-" r => (true, r)
  | String "+" r => (false, r)
  | _ => (false, s)
  end.

(** [parseInt(s)] with no radix argument (ECMA-262, parseInt): leading white
    space is skipped, a sign is read, a [0x]/[0X] prefix selects radix 16,
    then the longest run of digits is taken; what follows is ignored.
    [None] is NaN.  The integer is returned exactly; the source only compares
    it with 1 and 5, and rounding to a double does not change those
    comparisons. *)
Definition parseInt (s : string) : option Z :=
  let (neg, u) := stripSign (trimStart s) in
  let (R, v) :=
    match u with
    | String "0" (String "x" r) => (16%Z, r)
    | String "0" (String "X" r) => (16%Z, r)
    | _ => (10%Z, u)
    end in
  let (ds, _) := span (isRadixDigit R) v in
  if isEmptyString ds then None
  else Some (if neg then (- digitsValue R ds)%Z else digitsValue R ds).

(** What a text denotes as a number, before rounding to a double:
    [Finite neg m e] is (-1)^neg * m * 10^e. *)
Inductive JsNumber : Type :=
  | NaN
  | Infinity (neg : bool)
  | Finite (neg : bool) (mant : Z) (exp : Z).

(** [parseFloat(s)]: the longest prefix of the white-space-trimmed text that
    is a StrDecimalLiteral (sign, then [Infinity], or digits with an optional
    fraction and an optional complete exponent part). *)
Definition parseFloat (s : string) : JsNumber :=
  let (neg, u) := stripSign (trimStart s) in
  if prefix "Infinity" u then Infinity neg
  else
    let (ip, r1) := span isDigit u in
    let (fp, r2) :=
      match r1 with
      | String "." r => span isDigit r
      | _ => (EmptyString, r1)
      end in
    if isEmptyString ip && isEmptyString fp then NaN
    else
      let ex :=
        match r2 with
        | String c r =>
            if Ascii.eqb c "e" || Ascii.eqb c "E" then
              let (eneg, r') := stripSign r in
              let (ed, _) := span isDigit r' in
              if isEmptyString ed then 0%Z
              else if eneg then (- digitsValue 10 ed)%Z else digitsValue 10 ed
            else 0%Z
        | EmptyString => 0%Z
        end in
      Finite neg (digitsValue 10 (ip ++ fp)) (ex - Z.of_nat (String.length fp)).

Definition isNaN (x : JsNumber) : bool :=
  match x with NaN => true | _ => false end.

(** A positive real m * 10^e becomes the double 0 exactly when it is at most
    2^-1075, half the least subnormal (round to nearest, ties to even). *)
Definition roundsToZero (m e : Z) : bool :=
  Z.eqb m 0 ||
  (Z.ltb e 0 && Z.leb (m * 2 ^ 1075) (10 ^ (- e)))%Z.

(** [x <= 0] on the double that [x] rounds to. *)
Definition leZero (x : JsNumber) : bool :=
  match x with
  | NaN => false
  | Infinity neg => neg
  | Finite neg m e => neg || roundsToZero m e
  end.

(** [x < 0] on the double that [x] rounds to (-0 is not below 0). *)
Definition ltZero (x : JsNumber) : bool :=
  match x with
  | NaN => false
  | Infinity neg => neg
  | Finite neg m e => neg && negb (roundsToZero m e)
  end.

(* ================================================================== *)
(** * Regular expressions (the fragment the sources use) *)
(* ================================================================== *)

Inductive Regex : Type :=
  | RVoid
  | REps
  | RClass (p : ascii -> bool)
  | RSeq (r1 r2 : Regex)
  | RAlt (r1 r2 : Regex)
  | RStar (r : Regex).

Definition RChar (c : ascii) : Regex := RClass (Ascii.eqb c).
Definition RPlus (r : Regex) : Regex := RSeq r (RStar r).

Fixpoint nullable (r : Regex) : bool :=
  match r with
  | RVoid => false
  | REps => true
  | RClass _ => false
  | RSeq r1 r2 => nullable r1 && nullable r2
  | RAlt r1 r2 => nullable r1 || nullable r2
  | RStar _ => true
  end.

(** Brzozowski derivative. *)
Fixpoint deriv (c : ascii) (r : Regex) : Regex :=
  match r with
  | RVoid => RVoid
  | REps => RVoid
  | RClass p => if p c then REps else RVoid
  | RSeq r1 r2 =>
      if nullable r1 then RAlt (RSeq (deriv c r1) r2) (deriv c r2)
      else RSeq (deriv c r1) r2
  | RAlt r1 r2 => RAlt (deriv c r1) (deriv c r2)
  | RStar r1 => RSeq (deriv c r1) (RStar r1)
  end.

(** [/^r$/.test(s)]: the whole string matches [r]. *)
Fixpoint regexTest (r : Regex) (s : string) : bool :=
  match s with
  | EmptyString => nullable r
  | String c s' => regexTest (deriv c r) s'
  end.

(** The class [[^\s@]]. *)
Definition notSpaceNorAt (c : ascii) : bool :=
  negb (isWhiteSpace c) && negb (Ascii.eqb c "@").

(** [/^[^\s@]+@[^\s@]+\.[^\s@]+$/] *)
Definition emailRegex : Regex :=
  RSeq (RPlus (RClass notSpaceNorAt))
    (RSeq (RChar "@")
       (RSeq (RPlus (RClass notSpaceNorAt))
          (RSeq (RChar ".") (RPlus (RClass notSpaceNorAt))))).

(* ================================================================== *)
(** * JSON.parse as a recogniser *)
(* ================================================================== *)

(** [JSON.parse] either returns a value or throws a SyntaxError; the sources
    only use which of the two happens.  The recogniser follows the JSON
    grammar (ECMA-404) in one pass over the text, with a stack of the open
    arrays and objects. *)

Inductive JCtx : Type := InArray | InObject.

Inductive JMode : Type :=
  | MValue                      (* a value must start here *)
  | MValueOrEnd                 (* just after '[': a value or ']' *)
  | MKeyOrEnd                   (* just after '{': a key or '}' *)
  | MKey                        (* after ',' in an object: a key *)
  | MColon                      (* after a key: ':' *)
  | MAfter                      (* a value is complete *)
  | MStr (key : bool)           (* inside a string *)
  | MEsc (key : bool)           (* after a backslash *)
  | MHex (key : bool) (n : nat) (* n hex digits of \uXXXX still due *)
  | MLit (rest : string)        (* inside true / false / null *)
  | MMinus | MZero | MInt | MDot | MFrac | MExp | MExpSign | MExpDigits.

Definition isJsonWs (c : ascii) : bool :=
  Nat.eqb (code c) 32 || Nat.eqb (code c) 9 || Nat.eqb (code c) 10 || Nat.eqb (code c) 13.

Definition isHexDigit (c : ascii) : bool := isRadixDigit 16 c.

Definition isExpMark (c : ascii) : bool := Ascii.eqb c "e" || Ascii.eqb c "E".

Definition startValue (stack : list JCtx) (c : ascii) : option (JMode * list JCtx) :=
  if Ascii.eqb c "{" then Some (MKeyOrEnd, InObject :: stack)
  else if Ascii.eqb c "[" then Some (MValueOrEnd, InArray :: stack)
  else if Ascii.eqb c DQUOTE then Some (MStr false, stack)
  else if Ascii.eqb c "-" then Some (MMinus, stack)
  else if Ascii.eqb c "0" then Some (MZero, stack)
  else if isDigit c then Some (MInt, stack)
  else if Ascii.eqb c "t" then Some (MLit "rue", stack)
  else if Ascii.eqb c "f" then Some (MLit "alse", stack)
  else if Ascii.eqb c "n" then Some (MLit "ull", stack)
  else None.

Definition afterValue (stack : list JCtx) (c : ascii) : option (JMode * list JCtx) :=
  if isJsonWs c then Some (MAfter, stack)
  else
    match stack with
    | InArray :: st =>
        if Ascii.eqb c "," then Some (MValue, stack)
        else if Ascii.eqb c "]" then Some (MAfter, st)
        else None
    | InObject :: st =>
        if Ascii.eqb c "," then Some (MKey, stack)
        else if Ascii.eqb c "}" then Some (MAfter, st)
        else None
    | [] => None
    end.

Definition jsonStep (m : JMode) (stack : list JCtx) (c : ascii)
  : option (JMode * list JCtx) :=
  match m with
  | MValue => if isJsonWs c then Some (MValue, stack) else startValue stack c
  | MValueOrEnd =>
      if isJsonWs c then Some (MValueOrEnd, stack)
      else if Ascii.eqb c "]" then Some (MAfter, tl stack)
      else startValue stack c
  | MKeyOrEnd =>
      if isJsonWs c then Some (MKeyOrEnd, stack)
      else if Ascii.eqb c "}" then Some (MAfter, tl stack)
      else if Ascii.eqb c DQUOTE then Some (MStr true, stack)
      else None
  | MKey =>
      if isJsonWs c then Some (MKey, stack)
      else if Ascii.eqb c DQUOTE then Some (MStr true, stack)
      else None
  | MColon =>
      if isJsonWs c then Some (MColon, stack)
      else if Ascii.eqb c ":" then Some (MValue, stack)
      else None
  | MAfter => afterValue stack c
  | MStr k =>
      if Ascii.eqb c DQUOTE then Some (if k then MColon else MAfter, stack)
      else if Ascii.eqb c "\" then Some (MEsc k, stack)
      else if Nat.ltb (code c) 32 then None
      else Some (MStr k, stack)
  | MEsc k =>
      if Ascii.eqb c "u" then Some (MHex k 4, stack)
      else if Ascii.eqb c DQUOTE || includes "\/bfnrt" (String c EmptyString)
      then Some (MStr k, stack)
      else None
  | MHex k n =>
      if isHexDigit c
      then Some (match n with S (S n') => MHex k (S n') | _ => MStr k end, stack)
      else None
  | MLit rest =>
      match rest with
      | String d r =>
          if Ascii.eqb c d
          then Some (if isEmptyString r then MAfter else MLit r, stack)
          else None
      | EmptyString => None
      end
  | MMinus =>
      if Ascii.eqb c "0" then Some (MZero, stack)
      else if isDigit c then Some (MInt, stack)
      else None
  | MZero =>
      if Ascii.eqb c "." then Some (MDot, stack)
      else if isExpMark c then Some (MExp, stack)
      else afterValue stack c
  | MInt =>
      if isDigit c then Some (MInt, stack)
      else if Ascii.eqb c "." then Some (MDot, stack)
      else if isExpMark c then Some (MExp, stack)
      else afterValue stack c
  | MDot => if isDigit c then Some (MFrac, stack) else None
  | MFrac =>
      if isDigit c then Some (MFrac, stack)
      else if isExpMark c then Some (MExp, stack)
      else afterValue stack c
  | MExp =>
      if Ascii.eqb c "+" || Ascii.eqb c "-" then Some (MExpSign, stack)
      else if isDigit c then Some (MExpDigits, stack)
      else None
  | MExpSign => if isDigit c then Some (MExpDigits, stack) else None
  | MExpDigits =>
      if isDigit c then Some (MExpDigits, stack) else afterValue stack c
  end.

(** At the end of the text a value must be complete and nothing open. *)
Definition jsonAccept (m : JMode) (stack : list JCtx) : bool :=
  match stack, m with
  | [], (MAfter | MZero | MInt | MFrac | MExpDigits) => true
  | _, _ => false
  end.

Fixpoint jsonRun (m : JMode) (stack : list JCtx) (s : string) : bool :=
  match s with
  | EmptyString => jsonAccept m stack
  | String c s' =>
      match jsonStep m stack c with
      | Some (m', stack') => jsonRun m' stack' s'
      | None => false
      end
  end.

(** [true] when [JSON.parse(s)] returns, [false] when it throws. *)
Definition isValidJSON (s : string) : bool := jsonRun MValue [] s.

(* ================================================================== *)
(** * Effects: thrown errors and Math.random *)
(* ================================================================== *)

(** The identifiers [Math.random().toString(36).substr(2, 9)] will yield, in
    the order they are drawn. *)
Definition IdSupply : Type := nat -> string.

Inductive JsError : Type := TypeError | SyntaxError.

Inductive Completion (A : Type) : Type :=
  | Normal (a : A)
  | Throw (e : JsError).
Arguments Normal {A} a.
Arguments Throw {A} e.

(** A computation reads and advances the identifier supply and either
    completes normally or throws. *)
Definition Js (A : Type) : Type := IdSupply -> Completion A * IdSupply.

Definition ret {A} (a : A) : Js A := fun s => (Normal a, s).

Definition bind {A B} (m : Js A) (k : A -> Js B) : Js B :=
  fun s =>
    match m s with
    | (Normal a, s') => k a s'
    | (Throw e, s') => (Throw e, s')
    end.

Definition throw {A} (e : JsError) : Js A := fun s => (Throw e, s).

(** [try { body } catch { handler }] *)
Definition tryCatch {A} (body : Js A) (handler : Js A) : Js A :=
  fun s =>
    match body s with
    | (Normal a, s') => (Normal a, s')
    | (Throw _, s') => handler s'
    end.

Definition randomId : Js string :=
  fun s => (Normal (s 0%nat), fun n => s (S n)).

Declare Scope js_scope.
Delimit Scope js_scope with js.
Notation "x <- c ;; k" := (bind c (fun x => k))
  (at level 61, c at next level, right associativity) : js_scope.
Local Open Scope js_scope.

(** [arr.forEach((x, i) => ...)] where the callback updates captured
    variables [acc]; [i] is the index of [x]. *)
Fixpoint forEachFrom {A B} (f : B -> A -> Z -> Js B) (l : list A) (i : Z) (acc : B)
  : Js B :=
  match l with
  | [] => ret acc
  | x :: l' => acc' <- f acc x i ;; forEachFrom f l' (i + 1)%Z acc'
  end.

Definition forEach {A B} (f : B -> A -> Z -> Js B) (l : list A) (acc : B) : Js B :=
  forEachFrom f l 0%Z acc.

(* ================================================================== *)
(** * Data model (types) *)
(* ================================================================== *)

(** A grid cell is [any] in the source.  The parsers produce strings (CSV),
    and strings, numbers, booleans and holes (spreadsheets); [CNum n] is the
    number with the integer value [n], below 10^21 in absolute value so that
    it prints in plain decimal.  Numbers with a fraction are not modelled. *)
Inductive Cell : Type :=
  | CStr (s : string)
  | CNum (n : Z)
  | CBool (b : bool)
  | CNull
  | CUndefined.

Definition Cell_eqb (a b : Cell) : bool :=
  match a, b with
  | CStr s, CStr t => String.eqb s t
  | CNum n, CNum m => Z.eqb n m
  | CBool x, CBool y => Bool.eqb x y
  | CNull, CNull => true
  | CUndefined, CUndefined => true
  | _, _ => false
  end.

(** ToBoolean *)
Definition truthy (c : Cell) : bool :=
  match c with
  | CStr s => negb (isEmptyString s)
  | CNum n => negb (Z.eqb n 0)
  | CBool b => b
  | CNull => false
  | CUndefined => false
  end.

Definition numberToString (n : Z) : string := NilZero.string_of_int (Z.to_int n).

(** ToString, as a template literal applies it. *)
Definition ToString (c : Cell) : string :=
  match c with
  | CStr s => s
  | CNum n => numberToString n
  | CBool true => "true"
  | CBool false => "false"
  | CNull => "null"
  | CUndefined => "undefined"
  end.

(** [c.toString()]: a property access on null or undefined throws. *)
Definition toString (c : Cell) : Js string :=
  match c with
  | CNull | CUndefined => throw TypeError
  | _ => ret (ToString c)
  end.

(** [row[i]]: out of range reads give undefined. *)
Definition getIndex (row : list Cell) (i : Z) : Cell :=
  if Z.ltb i 0 then CUndefined else nth (Z.to_nat i) row CUndefined.

(** [JSON.parse(s)], result discarded. *)
Definition JSON_parse (s : string) : Js unit :=
  if isValidJSON s then ret tt else throw SyntaxError.

Inductive Severity : Type := error | warning | info.

Inductive IssueType : Type :=
  | missing | duplicate | malformed | range
  | reference | conflict | saturation | coverage.

Record ValidationError : Type := mkValidationError {
  id : string;
  fileId : string;
  row : Z;
  column : Z;
  field : string;
  message : string;
  severity : Severity;
  type : IssueType;
  suggestion : option string
}.

Record DataFile : Type := mkDataFile {
  file_id : string;
  file_name : string;
  file_type : string;
  headers : list string;
  data : list (list Cell);
  originalData : list (list Cell);
  errors : list ValidationError
}.

(** [new Set()], [has] and [add]; insertion ordered, SameValueZero equality. *)
Definition JsSet : Type := list Cell.
Definition Set_has (s : JsSet) (c : Cell) : bool := existsb (Cell_eqb c) s.
Definition Set_add (s : JsSet) (c : Cell) : JsSet :=
  if Set_has s c then s else s ++ [c].

(** [arr.push(x)] *)
Definition push {A} (arr : list A) (x : A) : list A := arr ++ [x].

(** [arr.findIndex(p)] *)
Fixpoint findIndexFrom {A} (p : A -> bool) (l : list A) (i : Z) : Z :=
  match l with
  | [] => (-1)%Z
  | x :: l' => if p x then i else findIndexFrom p l' (i + 1)%Z
  end.

Definition findIndex {A} (p : A -> bool) (l : list A) : Z := findIndexFrom p l 0%Z.

(* ================================================================== *)
(** * utils/validation *)
(* ================================================================== *)

Definition getRequiredColumns (fileType : string) : list string :=
  if String.eqb fileType "clients" then ["id"; "name"; "email"; "priority"]
  else if String.eqb fileType "workers" then ["id"; "name"; "skills"; "availability"]
  else if String.eqb fileType "tasks" then ["id"; "title"; "duration"; "priority"]
  else ["id"].

Definition isIdHeader (header : string) : bool :=
  includes (toLowerCase header) "id" &&
  negb (includes (toLowerCase header) "client") &&
  negb (includes (toLowerCase header) "task") &&
  negb (includes (toLowerCase header) "worker").

Definition findIdColumn (headers : list string) : Z := findIndex isIdHeader headers.

(** The test [!cell || cell.toString().trim() === ''] with its short
    circuit. *)
Definition isBlank (cell : Cell) : Js bool :=
  if negb (truthy cell) then ret true
  else s <- toString cell ;; ret (String.eqb (trim s) EmptyString).

Definition isDollarOrComma (c : ascii) : bool := Ascii.eqb c "$" || Ascii.eqb c ",".

Definition validateCell (file : DataFile) (rowIndex colIndex : Z) (header : string)
    (cell : Cell) : Js (list ValidationError) :=
  let errors : list ValidationError := [] in
  let headerLower := toLowerCase header in
  (* Check for empty required fields *)
  blank <- isBlank cell ;;
  if blank then
    errors <-
      (if includes headerLower "id" || includes headerLower "name"
          || includes headerLower "email"
       then
         i <- randomId ;;
         ret (push errors
                {| id := i; fileId := file_id file; row := rowIndex;
                   column := colIndex; field := header;
                   message := "Missing required value in " ++ header;
                   severity := error; type := missing;
                   suggestion := Some "Provide a value for this required field" |})
       else ret errors) ;;
    ret errors
  else
    s <- toString cell ;;
    let cellStr := trim s in
    (* Email validation *)
    errors <-
      (if includes headerLower "email" then
         if negb (regexTest emailRegex cellStr) then
           i <- randomId ;;
           ret (push errors
                  {| id := i; fileId := file_id file; row := rowIndex;
                     column := colIndex; field := header;
                     message := "Invalid email format: " ++ cellStr;
                     severity := error; type := malformed;
                     suggestion := Some "Use format: user@domain.com" |})
         else ret errors
       else ret errors) ;;
    (* Priority validation *)
    errors <-
      (if includes headerLower "priority" then
         let priority := parseInt cellStr in
         if match priority with
            | None => true
            | Some p => Z.ltb p 1 || Z.ltb 5 p
            end
         then
           i <- randomId ;;
           ret (push errors
                  {| id := i; fileId := file_id file; row := rowIndex;
                     column := colIndex; field := header;
                     message := "Priority must be between 1-5, got: " ++ cellStr;
                     severity := error; type := range;
                     suggestion := Some "Use values 1 (low) to 5 (high)" |})
         else ret errors
       else ret errors) ;;
    (* Duration validation *)
    errors <-
      (if includes headerLower "duration" then
         let duration := parseFloat cellStr in
         if isNaN duration || leZero duration then
           i <- randomId ;;
           ret (push errors
                  {| id := i; fileId := file_id file; row := rowIndex;
                     column := colIndex; field := header;
                     message := "Duration must be a positive number, got: " ++ cellStr;
                     severity := error; type := range;
                     suggestion := Some "Use positive numbers (hours/days)" |})
         else ret errors
       else ret errors) ;;
    (* Budget validation *)
    errors <-
      (if includes headerLower "budget" then
         let budget := parseFloat (replaceAllChars isDollarOrComma EmptyString cellStr) in
         if isNaN budget || ltZero budget then
           i <- randomId ;;
           ret (push errors
                  {| id := i; fileId := file_id file; row := rowIndex;
                     column := colIndex; field := header;
                     message := "Budget must be a positive number, got: " ++ cellStr;
                     severity := warning; type := range;
                     suggestion := Some "Use positive numbers without currency symbols" |})
         else ret errors
       else ret errors) ;;
    (* Skills validation (should be comma-separated) *)
    errors <-
      (if includes headerLower "skill" then
         if includes cellStr ";" || includes cellStr "|" then
           i <- randomId ;;
           ret (push errors
                  {| id := i; fileId := file_id file; row := rowIndex;
                     column := colIndex; field := header;
                     message := "Skills should be comma-separated, got: " ++ cellStr;
                     severity := warning; type := malformed;
                     suggestion :=
                       Some ("Use commas to separate skills: " ++ quote
                             ++ "JavaScript, React, Node.js" ++ quote)%string |})
         else ret errors
       else ret errors) ;;
    (* JSON validation *)
    errors <-
      (if startsWith cellStr "{" || startsWith cellStr "[" then
         tryCatch
           (_ <- JSON_parse cellStr ;; ret errors)
           (i <- randomId ;;
            ret (push errors
                   {| id := i; fileId := file_id file; row := rowIndex;
                      column := colIndex; field := header;
                      message := "Invalid JSON format in " ++ header;
                      severity := error; type := malformed;
                      suggestion := Some "Fix JSON syntax or use plain text" |}))
       else ret errors) ;;
    ret errors.

(** The record of the three variables the duplicate scan updates. *)
Record DupScan : Type := mkDupScan {
  scan_ids : JsSet;
  scan_duplicates : JsSet;
  scan_errors : list ValidationError
}.

Definition headerMatches (col header : string) : bool :=
  includes (toLowerCase header) (toLowerCase col) ||
  includes (toLowerCase col) (toLowerCase header).

Definition validateData (file : DataFile) : Js (list ValidationError) :=
  let errors : list ValidationError := [] in
  (* Check for missing columns based on file type *)
  let requiredColumns := getRequiredColumns (file_type file) in
  let missingColumns :=
    filter (fun col => negb (existsb (headerMatches col) (headers file)))
      requiredColumns in
  errors <-
    forEach (fun errors col _ =>
      i <- randomId ;;
      ret (push errors
             {| id := i; fileId := file_id file; row := (-1)%Z; column := (-1)%Z;
                field := col;
                message := "Missing required column: " ++ col;
                severity := error; type := missing;
                suggestion :=
                  Some ("Add a column for " ++ col
                        ++ " or rename an existing column")%string |}))
      missingColumns errors ;;
  (* Validate each row *)
  errors <-
    forEach (fun errors row rowIndex =>
      forEach (fun errors header colIndex =>
        let cell := getIndex row colIndex in
        cellErrors <- validateCell file rowIndex colIndex header cell ;;
        ret (errors ++ cellErrors))
        (headers file) errors)
      (data file) errors ;;
  (* Check for duplicate IDs *)
  let idColumn := findIdColumn (headers file) in
  if negb (Z.eqb idColumn (-1)) then
    let ids : JsSet := [] in
    let duplicates : JsSet := [] in
    st <-
      forEach (fun st row rowIndex =>
        let i := getIndex row idColumn in
        st <-
          (if truthy i && Set_has (scan_ids st) i then
             rid <- randomId ;;
             ret {| scan_ids := scan_ids st;
                    scan_duplicates := Set_add (scan_duplicates st) i;
                    scan_errors :=
                      push (scan_errors st)
                        {| id := rid; fileId := file_id file; row := rowIndex;
                           column := idColumn;
                           field := nth (Z.to_nat idColumn) (headers file) EmptyString;
                           message := "Duplicate ID: " ++ ToString i;
                           severity := error; type := duplicate;
                           suggestion := Some "Ensure all IDs are unique" |} |}
           else ret st) ;;
        ret {| scan_ids := Set_add (scan_ids st) i;
               scan_duplicates := scan_duplicates st;
               scan_errors := scan_errors st |})
        (data file)
        {| scan_ids := ids; scan_duplicates := duplicates; scan_errors := errors |} ;;
    ret (scan_errors st)
  else ret errors.

(* ================================================================== *)
(** * components/FileUpload.tsx *)
(* ================================================================== *)

Definition detectFileType (fileName : string) (headers : list string) : string :=
  let name := toLowerCase fileName in
  let headerStr := toLowerCase (join " " headers) in
  if includes name "client" || includes headerStr "client"
     || includes headerStr "customer"
  then "clients"
  else if includes name "worker" || includes name "employee"
          || includes headerStr "worker" || includes headerStr "employee"
  then "workers"
  else "tasks".

(** The class [[^a-z0-9]]. *)
Definition notLowerAlnum (c : ascii) : bool := negb (isLowerAlpha c || isDigit c).

(** [header.toString().trim().toLowerCase().replace(/[^a-z0-9]/g, '_')] *)
Definition normalizeHeader (header : string) : string :=
  replaceAllChars notLowerAlnum "_" (toLowerCase (trim header)).

(** ** Papa.parse

    The CSV reader is the papaparse library, called with
    [{ header: false, skipEmptyLines: true }].  It is modelled as the
    character-level reader of RFC 4180 text that papaparse implements: fields
    separated by commas, rows by line feeds, a field that starts with a
    double quote runs to the closing quote with doubled quotes standing for
    one.  Papaparse's guessing of the delimiter and of the line break is not
    modelled: the reader below is the one it runs when it settles on the
    comma and the line feed. *)

Inductive CsvState : Type :=
  | FieldStart      (* nothing of the field read yet *)
  | Unquoted        (* inside an unquoted field *)
  | Quoted          (* inside a quoted field *)
  | QuoteSeen.      (* a quote inside a quoted field: closing, or half of a doubled one *)

Definition appendChar (s : string) (c : ascii) : string := s ++ String c EmptyString.

(** [fld] is the text of the field being read, [fields] the fields of the
    row read so far. *)
Fixpoint parseCsv (st : CsvState) (fld : string) (fields : list string)
    (input : string) : list (list string) :=
  match input with
  | EmptyString => [fields ++ [fld]]
  | String c rest =>
      match st with
      | FieldStart =>
          if Ascii.eqb c DQUOTE then parseCsv Quoted fld fields rest
          else if Ascii.eqb c "," then parseCsv FieldStart EmptyString (fields ++ [fld]) rest
          else if Ascii.eqb c LF then (fields ++ [fld]) :: parseCsv FieldStart EmptyString [] rest
          else parseCsv Unquoted (appendChar fld c) fields rest
      | Unquoted =>
          if Ascii.eqb c "," then parseCsv FieldStart EmptyString (fields ++ [fld]) rest
          else if Ascii.eqb c LF then (fields ++ [fld]) :: parseCsv FieldStart EmptyString [] rest
          else parseCsv Unquoted (appendChar fld c) fields rest
      | Quoted =>
          if Ascii.eqb c DQUOTE then parseCsv QuoteSeen fld fields rest
          else parseCsv Quoted (appendChar fld c) fields rest
      | QuoteSeen =>
          if Ascii.eqb c DQUOTE then parseCsv Quoted (appendChar fld DQUOTE) fields rest
          else if Ascii.eqb c "," then parseCsv FieldStart EmptyString (fields ++ [fld]) rest
          else if Ascii.eqb c LF then (fields ++ [fld]) :: parseCsv FieldStart EmptyString [] rest
          else parseCsv Quoted (appendChar (appendChar fld DQUOTE) c) fields rest
      end
  end.

(** papaparse's [testEmptyLine] without the greedy option: a row that is a
    single empty field. *)
Definition testEmptyLine (r : list string) : bool :=
  match r with
  | [f] => isEmptyString f
  | _ => false
  end.

(** [results.data] of [Papa.parse(text, { header: false, skipEmptyLines: true })] *)
Definition papaParse (input : string) : list (list string) :=
  filter (fun r => negb (testEmptyLine r)) (parseCsv FieldStart EmptyString [] input).

(** The csv branch of [processFile]: [fileName] is [file.name], [text] the
    content of the file.  [None] is the null the promise resolves to. *)
Definition processFile (fileName : string) (text : string) : Js (option DataFile) :=
  match papaParse text with
  | firstRow :: rest =>
      let headers := map normalizeHeader firstRow in
      let data := map (map CStr) rest in
      i <- randomId ;;
      ret (Some {| file_id := i;
                   file_name := fileName;
                   file_type := detectFileType fileName headers;
                   headers := headers;
                   data := data;
                   originalData := data;
                   errors := [] |})
  | [] => ret None
  end.

(* ================================================================== *)
(** * components/ExportPanel *)
(* ================================================================== *)

(** [cell?.toString() || ''] *)
Definition cellText (cell : Cell) : string :=
  match cell with
  | CNull | CUndefined => EmptyString
  | _ => ToString cell
  end.

Definition csvCell (cell : Cell) : string :=
  let cellStr := cellText cell in
  if includes cellStr "," || includes cellStr quote
     || includes cellStr (String LF EmptyString)
  then quote ++ replaceAllChars (Ascii.eqb DQUOTE) (quote ++ quote) cellStr ++ quote
  else cellStr.

Definition generateCleanedCSV (file : DataFile) : string :=
  let headers := join "," (headers file) in
  let rows := map (fun row => join "," (map csvCell row)) (data file) in
  join (String LF EmptyString) (headers :: rows).

(* ================================================================== *)
(** * components/PrioritizationInterface *)
(* ================================================================== *)

(** The arithmetic [handleSliderChange] uses.  The program runs on IEEE
    doubles ([Arith_double]); [Arith_Q] reads the same code over the
    rationals, where no operation rounds. *)
Class Arith (N : Type) : Type := {
  num_zero : N;
  num_add : N -> N -> N;
  num_div : N -> N -> N;
  num_gt : N -> N -> bool
}.

#[global] Instance Arith_double : Arith PrimFloat.float := {
  num_zero := PrimFloat.zero;
  num_add := PrimFloat.add;
  num_div := PrimFloat.div;
  num_gt := fun a b => PrimFloat.ltb b a
}.


Record PriorityWeights (N : Type) : Type := mkPriorityWeights {
  priorityLevel : N;
  taskFulfillment : N;
  fairness : N;
  efficiency : N;
  resourceUtilization : N
}.
Arguments mkPriorityWeights {N}.
Arguments priorityLevel {N}.
Arguments taskFulfillment {N}.
Arguments fairness {N}.
Arguments efficiency {N}.
Arguments resourceUtilization {N}.

(** [keyof PriorityWeights] *)
Inductive WeightKey : Type :=
  | KpriorityLevel | KtaskFulfillment | Kfairness | Kefficiency
  | KresourceUtilization.

Section Weights.
Context {N : Type} `{Arith N}.

  (** [{ ...priorities, [key]: value }] *)
Definition setWeight (p : PriorityWeights N) (key : WeightKey) (value : N)
    : PriorityWeights N :=
    match key with
    | KpriorityLevel =>
        mkPriorityWeights value (taskFulfillment p) (fairness p) (efficiency p)
          (resourceUtilization p)
    | KtaskFulfillment =>
        mkPriorityWeights (priorityLevel p) value (fairness p) (efficiency p)
          (resourceUtilization p)
    | Kfairness =>
        mkPriorityWeights (priorityLevel p) (taskFulfillment p) value (efficiency p)
          (resourceUtilization p)
    | Kefficiency =>
        mkPriorityWeights (priorityLevel p) (taskFulfillment p) (fairness p) value
          (resourceUtilization p)
    | KresourceUtilization =>
        mkPriorityWeights (priorityLevel p) (taskFulfillment p) (fairness p)
          (efficiency p) value
    end.

  (** [Object.values(p)], in the order the keys were created. *)
Definition weightValues (p : PriorityWeights N) : list N :=
    [priorityLevel p; taskFulfillment p; fairness p; efficiency p;
     resourceUtilization p].

  (** [Object.values(p).reduce((sum, val) => sum + val, 0)] *)
Definition weightTotal (p : PriorityWeights N) : N :=
    fold_left num_add (weightValues p) num_zero.

Definition mapWeights (f : N -> N) (p : PriorityWeights N) : PriorityWeights N :=
    mkPriorityWeights (f (priorityLevel p)) (f (taskFulfillment p)) (f (fairness p))
      (f (efficiency p)) (f (resourceUtilization p)).

  (** The vector handed to [onPrioritiesUpdate]. *)
Definition handleSliderChange (priorities : PriorityWeights N) (key : WeightKey)
      (value : N) : PriorityWeights N :=
    let newPriorities := setWeight priorities key value in
    (* Normalize to ensure sum equals 1 *)
    let total := weightTotal newPriorities in
    if num_gt total num_zero
    then mapWeights (fun w => num_div w total) newPriorities
    else newPriorities.
End Weights.


(* ================================================================== *)
(** * types: rules, and the matching contract of a condition *)
(* ================================================================== *)

Inductive Operator : Type :=
  | equals | not_equals | greater_than | less_than
  | contains | regex | op_in | not_in.

Inductive LogicalOperator : Type := AND | OR.

(** [RuleCondition] of the types module; [value] is the text the rule form
    stores. *)
Record RuleCondition : Type := mkRuleCondition {
  cond_field : string;
  operator : Operator;
  cond_value : string;
  logicalOperator : option LogicalOperator
}.

(** [s.split(c)] for a one-character separator. *)
Fixpoint splitOn (c : ascii) (s : string) : list string :=
  match s with
  | EmptyString => [EmptyString]
  | String d s' =>
      if Ascii.eqb d c then EmptyString :: splitOn c s'
      else
        match splitOn c s' with
        | t :: ts => String d t :: ts
        | [] => [String d EmptyString]
        end
  end.

Section RuleEvaluator.
  (** How a text is read as a number ([None]: not numeric) and how a pattern
      is compiled case-insensitively ([None]: invalid pattern).  The matching
      contract names both without fixing them. *)
Variable toNumber : string -> option Q.
Variable compileIgnoreCase : string -> option (string -> bool).

  (** Modelled from the spec: the rule evaluator.  The sources hold the rule
      and condition types and the form that edits them, but no function that
      evaluates a condition; this definition follows the operator semantics
      of the matching contract (section 4.4): [v] is the field value of the
      row, [cond_value c] the comparison value. *)
Definition evaluateCondition (c : RuleCondition) (v : string) : bool :=
    let x := cond_value c in
    match operator c with
    | equals => String.eqb v x
    | not_equals => negb (String.eqb v x)
    | greater_than =>
        match toNumber v, toNumber x with
        | Some a, Some b => negb (Qle_bool a b)
        | _, _ => false
        end
    | less_than =>
        match toNumber v, toNumber x with
        | Some a, Some b => negb (Qle_bool b a)
        | _, _ => false
        end
    | contains => includes (toLowerCase v) (toLowerCase x)
    | regex =>
        match compileIgnoreCase x with
        | Some test => test v
        | None => false
        end
    | op_in =>
        existsb (fun item => String.eqb (toLowerCase item) (toLowerCase v))
          (splitOn "," x)
    | not_in =>
        negb (existsb (fun item => String.eqb (toLowerCase item) (toLowerCase v))
                (splitOn "," x))
    end.
End RuleEvaluator.

(* ================================================================== *)
(** * Reading the result of a computation *)
(* ================================================================== *)

(** The identifier supply that always yields the empty string. *)
Definition noIds : IdSupply := fun _ => EmptyString.

(** The issues a computation returns, as a plain list (empty if it throws). *)
Definition issuesOf (r : Completion (list ValidationError) * IdSupply)
  : list ValidationError :=
  match fst r with
  | Normal l => l
  | Throw _ => []
  end.

(** An issue with its identifier replaced. *)
Definition withId (i : string) (e : ValidationError) : ValidationError :=
  {| id := i; fileId := fileId e; row := row e; column := column e;
     field := field e; message := message e; severity := severity e;
     type := type e; suggestion := suggestion e |}.

(** An issue with its random identifier blanked. *)
Definition eraseId (e : ValidationError) : ValidationError := withId EmptyString e.

(** The supply after [k] identifiers were drawn. *)
Definition dropIds (k : nat) (ids : IdSupply) : IdSupply := fun n => ids (k + n)%nat.

Definition IssueType_eqb (a b : IssueType) : bool :=
  match a, b with
  | missing, missing | duplicate, duplicate | malformed, malformed
  | range, range | reference, reference | conflict, conflict
  | saturation, saturation | coverage, coverage => true
  | _, _ => false
  end.

Definition Severity_eqb (a b : Severity) : bool :=
  match a, b with
  | error, error | warning, warning | info, info => true
  | _, _ => false
  end.

(* ================================================================== *)
(** * The issues of a validation pass, identifiers apart *)
(* ================================================================== *)

(** The definitions of this section describe what [validateCell] and
    [validateData] emit as plain lists of issues with blank identifiers.
    They are proved to agree with the code ([validateCell_issues],
    [validateData_issues]) and carry the statements about it. *)

(** The test at the top of [validateCell], as a value. *)
Definition blankCell (cell : Cell) : bool :=
  negb (truthy cell) || String.eqb (trim (ToString cell)) EmptyString.

(** A check: whether it fires, and the issue it pushes. *)
Definition Check : Type := (bool * ValidationError)%type.

(** Run the checks in order; each one that fires draws an identifier and
    pushes its issue. *)
Fixpoint emitAll (errors : list ValidationError) (checks : list Check)
  : Js (list ValidationError) :=
  match checks with
  | [] => ret errors
  | (fires, e) :: rest =>
      errors' <-
        (if fires then i <- randomId ;; ret (push errors (withId i e))
         else ret errors) ;;
      emitAll errors' rest
  end.

Definition fired (checks : list Check) : list ValidationError :=
  map snd (filter fst checks).

Definition issueAt (file : DataFile) (r c : Z) (header msg : string)
    (sev : Severity) (ty : IssueType) (sugg : string) : ValidationError :=
  {| id := EmptyString; fileId := file_id file; row := r; column := c;
     field := header; message := msg; severity := sev; type := ty;
     suggestion := Some sugg |}.

(** The check of a blank cell. *)
Definition requiredCheck (file : DataFile) (r c : Z) (header : string) : Check :=
  let headerLower := toLowerCase header in
  (includes headerLower "id" || includes headerLower "name"
     || includes headerLower "email",
   issueAt file r c header ("Missing required value in " ++ header) error missing
     "Provide a value for this required field").

Definition emailCheck (file : DataFile) (r c : Z) (header cellStr : string) : Check :=
  (includes (toLowerCase header) "email" && negb (regexTest emailRegex cellStr),
   issueAt file r c header ("Invalid email format: " ++ cellStr) error malformed
     "Use format: user@domain.com").

(** [true] when the priority test of [validateCell] lets the value pass. *)
Definition priorityInRange (cellStr : string) : bool :=
  match parseInt cellStr with
  | None => false
  | Some p => Z.leb 1 p && Z.leb p 5
  end.

Definition priorityCheck (file : DataFile) (r c : Z) (header cellStr : string) : Check :=
  (includes (toLowerCase header) "priority" && negb (priorityInRange cellStr),
   issueAt file r c header ("Priority must be between 1-5, got: " ++ cellStr)
     error range "Use values 1 (low) to 5 (high)").

Definition durationCheck (file : DataFile) (r c : Z) (header cellStr : string) : Check :=
  (includes (toLowerCase header) "duration"
     && (isNaN (parseFloat cellStr) || leZero (parseFloat cellStr)),
   issueAt file r c header ("Duration must be a positive number, got: " ++ cellStr)
     error range "Use positive numbers (hours/days)").

Definition budgetCheck (file : DataFile) (r c : Z) (header cellStr : string) : Check :=
  let budget := parseFloat (replaceAllChars isDollarOrComma EmptyString cellStr) in
  (includes (toLowerCase header) "budget" && (isNaN budget || ltZero budget),
   issueAt file r c header ("Budget must be a positive number, got: " ++ cellStr)
     warning range "Use positive numbers without currency symbols").

Definition skillsCheck (file : DataFile) (r c : Z) (header cellStr : string) : Check :=
  (includes (toLowerCase header) "skill"
     && (includes cellStr ";" || includes cellStr "|"),
   issueAt file r c header ("Skills should be comma-separated, got: " ++ cellStr)
     warning malformed
     ("Use commas to separate skills: " ++ quote ++ "JavaScript, React, Node.js"
      ++ quote)).

Definition looksLikeJSON (cellStr : string) : bool :=
  startsWith cellStr "{" || startsWith cellStr "[".

Definition jsonCheck (file : DataFile) (r c : Z) (header cellStr : string) : Check :=
  (looksLikeJSON cellStr && negb (isValidJSON cellStr),
   issueAt file r c header ("Invalid JSON format in " ++ header) error malformed
     "Fix JSON syntax or use plain text").

(** The checks of a cell that is not blank, in the order of the code. *)
Definition cellChecks (file : DataFile) (r c : Z) (header cellStr : string)
  : list Check :=
  [emailCheck file r c header cellStr; priorityCheck file r c header cellStr;
   durationCheck file r c header cellStr; budgetCheck file r c header cellStr;
   skillsCheck file r c header cellStr; jsonCheck file r c header cellStr].

(** What [validateCell] emits for a cell. *)
Definition cellIssues (file : DataFile) (r c : Z) (header : string) (cell : Cell)
  : list ValidationError :=
  if blankCell cell then fired [requiredCheck file r c header]
  else fired (cellChecks file r c header (trim (ToString cell))).

(** [flat_map] with the index of each element, counted from [i]. *)
Fixpoint indexedFlatMap {A B} (f : A -> Z -> list B) (l : list A) (i : Z) : list B :=
  match l with
  | [] => []
  | x :: l' => f x i ++ indexedFlatMap f l' (i + 1)%Z
  end.

Definition missingColumns (file : DataFile) : list string :=
  filter (fun col => negb (existsb (headerMatches col) (headers file)))
    (getRequiredColumns (file_type file)).

Definition missingIssue (file : DataFile) (col : string) : ValidationError :=
  issueAt file (-1) (-1) col ("Missing required column: " ++ col) error missing
    ("Add a column for " ++ col ++ " or rename an existing column").

(** Step 1 of [validateData]. *)
Definition missingIssues (file : DataFile) : list ValidationError :=
  map (missingIssue file) (missingColumns file).

(** Step 2 of [validateData]. *)
Definition gridIssues (file : DataFile) : list ValidationError :=
  indexedFlatMap
    (fun row rowIndex =>
       indexedFlatMap
         (fun header colIndex =>
            cellIssues file rowIndex colIndex header (getIndex row colIndex))
         (headers file) 0%Z)
    (data file) 0%Z.

Definition duplicateIssue (file : DataFile) (idColumn rowIndex : Z) (i : Cell)
  : ValidationError :=
  issueAt file rowIndex idColumn (nth (Z.to_nat idColumn) (headers file) EmptyString)
    ("Duplicate ID: " ++ ToString i) error duplicate "Ensure all IDs are unique".

(** Step 3 of [validateData]: the scan of the identifier column, [ids] being
    the set of the values seen above row [rowIndex]. *)
Fixpoint duplicateScan (file : DataFile) (idColumn : Z) (ids : JsSet)
    (rows : list (list Cell)) (rowIndex : Z) : list ValidationError :=
  match rows with
  | [] => []
  | row :: rest =>
      let i := getIndex row idColumn in
      (if truthy i && Set_has ids i
       then [duplicateIssue file idColumn rowIndex i] else [])
      ++ duplicateScan file idColumn (Set_add ids i) rest (rowIndex + 1)%Z
  end.

Definition duplicateIssues (file : DataFile) : list ValidationError :=
  let idColumn := findIdColumn (headers file) in
  if negb (Z.eqb idColumn (-1))
  then duplicateScan file idColumn [] (data file) 0%Z
  else [].

(** What [validateData] emits for a file. *)
Definition fileIssues (file : DataFile) : list ValidationError :=
  missingIssues file ++ gridIssues file ++ duplicateIssues file.

(** A loop body that never throws and only appends issues: [body x i], up to
    the identifiers. *)
Definition Appends {A : Type}
    (f : list ValidationError -> A -> Z -> Js (list ValidationError))
    (body : A -> Z -> list ValidationError) : Prop :=
  forall errors x i ids,
  exists new ids',
    f errors x i ids = (Normal (errors ++ new), ids') /\
    map eraseId new = body x i.

(** The callback of the loop of [validateData] that looks for repeated
    identifiers, named. *)
Definition duplicateStep (file : DataFile) (idColumn : Z)
    (st : DupScan) (row : list Cell) (rowIndex : Z) : Js DupScan :=
  let i := getIndex row idColumn in
  st <-
    (if truthy i && Set_has (scan_ids st) i then
       rid <- randomId ;;
       ret {| scan_ids := scan_ids st;
              scan_duplicates := Set_add (scan_duplicates st) i;
              scan_errors :=
                push (scan_errors st)
                  {| id := rid; fileId := file_id file; row := rowIndex;
                     column := idColumn;
                     field := nth (Z.to_nat idColumn) (headers file) EmptyString;
                     message := "Duplicate ID: " ++ ToString i;
                     severity := error; type := duplicate;
                     suggestion := Some "Ensure all IDs are unique" |} |}
     else ret st) ;;
  ret {| scan_ids := Set_add (scan_ids st) i;
         scan_duplicates := scan_duplicates st;
         scan_errors := scan_errors st |}.

(* ================================================================== *)
(** * Vocabulary of the statements *)
(* ================================================================== *)

(** A file-level issue: one that names no row. *)
Definition isFileLevel (e : ValidationError) : bool := Z.eqb (row e) (-1).

Definition isDuplicateIssue (e : ValidationError) : bool :=
  IssueType_eqb (type e) duplicate.

(** The issue of the priority check, recognised by its message. *)
Definition isPriorityIssue (e : ValidationError) : bool :=
  prefix "Priority must be between 1-5, got: " (message e).

(** The issue of the JSON check, recognised by its message. *)
Definition isJsonIssue (e : ValidationError) : bool :=
  prefix "Invalid JSON format in " (message e).

(** The value of the identifier column in row [i] of the grid. *)
Definition idValue (file : DataFile) (i : nat) : Cell :=
  getIndex (nth i (data file) []) (findIdColumn (headers file)).

(** A header on which only the priority check (and the JSON check) can
    fire. *)
Definition priorityOnlyHeader (header : string) : bool :=
  let h := toLowerCase header in
  includes h "priority" && negb (includes h "email") && negb (includes h "duration")
  && negb (includes h "budget") && negb (includes h "skill").

(** A header whose blank cells are reported. *)
Definition requiredHeader (header : string) : bool :=
  let h := toLowerCase header in
  includes h "id" || includes h "name" || includes h "email".

(** The reading of the specification's words [parses as an integer in 1..5]:
    the whole text is an optionally signed decimal integer with that value. *)
Definition wholeIntegerInRange (s : string) : bool :=
  let (_, digits) := stripSign s in
  negb (isEmptyString digits)
  && isEmptyString (snd (span isDigit digits))
  && priorityInRange s.

(** What every issue of a cell records. *)
Definition cellIssueOf (file : DataFile) (r c : Z) (header : string)
    (e : ValidationError) : Prop :=
  fileId e = file_id file /\ row e = r /\ column e = c /\ field e = header /\
  type e <> duplicate /\ suggestion e <> None.

(* ================================================================== *)
(** * Sample inputs *)
(* ================================================================== *)

Definition sampleFile (fileType : string) (headers : list string)
    (data : list (list Cell)) : DataFile :=
  {| file_id := "f1"; file_name := "sample.csv"; file_type := fileType;
     headers := headers; data := data; originalData := data; errors := [] |}.

(** Identifier column A, B, A, C, A. *)
Definition abacaFile : DataFile :=
  sampleFile "tasks" ["id"]
    [[CStr "A"]; [CStr "B"]; [CStr "A"]; [CStr "C"]; [CStr "A"]].

(** Two rows whose identifier cell is empty. *)
Definition blankIdsFile : DataFile :=
  sampleFile "clients" ["id"; "name"]
    [[CStr EmptyString; CStr "Ann"]; [CStr EmptyString; CStr "Bob"]].


(** A clients file with no email column. *)
Definition clientsNoEmail : DataFile :=
  sampleFile "clients" ["id"; "name"; "priority"]
    [[CStr "c1"; CStr "Ann"; CStr "3"]].

(** The texts [{"a":1}] and [{"a":1]. *)
Definition jsonClosed : string := "{" ++ quote ++ "a" ++ quote ++ ":1}".
Definition jsonOpen : string := "{" ++ quote ++ "a" ++ quote ++ ":1".

(** A grid with a malformed JSON cell in its first row. *)
Definition jsonFile : DataFile :=
  sampleFile "tasks" ["id"; "title"; "duration"; "priority"]
    [[CStr "t1"; CStr jsonOpen; CStr "2"; CStr "1"];
     [CStr "t1"; CStr jsonClosed; CStr "0"; CStr "9"]].

(* ================================================================== *)
(** * Vocabulary of the export and re-import statement *)
(* ================================================================== *)

(** The quoting of [generateCleanedCSV], on the text of a cell. *)
Definition needsQuote (s : string) : bool :=
  includes s "," || includes s quote || includes s (String LF EmptyString).

Definition doubleQuotes (s : string) : string :=
  replaceAllChars (Ascii.eqb DQUOTE) (quote ++ quote) s.

Definition csvField (s : string) : string :=
  if needsQuote s then quote ++ doubleQuotes s ++ quote else s.


Fixpoint allChars (p : ascii -> bool) (s : string) : bool :=
  match s with
  | EmptyString => true
  | String c s' => p c && allChars p s'
  end.

(** A row that is written as an empty line: no field, or one empty field. *)
Definition blankLine (fields : list string) : bool :=
  match fields with
  | [] => true
  | [f] => isEmptyString f
  | _ => false
  end.





(* ================================================================== *)
(** * The identifiers of the issues *)
(* ================================================================== *)

(** The supply after one identifier was drawn. *)
Definition tailIds (ids : IdSupply) : IdSupply := fun n => ids (S n).

(** The supply after [k] identifiers were drawn, one after the other. *)
Fixpoint afterDraws (k : nat) (ids : IdSupply) : IdSupply :=
  match k with
  | O => ids
  | S k' => afterDraws k' (tailIds ids)
  end.

(** The issues [bodies] carrying, in order, the identifiers the supply
    yields. *)
Fixpoint stamp (ids : IdSupply) (bodies : list ValidationError)
  : list ValidationError :=
  match bodies with
  | [] => []
  | b :: bs => withId (ids 0%nat) b :: stamp (tailIds ids) bs
  end.

(** A loop body that never throws and appends [body x i], stamped with the
    identifiers it draws. *)
Definition AppendsStamped {A : Type}
    (f : list ValidationError -> A -> Z -> Js (list ValidationError))
    (body : A -> Z -> list ValidationError) : Prop :=
  forall errors x i ids,
    f errors x i ids
    = (Normal (errors ++ stamp ids (body x i)), afterDraws (length (body x i)) ids).

(** No two positions of the supply hold the same identifier. *)
Definition distinctIds (ids : IdSupply) : Prop :=
  forall i j : nat, ids i = ids j -> i = j.

(** A supply that never repeats itself: the n-th identifier is n letters
    long. *)
Fixpoint countingIds (n : nat) : string :=
  match n with
  | O => EmptyString
  | S k => String "a" (countingIds k)
  end.

(* ================================================================== *)
(** * What a regular expression matches *)
(* ================================================================== *)

(** The strings a regular expression denotes. *)
Inductive matches : Regex -> string -> Prop :=
  | matches_eps : matches REps EmptyString
  | matches_class p c : p c = true -> matches (RClass p) (String c EmptyString)
  | matches_seq r1 r2 s1 s2 :
      matches r1 s1 -> matches r2 s2 -> matches (RSeq r1 r2) (s1 ++ s2)
  | matches_alt_l r1 r2 s : matches r1 s -> matches (RAlt r1 r2) s
  | matches_alt_r r1 r2 s : matches r2 s -> matches (RAlt r1 r2) s
  | matches_star_nil r : matches (RStar r) EmptyString
  | matches_star_cons r s1 s2 :
      matches r s1 -> matches (RStar r) s2 -> matches (RStar r) (s1 ++ s2).

(** A non-empty run of characters other than white space and the at sign. *)
Definition emailPart (s : string) : Prop :=
  s <> EmptyString /\ allChars notSpaceNorAt s = true.

(** The shape local@domain.tld. *)
Definition emailShape (s : string) : Prop :=
  exists l d t,
    s = (l ++ "@" ++ d ++ "." ++ t)%string /\
    emailPart l /\ emailPart d /\ emailPart t.

(** The issue of the email check, recognised by its message. *)
Definition isEmailIssue (e : ValidationError) : bool :=
  prefix "Invalid email format: " (message e).

(** Two rows with the same foreign key, and no column the scan for
    duplicates accepts as the identifier. *)
Definition foreignKeyFile : DataFile :=
  sampleFile "tasks" ["client_id"; "title"]
    [[CStr "c1"; CStr "a"]; [CStr "c1"; CStr "b"]].

(** A clients file whose first column has an empty header. *)
Definition emptyHeaderFile : DataFile :=
  sampleFile "clients" [EmptyString; "name"] [[CStr "1"; CStr "Ann"]].

(* ================================================================== *)
(** * components/ExportPanel: original data and the validation report *)
(* ================================================================== *)

(** An element of [row.join(',')]: null and undefined give the empty
    string, every other value its string. *)
Definition joinElement (cell : Cell) : string :=
  match cell with
  | CNull | CUndefined => EmptyString
  | _ => ToString cell
  end.

(** The text [handleExport] downloads for the original data of a file. *)
Definition originalCsv (file : DataFile) : string :=
  join (String LF EmptyString)
    (join "," (headers file)
     :: map (fun row => join "," (map joinElement row)) (originalData file)).

(** [{ ...file, data: newData }] *)
Definition setData (file : DataFile) (newData : list (list Cell)) : DataFile :=
  {| file_id := file_id file;
     file_name := file_name file;
     file_type := file_type file;
     headers := headers file;
     data := newData;
     originalData := originalData file;
     errors := errors file |}.

(** page: [handleDataUpdate] *)
Definition handleDataUpdate (fileId : string) (newData : list (list Cell))
    (files : list DataFile) : list DataFile :=
  map (fun file => if String.eqb (file_id file) fileId
                   then setData file newData else file) files.

(** A [Record<string, number>] filled by a [reduce]: the keys in the order
    of their first assignment. *)
Definition Tally (K : Type) : Type := list (K * Z).

Fixpoint tallyGet {K} (eqb : K -> K -> bool) (acc : Tally K) (k : K) : option Z :=
  match acc with
  | [] => None
  | (k', n) :: rest => if eqb k' k then Some n else tallyGet eqb rest k
  end.

Fixpoint tallySet {K} (eqb : K -> K -> bool) (acc : Tally K) (k : K) (v : Z)
    : Tally K :=
  match acc with
  | [] => [(k, v)]
  | (k', n) :: rest =>
      if eqb k' k then (k', v) :: rest else (k', n) :: tallySet eqb rest k v
  end.

(** [acc[k] = (acc[k] || 0) + 1] *)
Definition tallyBump {K} (eqb : K -> K -> bool) (acc : Tally K) (k : K) : Tally K :=
  let old := match tallyGet eqb acc k with
             | Some n => if Z.eqb n 0 then 0%Z else n
             | None => 0%Z
             end in
  tallySet eqb acc k (old + 1)%Z.

Record ReportSummary : Type := mkReportSummary {
  totalFiles : Z;
  totalRows : Z;
  totalErrors : Z;
  errorsByType : Tally IssueType;
  errorsBySeverity : Tally Severity
}.

Record FileReport : Type := mkFileReport {
  report_name : string;
  report_type : string;
  report_rows : Z;
  report_columns : Z;
  report_errors : Z;
  errorDetails : list ValidationError
}.

Record ValidationReport : Type := mkValidationReport {
  summary : ReportSummary;
  report_files : list FileReport
}.

Definition lengthZ {A} (l : list A) : Z := Z.of_nat (length l).

(** [generateValidationReport], without its time stamp. *)
Definition generateValidationReport (files : list DataFile) : ValidationReport :=
  let allErrors := flat_map errors files in
  let errorsByType :=
    fold_left (fun acc error => tallyBump IssueType_eqb acc (type error))
      allErrors [] in
  let errorsBySeverity :=
    fold_left (fun acc error => tallyBump Severity_eqb acc (severity error))
      allErrors [] in
  {| summary :=
       {| totalFiles := lengthZ files;
          totalRows := fold_left (fun sum file => (sum + lengthZ (data file))%Z)
                         files 0%Z;
          totalErrors := lengthZ allErrors;
          errorsByType := errorsByType;
          errorsBySeverity := errorsBySeverity |};
     report_files :=
       map (fun file => {| report_name := file_name file;
                           report_type := file_type file;
                           report_rows := lengthZ (data file);
                           report_columns := lengthZ (headers file);
                           report_errors := lengthZ (errors file);
                           errorDetails := errors file |}) files |}.

(** The files the page can hold: what an upload of CSV texts returned,
    after any number of grid edits. *)
Inductive PageFiles : list DataFile -> Prop :=
  | page_uploaded files :
      Forall (fun file => exists fileName text ids ids',
                processFile fileName text ids = (Normal (Some file), ids')) files ->
      PageFiles files
  | page_edited files fileId newData :
      PageFiles files -> PageFiles (handleDataUpdate fileId newData files).

Definition sumZ (l : list Z) : Z := fold_right Z.add 0%Z l.

Definition sumNat (l : list nat) : nat := fold_right Nat.add 0%nat l.

(** How often a key occurs. *)
Definition occurrences {K} (eqb : K -> K -> bool) (k : K) (l : list K) : Z :=
  lengthZ (filter (eqb k) l).

Definition tallyOf {K} (eqb : K -> K -> bool) (l : list K) : Tally K :=
  fold_left (fun acc k => tallyBump eqb acc k) l [].

(** The state of a tally after the keys [seen]. *)
Definition TallyOk {K} (eqb : K -> K -> bool) (seen : list K) (acc : Tally K)
    : Prop :=
  (forall k, tallyGet eqb acc k
             = if Z.eqb (occurrences eqb k seen) 0 then None
               else Some (occurrences eqb k seen)) /\
  NoDup (map fst acc) /\
  sumZ (map snd acc) = lengthZ seen.

(* ================================================================== *)
(** * components/DataGrid *)
(* ================================================================== *)

(** The validation effect: the issues of every file, in the order of the
    files. *)
Definition validateAll (files : list DataFile) : Js (list ValidationError) :=
  forEach (fun errors file (_ : Z) =>
             fileErrors <- validateData file ;;
             ret (errors ++ fileErrors))
    files [].

(** [cell && cell.toString().toLowerCase().includes(query)], as [some] reads
    it. *)
Definition cellMatches (query : string) (cell : Cell) : bool :=
  truthy cell && includes (toLowerCase (ToString cell)) query.

Definition rowMatches (query : string) (row : list Cell) : bool :=
  existsb (cellMatches query) row.

(** The rows on display; [searchQuery] is an optional property. *)
Definition filteredData (currentFile : option DataFile)
    (searchQuery : option string) : list (list Cell) :=
  match currentFile, searchQuery with
  | None, _ => []
  | Some file, None => data file
  | Some file, Some q =>
      if isEmptyString q then data file
      else let query := toLowerCase q in
           filter (rowMatches query) (data file)
  end.

Definition getCellErrors (allErrors : list ValidationError) (fileId' : string)
    (row' col : Z) : list ValidationError :=
  filter (fun error => String.eqb (fileId error) fileId'
                       && Z.eqb (row error) row' && Z.eqb (column error) col)
    allErrors.

Definition getCellClass (allErrors : list ValidationError) (fileId' : string)
    (row' col : Z) : string :=
  let errors := getCellErrors allErrors fileId' row' col in
  if Nat.eqb (length errors) 0 then "data-cell"
  else
    let hasError := existsb (fun e => Severity_eqb (severity e) error) errors in
    let hasWarning := existsb (fun e => Severity_eqb (severity e) warning) errors in
    if hasError then "data-cell error"
    else if hasWarning then "data-cell warning"
    else "data-cell".

(** [handleCellClick]: the cell under edit and the text of the edit box, or
    nothing when no file is current.  The indices are those [map] passes for
    the rows and cells on display. *)
Definition handleCellClick (currentFile : option DataFile) (row' col : nat)
    : Js (option ((nat * nat) * string)) :=
  match currentFile with
  | None => ret None
  | Some file =>
      match nth_error (data file) row' with
      | None => throw TypeError
      | Some r => ret (Some ((row', col), cellText (nth col r CUndefined)))
      end
  end.

(** [row[col] = value] for [col] up to the length of the row; beyond it the
    assignment leaves holes in the row. *)
Fixpoint setCell (r : list Cell) (col : nat) (value : Cell) : option (list Cell) :=
  match r, col with
  | [], O => Some [value]
  | [], S _ => None
  | _ :: rest, O => Some (value :: rest)
  | c :: rest, S col' => option_map (cons c) (setCell rest col' value)
  end.

Fixpoint setRow (grid : list (list Cell)) (row' : nat) (r : list Cell)
    : list (list Cell) :=
  match grid, row' with
  | [], _ => []
  | _ :: rest, O => r :: rest
  | x :: rest, S k => x :: setRow rest k r
  end.

(** What [handleCellSave] does: nothing, a call of [onDataUpdate], or an
    assignment that makes a row sparse (grids with holes are not modelled). *)
Inductive SaveOutcome : Type :=
  | NotSaved
  | Saved (fileId' : string) (newData : list (list Cell))
  | SparseRow.

Definition handleCellSave (currentFile : option DataFile)
    (editingCell : option (nat * nat)) (editValue : string) : Js SaveOutcome :=
  match currentFile, editingCell with
  | Some file, Some (row', col) =>
      match nth_error (data file) row' with
      | None => throw TypeError
      | Some r =>
          match setCell r col (CStr editValue) with
          | Some r' => ret (Saved (file_id file) (setRow (data file) row' r'))
          | None => ret SparseRow
          end
      end
  | _, _ => ret NotSaved
  end.

(** The grid indices of the elements [filter p] keeps, counted from [i]. *)
Fixpoint positions {A} (p : A -> bool) (l : list A) (i : nat) : list nat :=
  match l with
  | [] => []
  | x :: l' => (if p x then [i] else []) ++ positions p l' (S i)
  end.

(** Whether a row is on display under a search. *)
Definition shows (searchQuery : option string) (row' : list Cell) : bool :=
  match searchQuery with
  | None => true
  | Some q => isEmptyString q || rowMatches (toLowerCase q) row'
  end.

(** The grid indices of the rows on display, in the order of display. *)
Definition shownRows (file : DataFile) (searchQuery : option string) : list nat :=
  positions (shows searchQuery) (data file) 0.

(** The test of [getCellErrors]. *)
Definition atCell (fileId' : string) (r c : Z) (e : ValidationError) : bool :=
  String.eqb (fileId e) fileId' && Z.eqb (row e) r && Z.eqb (column e) c.

(** The duplicate issue of the cell in row [r] and column [c], if the scan
    of [validateData] reports one there. *)
Definition duplicateAt (file : DataFile) (r c : nat) (rw : list Cell)
    : list ValidationError :=
  let v := getIndex rw (Z.of_nat c) in
  if Z.eqb (Z.of_nat c) (findIdColumn (headers file))
     && truthy v
     && existsb (fun above => Cell_eqb v (getIndex above (Z.of_nat c)))
          (firstn r (data file))
  then [duplicateIssue file (Z.of_nat c) (Z.of_nat r) v]
  else [].

(* ================================================================== *)
(** * components/ValidationPanel, and the Continue button of the page *)
(* ================================================================== *)

Inductive PanelFilter : Type :=
  | FilterAll
  | FilterSeverity (s : Severity).

Definition filteredErrors (errors : list ValidationError) (filter' : PanelFilter)
    : list ValidationError :=
  filter (fun error => match filter' with
                       | FilterAll => true
                       | FilterSeverity s => Severity_eqb (severity error) s
                       end) errors.

Record ErrorCounts : Type := mkErrorCounts {
  count_error : Z;
  count_warning : Z;
  count_info : Z
}.

Definition errorCounts (errors : list ValidationError) : ErrorCounts :=
  {| count_error :=
       lengthZ (filter (fun e => Severity_eqb (severity e) error) errors);
     count_warning :=
       lengthZ (filter (fun e => Severity_eqb (severity e) warning) errors);
     count_info :=
       lengthZ (filter (fun e => Severity_eqb (severity e) info) errors) |}.

(** page: [disabled] of the button that leaves the editing step. *)
Definition continueDisabled (validationErrors : list ValidationError) : bool :=
  Z.ltb 0 (lengthZ (filter (fun e => Severity_eqb (severity e) error)
                      validationErrors)).

(* ================================================================== *)
(** * types: rules; components/RulesBuilder *)
(* ================================================================== *)

Inductive RuleType : Type :=
  | co_run | slot_restriction | load_limit | phase_restriction | regex_filter.

Inductive ActionType : Type := group | restrict | limit | assign | flag.

(** [RuleAction]; [value] is the text the rule form stores, and the form
    never sets the optional [parameters]. *)
Record RuleAction : Type := mkRuleAction {
  action_type : ActionType;
  action_target : string;
  action_value : string
}.

(** [Rule]; the priority is what [parseInt] gave, [None] being NaN. *)
Record Rule : Type := mkRule {
  rule_id : string;
  rule_name : string;
  rule_type : RuleType;
  rule_description : string;
  rule_conditions : list RuleCondition;
  rule_actions : list RuleAction;
  rule_enabled : bool;
  rule_priority : option Z
}.

(** [Partial<Rule>]: every property may be absent. *)
Record PartialRule : Type := mkPartialRule {
  p_id : option string;
  p_name : option string;
  p_type : option RuleType;
  p_description : option string;
  p_conditions : option (list RuleCondition);
  p_actions : option (list RuleAction);
  p_enabled : option bool;
  p_priority : option (option Z)
}.

(** The form as [resetForm] leaves it. *)
Definition blankForm : PartialRule :=
  {| p_id := None; p_name := Some EmptyString; p_type := Some co_run;
     p_description := Some EmptyString; p_conditions := Some [];
     p_actions := Some []; p_enabled := Some true; p_priority := Some (Some 1%Z) |}.

(** [editRule]: the form holds the rule. *)
Definition editRule (rule : Rule) : PartialRule * option Rule :=
  ({| p_id := Some (rule_id rule); p_name := Some (rule_name rule);
      p_type := Some (rule_type rule);
      p_description := Some (rule_description rule);
      p_conditions := Some (rule_conditions rule);
      p_actions := Some (rule_actions rule);
      p_enabled := Some (rule_enabled rule);
      p_priority := Some (rule_priority rule) |},
   Some rule).

Definition getAvailableFields (files : list DataFile) : list string :=
  fold_left
    (fun fields file =>
       fold_left
         (fun fields header =>
            if existsb (String.eqb header) fields then fields
            else push fields header)
         (headers file) fields)
    files [].

(** [arr.map((x, i) => i === index ? y : x)] *)
Fixpoint replaceAt {A} (l : list A) (i index : nat) (y : A) : list A :=
  match l with
  | [] => []
  | x :: l' => (if Nat.eqb i index then y else x) :: replaceAt l' (S i) index y
  end.

(** [arr.filter((_, i) => i !== index)] *)
Fixpoint removeAt {A} (l : list A) (i index : nat) : list A :=
  match l with
  | [] => []
  | x :: l' => (if negb (Nat.eqb i index) then [x] else []) ++ removeAt l' (S i) index
  end.

Definition withConditions (prev : PartialRule) (cs : list RuleCondition)
    : PartialRule :=
  {| p_id := p_id prev; p_name := p_name prev; p_type := p_type prev;
     p_description := p_description prev; p_conditions := Some cs;
     p_actions := p_actions prev; p_enabled := p_enabled prev;
     p_priority := p_priority prev |}.

Definition withActions (prev : PartialRule) (acts : list RuleAction)
    : PartialRule :=
  {| p_id := p_id prev; p_name := p_name prev; p_type := p_type prev;
     p_description := p_description prev; p_conditions := p_conditions prev;
     p_actions := Some acts; p_enabled := p_enabled prev;
     p_priority := p_priority prev |}.

Definition orEmpty {A} (l : option (list A)) : list A :=
  match l with Some x => x | None => [] end.

Definition addCondition (prev : PartialRule) : PartialRule :=
  let newCondition := {| cond_field := EmptyString; operator := equals;
                         cond_value := EmptyString;
                         logicalOperator := Some AND |} in
  withConditions prev (orEmpty (p_conditions prev) ++ [newCondition]).

Definition updateCondition (index : nat) (condition : RuleCondition)
    (prev : PartialRule) : PartialRule :=
  withConditions prev
    (match p_conditions prev with
     | Some cs => replaceAt cs 0 index condition
     | None => []
     end).

Definition removeCondition (index : nat) (prev : PartialRule) : PartialRule :=
  withConditions prev
    (match p_conditions prev with
     | Some cs => removeAt cs 0 index
     | None => []
     end).

Definition addAction (prev : PartialRule) : PartialRule :=
  let newAction := {| action_type := group; action_target := EmptyString;
                      action_value := EmptyString |} in
  withActions prev (orEmpty (p_actions prev) ++ [newAction]).

Definition updateAction (index : nat) (action : RuleAction) (prev : PartialRule)
    : PartialRule :=
  withActions prev
    (match p_actions prev with
     | Some acts => replaceAt acts 0 index action
     | None => []
     end).

Definition removeAction (index : nat) (prev : PartialRule) : PartialRule :=
  withActions prev
    (match p_actions prev with
     | Some acts => removeAt acts 0 index
     | None => []
     end).

(** The rule [saveRule] builds from the form, for an identifier. *)
Definition ruleOfForm (i : string) (name : string) (ty : RuleType)
    (newRule : PartialRule) : Rule :=
  {| rule_id := i;
     rule_name := name;
     rule_type := ty;
     rule_description :=
       match p_description newRule with
       | Some d => d            (* [d || ''] is [d], the empty text included *)
       | None => EmptyString
       end;
     rule_conditions := orEmpty (p_conditions newRule);
     rule_actions := orEmpty (p_actions newRule);
     rule_enabled := match p_enabled newRule with Some b => b | None => true end;
     rule_priority :=
       match p_priority newRule with
       | Some (Some n) => if Z.eqb n 0 then Some 1%Z else Some n
       | Some None | None => Some 1%Z
       end |}.

(** [saveRule]: the list handed to [onRulesUpdate], or nothing when the
    function returns at its guard. *)
Definition saveRule (newRule : PartialRule) (editingRule : option Rule)
    (rules : list Rule) : Js (option (list Rule)) :=
  match p_name newRule, p_type newRule with
  | Some name, Some ty =>
      if isEmptyString name then ret None
      else
        i <- match editingRule with
             | Some r => if isEmptyString (rule_id r) then randomId
                         else ret (rule_id r)
             | None => randomId
             end ;;
        let rule := ruleOfForm i name ty newRule in
        match editingRule with
        | Some _ =>
            ret (Some (map (fun r => if String.eqb (rule_id r) (rule_id rule)
                                     then rule else r) rules))
        | None => ret (Some (rules ++ [rule]))
        end
  | _, _ => ret None
  end.

Definition deleteRule (ruleId : string) (rules : list Rule) : list Rule :=
  filter (fun r => negb (String.eqb (rule_id r) ruleId)) rules.

Definition toggled (r : Rule) : Rule :=
  {| rule_id := rule_id r; rule_name := rule_name r; rule_type := rule_type r;
     rule_description := rule_description r;
     rule_conditions := rule_conditions r; rule_actions := rule_actions r;
     rule_enabled := negb (rule_enabled r); rule_priority := rule_priority r |}.

Definition toggleRule (ruleId : string) (rules : list Rule) : list Rule :=
  map (fun r => if String.eqb (rule_id r) ruleId then toggled r else r) rules.

(* ================================================================== *)
(** * components/ExportPanel: the summary *)
(* ================================================================== *)

Record ExportSummary : Type := mkExportSummary {
  summary_totalRows : Z;
  summary_totalErrors : Z;
  summary_activeRules : Z
}.

Definition getExportSummary (files : list DataFile) (rules : list Rule)
    : ExportSummary :=
  {| summary_totalRows :=
       fold_left (fun sum file => (sum + lengthZ (data file))%Z) files 0%Z;
     summary_totalErrors :=
       fold_left (fun sum file => (sum + lengthZ (errors file))%Z) files 0%Z;
     summary_activeRules := lengthZ (filter rule_enabled rules) |}.

Record RulesMetadata : Type := mkRulesMetadata {
  meta_totalRules : Z;
  meta_activeRules : Z;
  meta_version : string
}.

(** [generateRulesJSON], without its time stamp; [N] is the type of the
    weights. *)
Definition generateRulesJSON {N : Type} (rules : list Rule)
    (priorities : PriorityWeights N)
    : list Rule * PriorityWeights N * RulesMetadata :=
  (map (fun rule => {| rule_id := rule_id rule; rule_name := rule_name rule;
                       rule_type := rule_type rule;
                       rule_description := rule_description rule;
                       rule_conditions := rule_conditions rule;
                       rule_actions := rule_actions rule;
                       rule_enabled := rule_enabled rule;
                       rule_priority := rule_priority rule |}) rules,
   priorities,
   {| meta_totalRules := lengthZ rules;
      meta_activeRules := lengthZ (filter rule_enabled rules);
      meta_version := "1.0.0" |}).

(* ================================================================== *)
(** * components/PrioritizationInterface: templates and the Continue button *)
(* ================================================================== *)


(** The templates: identifier and weights. *)
Definition templates : list (string * PriorityWeights PrimFloat.float) :=
  [("balanced",
    mkPriorityWeights 0.2%float 0.2%float 0.2%float 0.2%float 0.2%float);
   ("priority-focused",
    mkPriorityWeights 0.5%float 0.2%float 0.1%float 0.1%float 0.1%float);
   ("efficiency-first",
    mkPriorityWeights 0.1%float 0.2%float 0.1%float 0.5%float 0.1%float);
   ("fair-distribution",
    mkPriorityWeights 0.1%float 0.2%float 0.5%float 0.1%float 0.1%float)].

(** [applyTemplate]: the weights handed to [onPrioritiesUpdate] and the
    template selected. *)
Definition applyTemplate (template : string * PriorityWeights PrimFloat.float)
    : PriorityWeights PrimFloat.float * string :=
  (snd template, fst template).

Definition resetToDefault : PriorityWeights PrimFloat.float * string :=
  (mkPriorityWeights 0.3%float 0.25%float 0.2%float 0.15%float 0.1%float,
   EmptyString).

(** [disabled] of the button that leaves the step:
    [Math.abs(total - 1) >= 0.01]. *)
Definition continueToExportDisabled (priorities : PriorityWeights PrimFloat.float)
    : bool :=
  let total := weightTotal priorities in
  PrimFloat.leb 0.01%float (PrimFloat.abs (PrimFloat.sub total 1%float)).

Definition allKeys : list WeightKey :=
  [KpriorityLevel; KtaskFulfillment; Kfairness; Kefficiency; KresourceUtilization].

(* ================================================================== *)
(** * components/FileUpload: a drop of files *)
(* ================================================================== *)


Definition removeFile (fileId' : string) (uploadedFiles : list DataFile)
    : list DataFile :=
  filter (fun file => negb (String.eqb (file_id file) fileId')) uploadedFiles.


(* ================================================================== *)
(** * Running the monad *)
(* ================================================================== *)

Lemma bind_ext {A B} (m1 m2 : Js A) (k1 k2 : A -> Js B) ids :
  m1 ids = m2 ids ->
  (forall a ids', k1 a ids' = k2 a ids') ->
  bind m1 k1 ids = bind m2 k2 ids.
Proof.
  intros Hm Hk. unfold bind. rewrite Hm.
  destruct (m2 ids) as [[a | e] ids']; [apply Hk | reflexivity].
Qed.

Lemma bind_normal {A B} (m : Js A) (k : A -> Js B) ids a ids' :
  m ids = (Normal a, ids') -> bind m k ids = k a ids'.
Proof. intros Hm. unfold bind. rewrite Hm. reflexivity. Qed.

Lemma toString_truthy cell ids :
  truthy cell = true -> toString cell ids = (Normal (ToString cell), ids).
Proof. destruct cell; simpl; try discriminate; reflexivity. Qed.

Lemma blankCell_false_truthy cell : blankCell cell = false -> truthy cell = true.
Proof.
  unfold blankCell. destruct (truthy cell); [reflexivity | discriminate].
Qed.

Lemma isBlank_run cell ids : isBlank cell ids = (Normal (blankCell cell), ids).
Proof.
  unfold isBlank, blankCell.
  destruct (truthy cell) eqn:Ht; simpl; [| reflexivity].
  rewrite (bind_normal _ _ _ _ _ (toString_truthy _ _ Ht)). reflexivity.
Qed.

Lemma priority_test_inRange cellStr :
  match parseInt cellStr with
  | None => true
  | Some p => Z.ltb p 1 || Z.ltb 5 p
  end = negb (priorityInRange cellStr).
Proof.
  unfold priorityInRange. destruct (parseInt cellStr) as [p |]; [| reflexivity].
  destruct (Z.ltb_spec p 1), (Z.ltb_spec 5 p), (Z.leb_spec 1 p), (Z.leb_spec p 5);
    simpl; try reflexivity; lia.
Qed.

(* ================================================================== *)
(** * validateCell runs its table of checks *)
(* ================================================================== *)

Lemma validateCell_blank file r c header cell ids :
  blankCell cell = true ->
  validateCell file r c header cell ids
  = emitAll [] [requiredCheck file r c header] ids.
Proof.
  intros Hb. unfold validateCell.
  rewrite (bind_normal _ _ _ _ _ (isBlank_run cell ids)). rewrite Hb.
  unfold emitAll, requiredCheck.
  apply bind_ext; [| reflexivity].
  destruct (includes (toLowerCase header) "id" || includes (toLowerCase header) "name"
            || includes (toLowerCase header) "email"); reflexivity.
Qed.

Lemma validateCell_nonblank file r c header cell ids :
  blankCell cell = false ->
  validateCell file r c header cell ids
  = emitAll [] (cellChecks file r c header (trim (ToString cell))) ids.
Proof.
  intros Hb. unfold validateCell.
  rewrite (bind_normal _ _ _ _ _ (isBlank_run cell ids)). rewrite Hb.
  rewrite (bind_normal _ _ _ _ _
             (toString_truthy _ ids (blankCell_false_truthy _ Hb))).
  cbv zeta. set (cellStr := trim (ToString cell)).
  unfold cellChecks, emitAll.
  apply bind_ext.
  { unfold emailCheck.
    destruct (includes (toLowerCase header) "email"),
      (regexTest emailRegex cellStr); reflexivity. }
  intros e1 ids1. apply bind_ext.
  { unfold priorityCheck. rewrite priority_test_inRange.
    destruct (includes (toLowerCase header) "priority"),
      (priorityInRange cellStr); reflexivity. }
  intros e2 ids2. apply bind_ext.
  { unfold durationCheck.
    destruct (includes (toLowerCase header) "duration"),
      (isNaN (parseFloat cellStr) || leZero (parseFloat cellStr)); reflexivity. }
  intros e3 ids3. apply bind_ext.
  { unfold budgetCheck. cbv zeta.
    destruct (includes (toLowerCase header) "budget"),
      (isNaN (parseFloat (replaceAllChars isDollarOrComma EmptyString cellStr))
       || ltZero (parseFloat (replaceAllChars isDollarOrComma EmptyString cellStr)));
      reflexivity. }
  intros e4 ids4. apply bind_ext.
  { unfold skillsCheck.
    destruct (includes (toLowerCase header) "skill"),
      (includes cellStr ";" || includes cellStr "|"); reflexivity. }
  intros e5 ids5. apply bind_ext; [| reflexivity].
  unfold jsonCheck, looksLikeJSON, tryCatch, JSON_parse.
  destruct (startsWith cellStr "{" || startsWith cellStr "[");
    destruct (isValidJSON cellStr); reflexivity.
Qed.

Lemma eraseId_withId i e : eraseId (withId i e) = eraseId e.
Proof. reflexivity. Qed.

Lemma emitAll_run checks : forall errors ids,
  exists new ids',
    emitAll errors checks ids = (Normal (errors ++ new), ids') /\
    map eraseId new = map eraseId (fired checks).
Proof.
  induction checks as [| [fires e] rest IH]; intros errors ids.
  - exists [], ids. simpl. rewrite app_nil_r. split; reflexivity.
  - destruct fires.
    + destruct (IH (push errors (withId (ids 0%nat) e)) (fun n => ids (S n)))
        as (new & ids' & Hrun & Hnew).
      exists (withId (ids 0%nat) e :: new), ids'. split.
      * simpl. unfold bind at 1. simpl. rewrite Hrun. unfold push.
        rewrite <- app_assoc. reflexivity.
      * unfold fired. simpl. rewrite eraseId_withId. f_equal. exact Hnew.
    + destruct (IH errors ids) as (new & ids' & Hrun & Hnew).
      exists new, ids'. split; [| exact Hnew].
      simpl. unfold bind at 1. simpl. exact Hrun.
Qed.

Lemma eraseId_issueAt file r c header msg sev ty sugg :
  eraseId (issueAt file r c header msg sev ty sugg)
  = issueAt file r c header msg sev ty sugg.
Proof. reflexivity. Qed.

Lemma map_eraseId_fixed (l : list ValidationError) :
  Forall (fun e => id e = EmptyString) l -> map eraseId l = l.
Proof.
  induction 1 as [| e l He _ IH]; [reflexivity |].
  simpl. rewrite IH. f_equal. destruct e; simpl in *. subst. reflexivity.
Qed.

Lemma fired_blank_ids checks :
  Forall (fun ch : Check => id (snd ch) = EmptyString) checks ->
  Forall (fun e => id e = EmptyString) (fired checks).
Proof.
  unfold fired. induction 1 as [| [b e] l He _ IH]; simpl; [constructor |].
  destruct b; simpl; [constructor; assumption | assumption].
Qed.

Lemma cellIssues_blank_ids file r c header cell :
  Forall (fun e => id e = EmptyString) (cellIssues file r c header cell).
Proof.
  unfold cellIssues. destruct (blankCell cell); apply fired_blank_ids;
    repeat constructor.
Qed.

(** [validateCell] never throws, and what it returns is [cellIssues] up to
    the identifiers drawn. *)
Lemma validateCell_issues file r c header cell ids :
  exists errs ids',
    validateCell file r c header cell ids = (Normal errs, ids') /\
    map eraseId errs = cellIssues file r c header cell.
Proof.
  unfold cellIssues. destruct (blankCell cell) eqn:Hb.
  - rewrite (validateCell_blank _ _ _ _ _ _ Hb).
    destruct (emitAll_run [requiredCheck file r c header] [] ids)
      as (new & ids' & Hrun & Hnew).
    exists new, ids'. split; [exact Hrun |].
    rewrite Hnew. apply map_eraseId_fixed, fired_blank_ids. repeat constructor.
  - rewrite (validateCell_nonblank _ _ _ _ _ _ Hb).
    destruct (emitAll_run (cellChecks file r c header (trim (ToString cell))) [] ids)
      as (new & ids' & Hrun & Hnew).
    exists new, ids'. split; [exact Hrun |].
    rewrite Hnew. apply map_eraseId_fixed, fired_blank_ids. repeat constructor.
Qed.

(* ================================================================== *)
(** * validateData emits fileIssues *)
(* ================================================================== *)

Section Loops.
Context {A : Type}.

Lemma forEachFrom_appends
      (f : list ValidationError -> A -> Z -> Js (list ValidationError)) body :
    Appends f body ->
    forall l i errors ids,
    exists new ids',
      forEachFrom f l i errors ids = (Normal (errors ++ new), ids') /\
      map eraseId new = indexedFlatMap body l i.
  Proof.
    intros Hf. induction l as [| x l IH]; intros i errors ids.
    - exists [], ids. simpl. rewrite app_nil_r. split; reflexivity.
    - destruct (Hf errors x i ids) as (new1 & ids1 & Hrun1 & Hnew1).
      destruct (IH (i + 1)%Z (errors ++ new1) ids1) as (new2 & ids2 & Hrun2 & Hnew2).
      exists (new1 ++ new2), ids2. split.
      + simpl. rewrite (bind_normal _ _ _ _ _ Hrun1). rewrite Hrun2.
        rewrite app_assoc. reflexivity.
      + simpl. rewrite map_app, Hnew1, Hnew2. reflexivity.
  Qed.
End Loops.

Lemma indexedFlatMap_singleton {A B} (g : A -> B) (l : list A) : forall i,
  indexedFlatMap (fun x _ => [g x]) l i = map g l.
Proof.
  induction l as [| x l IH]; intros i; simpl; [reflexivity |].
  rewrite IH. reflexivity.
Qed.

Lemma duplicateStep_loop file idColumn : forall rows rowIndex st ids,
  exists st' new ids',
    forEachFrom (duplicateStep file idColumn) rows rowIndex st ids
    = (Normal st', ids') /\
    scan_errors st' = scan_errors st ++ new /\
    map eraseId new = duplicateScan file idColumn (scan_ids st) rows rowIndex.
Proof.
  induction rows as [| row rows IH]; intros rowIndex st ids.
  - exists st, [], ids. simpl. rewrite app_nil_r. repeat split; reflexivity.
  - simpl. unfold duplicateStep at 1. unfold bind at 1 2.
    destruct (truthy (getIndex row idColumn) && Set_has (scan_ids st) (getIndex row idColumn)).
    + simpl.
      match goal with
      | |- context [forEachFrom _ rows _ ?s ?i] =>
          destruct (IH (rowIndex + 1)%Z s i) as (st' & new & ids' & Hrun & Herr & Hnew)
      end.
      eexists st', (_ :: new), ids'. split; [exact Hrun |]. split.
      * rewrite Herr. simpl. unfold push. rewrite <- app_assoc. reflexivity.
      * simpl. rewrite Hnew. reflexivity.
    + simpl.
      match goal with
      | |- context [forEachFrom _ rows _ ?s ?i] =>
          destruct (IH (rowIndex + 1)%Z s i) as (st' & new & ids' & Hrun & Herr & Hnew)
      end.
      exists st', new, ids'. split; [exact Hrun |]. split; assumption.
Qed.

(** [validateData] never throws, and what it returns is [fileIssues] up to
    the identifiers drawn. *)
Lemma validateData_issues file ids :
  exists errs ids',
    validateData file ids = (Normal errs, ids') /\
    map eraseId errs = fileIssues file.
Proof.
  unfold validateData, fileIssues.
  (* missing columns *)
  assert (H1 : Appends
            (fun errors col (_ : Z) =>
               i <- randomId ;;
               ret (push errors
                      {| id := i; fileId := file_id file; row := (-1)%Z;
                         column := (-1)%Z; field := col;
                         message := "Missing required column: " ++ col;
                         severity := error; type := missing;
                         suggestion :=
                           Some ("Add a column for " ++ col
                                 ++ " or rename an existing column")%string |}))
            (fun col _ => [missingIssue file col])).
  { intros errors col i s. eexists [_], _. split; reflexivity. }
  destruct (forEachFrom_appends _ _ H1 (missingColumns file) 0%Z [] ids)
    as (new1 & ids1 & Hrun1 & Hnew1).
  rewrite indexedFlatMap_singleton in Hnew1.
  unfold forEach at 1. fold (missingColumns file).
  rewrite (bind_normal _ _ _ _ _ Hrun1).
  (* the grid *)
  assert (H2 : Appends
            (fun errors row rowIndex =>
               forEach (fun errors header colIndex =>
                 let cell := getIndex row colIndex in
                 cellErrors <- validateCell file rowIndex colIndex header cell ;;
                 ret (errors ++ cellErrors))
                 (headers file) errors)
            (fun row rowIndex =>
               indexedFlatMap
                 (fun header colIndex =>
                    cellIssues file rowIndex colIndex header (getIndex row colIndex))
                 (headers file) 0%Z)).
  { intros errors row rowIndex s. unfold forEach.
    apply (forEachFrom_appends
             (fun errors header colIndex =>
                let cell := getIndex row colIndex in
                cellErrors <- validateCell file rowIndex colIndex header cell ;;
                ret (errors ++ cellErrors))
             (fun header colIndex =>
                cellIssues file rowIndex colIndex header (getIndex row colIndex))).
    intros errors' header colIndex s'. cbv zeta.
    destruct (validateCell_issues file rowIndex colIndex header
                (getIndex row colIndex) s') as (errs & s'' & Hrun & Herrs).
    exists errs, s''. split; [| exact Herrs].
    rewrite (bind_normal _ _ _ _ _ Hrun). reflexivity. }
  destruct (forEachFrom_appends _ _ H2 (data file) 0%Z ([] ++ new1) ids1)
    as (new2 & ids2 & Hrun2 & Hnew2).
  unfold forEach at 1.
  rewrite (bind_normal _ _ _ _ _ Hrun2).
  (* duplicate identifiers *)
  unfold missingIssues, gridIssues, duplicateIssues. cbv zeta.
  destruct (negb (Z.eqb (findIdColumn (headers file)) (-1))).
  - unfold forEach. fold (duplicateStep file (findIdColumn (headers file))).
    destruct (duplicateStep_loop file (findIdColumn (headers file)) (data file) 0%Z
                {| scan_ids := []; scan_duplicates := [];
                   scan_errors := ([] ++ new1) ++ new2 |} ids2)
      as (st' & new3 & ids3 & Hrun3 & Herr3 & Hnew3).
    rewrite (bind_normal _ _ _ _ _ Hrun3).
    exists (scan_errors st'), ids3. split; [reflexivity |].
    rewrite Herr3. simpl. rewrite !map_app, Hnew1, Hnew2, Hnew3.
    rewrite app_assoc. reflexivity.
  - exists (([] ++ new1) ++ new2), ids2. split; [reflexivity |].
    simpl. rewrite map_app, Hnew1, Hnew2. rewrite app_nil_r. reflexivity.
Qed.

(* ================================================================== *)
(** * Shape of the emitted issues *)
(* ================================================================== *)

Lemma filter_map_eraseId (p : ValidationError -> bool) l :
  (forall e, p (eraseId e) = p e) ->
  map eraseId (filter p l) = filter p (map eraseId l).
Proof.
  intros Hp. induction l as [| e l IH]; [reflexivity |].
  simpl. rewrite Hp. destruct (p e); simpl; rewrite IH; reflexivity.
Qed.

Lemma fired_Forall (P : ValidationError -> Prop) checks :
  Forall P (map snd checks) -> Forall P (fired checks).
Proof.
  unfold fired. induction checks as [| [b e] l IH]; simpl; intros H;
    [constructor |].
  inversion H; subst. destruct b; simpl; auto.
Qed.

Lemma indexedFlatMap_Forall {A B} (P : B -> Prop) (f : A -> Z -> list B) l :
  forall i0,
  (forall x i, (i0 <= i)%Z -> Forall P (f x i)) ->
  Forall P (indexedFlatMap f l i0).
Proof.
  induction l as [| x l IH]; intros i0 Hf; simpl; [constructor |].
  apply Forall_app. split.
  - apply Hf. lia.
  - apply IH. intros y i Hi. apply Hf. lia.
Qed.


Lemma cellIssues_shape file r c header cell :
  Forall (cellIssueOf file r c header) (cellIssues file r c header cell).
Proof.
  unfold cellIssues, cellIssueOf.
  destruct (blankCell cell); apply fired_Forall; simpl;
    repeat constructor; simpl; discriminate.
Qed.

Lemma gridIssues_shape file :
  Forall (fun e => (0 <= row e)%Z /\ type e <> duplicate) (gridIssues file).
Proof.
  unfold gridIssues. apply indexedFlatMap_Forall. intros rw r Hr.
  apply indexedFlatMap_Forall. intros header c _.
  eapply Forall_impl; [| apply cellIssues_shape].
  intros e (_ & Hrow & _ & _ & Hty & _). split; [lia | exact Hty].
Qed.

Lemma duplicateScan_shape file idColumn : forall rows ids k,
  Forall (fun e => (k <= row e)%Z /\ type e = duplicate /\ severity e = error
                   /\ column e = idColumn)
    (duplicateScan file idColumn ids rows k).
Proof.
  induction rows as [| rw rows IH]; intros ids k; simpl; [constructor |].
  apply Forall_app. split.
  - destruct (truthy _ && Set_has _ _); repeat constructor. simpl. lia.
  - eapply Forall_impl; [| apply IH]. simpl. intros e (H1 & H2). split; [lia | exact H2].
Qed.

Lemma duplicateIssues_shape file :
  Forall (fun e => (0 <= row e)%Z /\ type e = duplicate /\ severity e = error
                   /\ column e = findIdColumn (headers file))
    (duplicateIssues file).
Proof.
  unfold duplicateIssues. cbv zeta.
  destruct (negb _); [apply duplicateScan_shape | constructor].
Qed.

Lemma filter_none {A} (p : A -> bool) l :
  Forall (fun x => p x = false) l -> filter p l = [].
Proof.
  induction 1 as [| x l Hx _ IH]; [reflexivity |]. simpl. rewrite Hx. exact IH.
Qed.

Lemma filter_all {A} (p : A -> bool) l :
  Forall (fun x => p x = true) l -> filter p l = l.
Proof.
  induction 1 as [| x l Hx _ IH]; [reflexivity |]. simpl. rewrite Hx, IH. reflexivity.
Qed.

Lemma filter_andb {A} (p q : A -> bool) l :
  filter (fun x => p x && q x) l = filter q (filter p l).
Proof.
  induction l as [| x l IH]; [reflexivity |].
  simpl. destruct (p x); simpl; [destruct (q x) |]; rewrite IH; reflexivity.
Qed.

Lemma filter_eqb_NoDup col (l : list string) :
  NoDup l -> In col l -> filter (String.eqb col) l = [col].
Proof.
  induction 1 as [| x l Hx Hnd IH]; intros Hin; [contradiction |].
  simpl. destruct (String.eqb_spec col x) as [-> | Hne].
  - f_equal. apply filter_none. apply Forall_forall. intros y Hy.
    apply String.eqb_neq. intros ->. contradiction.
  - destruct Hin as [-> | Hin]; [contradiction |]. auto.
Qed.

Lemma getRequiredColumns_NoDup fileType : NoDup (getRequiredColumns fileType).
Proof.
  unfold getRequiredColumns.
  repeat match goal with |- context [if ?b then _ else _] => destruct b end;
    repeat constructor; simpl; intuition discriminate.
Qed.

(** The file-level issues of a pass are the issues of step 1. *)
Lemma fileLevel_issues file :
  filter isFileLevel (fileIssues file) = missingIssues file.
Proof.
  unfold fileIssues. rewrite !filter_app.
  rewrite (filter_none isFileLevel (gridIssues file)).
  2:{ eapply Forall_impl; [| apply gridIssues_shape].
      intros e [Hr _]. unfold isFileLevel. apply Z.eqb_neq. lia. }
  rewrite (filter_none isFileLevel (duplicateIssues file)).
  2:{ eapply Forall_impl; [| apply duplicateIssues_shape].
      intros e [Hr _]. unfold isFileLevel. apply Z.eqb_neq. lia. }
  rewrite !app_nil_r. apply filter_all.
  unfold missingIssues. apply Forall_forall. intros e He.
  apply in_map_iff in He. destruct He as (col & <- & _). reflexivity.
Qed.

Lemma map_eraseId_singleton l e0 :
  map eraseId l = [e0] -> exists e, l = [e] /\ eraseId e = e0.
Proof.
  destruct l as [| e [| e' l]]; simpl; intros H; try discriminate.
  inversion H. exists e. split; reflexivity.
Qed.

(* ================================================================== *)
(** * Missing required columns *)
(* ================================================================== *)

(** C8.  A required column [col] of the file's category that no header
    matches (in either direction of case-insensitive containment) gets
    exactly one file-level issue: field [col], row -1, column -1, kind
    missing, severity error, and a suggestion.  The file-level issues of the
    pass are these and no others, one per missing column in the order of the
    registry.  For a clients file, [col] can be ["email"]. *)
Theorem validateData_missing_column (file : DataFile) (ids : IdSupply) (col : string) :
  In col (getRequiredColumns (file_type file)) ->
  existsb (headerMatches col) (headers file) = false ->
  exists errs ids' e,
    validateData file ids = (Normal errs, ids') /\
    filter (fun e => isFileLevel e && String.eqb col (field e)) errs = [e] /\
    row e = (-1)%Z /\ column e = (-1)%Z /\ field e = col /\
    type e = missing /\ severity e = error /\
    suggestion e
    = Some ("Add a column for " ++ col ++ " or rename an existing column")%string /\
    map field (filter isFileLevel errs) = missingColumns file /\
    NoDup (missingColumns file) /\
    In "email" (getRequiredColumns "clients").
Proof.
  intros Hreq Hmiss.
  destruct (validateData_issues file ids) as (errs & ids' & Hrun & Herrs).
  assert (Hnd : NoDup (missingColumns file)).
  { unfold missingColumns. apply NoDup_filter, getRequiredColumns_NoDup. }
  assert (Hin : In col (missingColumns file)).
  { unfold missingColumns. apply filter_In. split; [exact Hreq |].
    rewrite Hmiss. reflexivity. }
  assert (Hlevel : map eraseId (filter isFileLevel errs) = missingIssues file).
  { rewrite filter_map_eraseId by reflexivity. rewrite Herrs.
    apply fileLevel_issues. }
  assert (Hone : map eraseId
                   (filter (fun e => isFileLevel e && String.eqb col (field e)) errs)
                 = [missingIssue file col]).
  { rewrite filter_map_eraseId by reflexivity.
    rewrite (filter_andb isFileLevel (fun e => String.eqb col (field e))).
    rewrite <- (filter_map_eraseId isFileLevel) by reflexivity.
    rewrite Hlevel. unfold missingIssues.
    rewrite filter_map_swap.
    change (fun a => String.eqb col (field (missingIssue file a)))
      with (String.eqb col).
    rewrite (filter_eqb_NoDup _ _ Hnd Hin). reflexivity. }
  apply map_eraseId_singleton in Hone. destruct Hone as (e & He & Hbody).
  exists errs, ids', e. split; [exact Hrun |]. split; [exact He |].
  destruct e; unfold eraseId, withId, missingIssue, issueAt in Hbody; simpl in *.
  inversion Hbody; subst.
  repeat (split; [reflexivity |]).
  split.
  - rewrite <- (map_ext (fun e => field (eraseId e)) field) by reflexivity.
    rewrite <- (map_map eraseId field). rewrite Hlevel.
    unfold missingIssues. rewrite map_map. simpl. apply map_id.
  - split; [exact Hnd |]. simpl. auto.
Qed.

(* ================================================================== *)
(** * The checks of a cell *)
(* ================================================================== *)

Ltac case_checks :=
  repeat match goal with
    | |- context [if ?b then _ else _] => destruct b
    end.

Lemma prefix_empty s : prefix EmptyString s = true.
Proof. destruct s; reflexivity. Qed.

Lemma priority_issue_of_checks file r c header cellStr :
  filter isPriorityIssue (fired (cellChecks file r c header cellStr))
  = if fst (priorityCheck file r c header cellStr)
    then [snd (priorityCheck file r c header cellStr)] else [].
Proof.
  unfold fired, cellChecks, emailCheck, priorityCheck, durationCheck, budgetCheck,
    skillsCheck, jsonCheck.
  cbn [filter fst snd map].
  case_checks; cbn; unfold isPriorityIssue, isJsonIssue; cbn;
    rewrite ?prefix_empty; reflexivity.
Qed.


Lemma cellIssues_nonblank file r c header cell :
  blankCell cell = false ->
  cellIssues file r c header cell
  = fired (cellChecks file r c header (trim (ToString cell))).
Proof. intros Hb. unfold cellIssues. rewrite Hb. reflexivity. Qed.

Lemma map_eraseId_nil l : map eraseId l = [] -> l = [].
Proof. destruct l; [reflexivity | discriminate]. Qed.

(** A value the priority test accepts does not look like JSON. *)
Lemma priorityInRange_not_json s :
  priorityInRange s = true -> looksLikeJSON s = false.
Proof.
  unfold looksLikeJSON, startsWith. destruct s as [| a s]; [reflexivity |].
  intros Hp.
  change (prefix "{" (String a s)) with (if ascii_dec "{" a then prefix EmptyString s else false).
  change (prefix "[" (String a s)) with (if ascii_dec "[" a then prefix EmptyString s else false).
  destruct (ascii_dec "{" a) as [<- | _]; [vm_compute in Hp; discriminate Hp |].
  destruct (ascii_dec "[" a) as [<- | _]; [vm_compute in Hp; discriminate Hp |].
  reflexivity.
Qed.

Lemma fired_In (b : bool) e checks :
  In (b, e) checks -> b = true -> In e (fired checks).
Proof.
  intros Hin ->. unfold fired. apply in_map_iff. exists (true, e).
  split; [reflexivity |]. apply filter_In. split; [exact Hin | reflexivity].
Qed.

Lemma In_map_eraseId e0 errs :
  In e0 (map eraseId errs) -> exists e, In e errs /\ eraseId e = e0.
Proof.
  intros H. apply in_map_iff in H. destruct H as (e & He & Hin).
  exists e. split; assumption.
Qed.

(* ================================================================== *)
(** * Priority cells *)
(* ================================================================== *)

(** C1, amended.  For a cell that is not blank under a header containing
    "priority", the priority check emits nothing when [parseInt] of the
    trimmed text lies in 1..5 and exactly one issue (kind range, severity
    error) otherwise; under a header on which no other header check applies
    the cell has no issue at all exactly in the first case.  [parseInt] reads
    the leading integer of the text: "0", "6" and "abc" are rejected, "3.5"
    is read as 3 and accepted. *)
Theorem validateCell_priority (file : DataFile) (r c : Z) (header : string)
    (cell : Cell) (ids : IdSupply) :
  includes (toLowerCase header) "priority" = true ->
  blankCell cell = false ->
  exists errs ids',
    validateCell file r c header cell ids = (Normal errs, ids') /\
    (priorityInRange (trim (ToString cell)) = true ->
     filter isPriorityIssue errs = []) /\
    (priorityInRange (trim (ToString cell)) = false ->
     exists e, filter isPriorityIssue errs = [e] /\ type e = range /\
               severity e = error /\ row e = r /\ column e = c /\ field e = header) /\
    (priorityOnlyHeader header = true ->
     (errs = [] <-> priorityInRange (trim (ToString cell)) = true)) /\
    priorityInRange "0" = false /\ priorityInRange "6" = false /\
    priorityInRange "abc" = false /\ priorityInRange "3.5" = true /\
    parseInt "3.5" = Some 3%Z.
Proof.
  intros Hh Hb.
  destruct (validateCell_issues file r c header cell ids) as (errs & ids' & Hrun & Herrs).
  rewrite (cellIssues_nonblank _ _ _ _ _ Hb) in Herrs.
  set (cellStr := trim (ToString cell)) in *.
  assert (Hprio : map eraseId (filter isPriorityIssue errs)
                  = if negb (priorityInRange cellStr)
                    then [snd (priorityCheck file r c header cellStr)] else []).
  { rewrite filter_map_eraseId by reflexivity. rewrite Herrs.
    rewrite priority_issue_of_checks. unfold priorityCheck at 1. simpl fst.
    rewrite Hh. reflexivity. }
  exists errs, ids'. split; [exact Hrun |].
  split; [| split; [| split]].
  - intros Hin. rewrite Hin in Hprio. apply map_eraseId_nil. exact Hprio.
  - intros Hout. rewrite Hout in Hprio. simpl in Hprio.
    apply map_eraseId_singleton in Hprio. destruct Hprio as (e & He & Hbody).
    exists e. split; [exact He |].
    destruct e; unfold eraseId, withId in Hbody; simpl in *.
    inversion Hbody; subst. repeat split; reflexivity.
  - intros Honly. unfold priorityOnlyHeader in Honly. cbv zeta in Honly.
    repeat (apply andb_prop in Honly; destruct Honly as [Honly ?]).
    repeat match goal with
           | H : negb _ = true |- _ => apply negb_true_iff in H
           end.
    split.
    + intros ->. simpl in Hprio.
      destruct (priorityInRange cellStr); [reflexivity | discriminate].
    + intros Hin. apply map_eraseId_nil. rewrite Herrs.
      unfold fired, cellChecks, emailCheck, priorityCheck, durationCheck,
        budgetCheck, skillsCheck, jsonCheck.
      rewrite (priorityInRange_not_json _ Hin).
      repeat match goal with
             | H : includes _ _ = _ |- _ => rewrite H
             end.
      rewrite Hin. reflexivity.
  - repeat split; reflexivity.
Qed.

(* ================================================================== *)
(** * Falsy cells *)
(* ================================================================== *)

(** C9.  A falsy cell (the number 0, false, null, undefined, the empty
    string) is treated as empty: under a header containing "id", "name" or
    "email" it gets exactly one issue, kind missing and severity error, under
    any other header none, and no later check runs.  Under a header
    containing "duration" the number 0 is such a cell, while the string "0"
    reaches the duration check and gets a kind range, severity error
    issue. *)
Theorem validateCell_falsy (file : DataFile) (r c : Z) (header : string)
    (cell : Cell) (ids : IdSupply) :
  truthy cell = false ->
  exists errs ids',
    validateCell file r c header cell ids = (Normal errs, ids') /\
    (requiredHeader header = false -> errs = []) /\
    (requiredHeader header = true ->
     exists e, errs = [e] /\ type e = missing /\ severity e = error /\
               row e = r /\ column e = c /\ field e = header) /\
    (includes (toLowerCase header) "duration" = true ->
     exists e, In e (issuesOf (validateCell file r c header (CStr "0") ids)) /\
               type e = range /\ severity e = error /\
               message e = "Duration must be a positive number, got: 0") /\
    truthy (CNum 0) = false /\ truthy (CBool false) = false /\
    truthy CNull = false /\ truthy CUndefined = false /\ truthy (CStr EmptyString) = false.
Proof.
  intros Hf.
  destruct (validateCell_issues file r c header cell ids) as (errs & ids' & Hrun & Herrs).
  assert (Hb : blankCell cell = true) by (unfold blankCell; rewrite Hf; reflexivity).
  unfold cellIssues in Herrs. rewrite Hb in Herrs.
  unfold fired, requiredCheck in Herrs. cbv zeta in Herrs. cbn [filter fst] in Herrs.
  fold (requiredHeader header) in Herrs.
  exists errs, ids'. split; [exact Hrun |].
  split; [| split; [| split]].
  - intros Hreq. rewrite Hreq in Herrs. apply map_eraseId_nil. exact Herrs.
  - intros Hreq. rewrite Hreq in Herrs. simpl in Herrs.
    apply map_eraseId_singleton in Herrs. destruct Herrs as (e & He & Hbody).
    exists e. split; [exact He |].
    destruct e; unfold eraseId, withId in Hbody; simpl in *.
    inversion Hbody; subst. repeat split; reflexivity.
  - intros Hdur.
    destruct (validateCell_issues file r c header (CStr "0") ids)
      as (errs0 & ids0 & Hrun0 & Herrs0).
    unfold issuesOf. rewrite Hrun0. simpl fst.
    assert (Hin : In (snd (durationCheck file r c header "0")) (map eraseId errs0)).
    { rewrite Herrs0. unfold cellIssues. simpl blankCell. cbv iota.
      eapply fired_In.
      - unfold cellChecks. right. right. left.
        unfold durationCheck. reflexivity.
      - rewrite Hdur. reflexivity. }
    apply In_map_eraseId in Hin. destruct Hin as (e & Hin & Hbody).
    exists e. split; [exact Hin |].
    destruct e; unfold eraseId, withId in Hbody; simpl in *.
    inversion Hbody; subst. repeat split; reflexivity.
  - repeat split; reflexivity.
Qed.

(* ================================================================== *)
(** * The scan for repeated identifiers *)
(* ================================================================== *)

Lemma Cell_eqb_eq a b : Cell_eqb a b = true <-> a = b.
Proof.
  destruct a, b; simpl; split; intros H; try discriminate; try reflexivity.
  - apply String.eqb_eq in H. subst. reflexivity.
  - inversion H. apply String.eqb_refl.
  - apply Z.eqb_eq in H. subst. reflexivity.
  - inversion H. apply Z.eqb_refl.
  - apply Bool.eqb_prop in H. subst. reflexivity.
  - inversion H. apply Bool.eqb_reflx.
Qed.

Lemma Set_has_add ids v c :
  Set_has (Set_add ids v) c = Set_has ids c || Cell_eqb c v.
Proof.
  unfold Set_add. destruct (Set_has ids v) eqn:Hv.
  - destruct (Cell_eqb c v) eqn:Hc.
    + apply Cell_eqb_eq in Hc. subst. rewrite Hv. reflexivity.
    + rewrite orb_false_r. reflexivity.
  - unfold Set_has. rewrite existsb_app. simpl. rewrite orb_false_r. reflexivity.
Qed.

(** The rows at which the scan emits an issue: those whose identifier is
    truthy and is in the set or in a row above. *)
Lemma duplicateScan_rows file idColumn : forall rows ids k z,
  In z (map row (duplicateScan file idColumn ids rows k)) <->
  exists i : nat,
    z = (k + Z.of_nat i)%Z /\ (i < length rows)%nat /\
    truthy (getIndex (nth i rows []) idColumn) = true /\
    (Set_has ids (getIndex (nth i rows []) idColumn) = true \/
     exists j : nat, (j < i)%nat /\
       getIndex (nth j rows []) idColumn = getIndex (nth i rows []) idColumn).
Proof.
  induction rows as [| rw rows IH]; intros ids k z.
  - simpl. split; [contradiction |]. intros (i & _ & Hi & _). lia.
  - cbn [duplicateScan]. cbv zeta. rewrite map_app, in_app_iff, IH. split.
    + intros [Hhead | (i & -> & Hi & Ht & Hseen)].
      * destruct (truthy (getIndex rw idColumn)) eqn:Ht;
          destruct (Set_has ids (getIndex rw idColumn)) eqn:Hs;
          simpl in Hhead; try contradiction.
        destruct Hhead as [<- | []].
        exists 0%nat. simpl. repeat split; try lia; auto.
      * exists (S i). simpl. repeat split; try lia; auto.
        rewrite Set_has_add in Hseen.
        destruct Hseen as [Hseen | (j & Hj & Hjv)].
        -- apply orb_true_iff in Hseen. destruct Hseen as [Hs | Heq].
           ++ left. exact Hs.
           ++ right. exists 0%nat. split; [lia |].
              apply Cell_eqb_eq in Heq. simpl. symmetry. exact Heq.
        -- right. exists (S j). split; [lia | exact Hjv].
    + intros (i & -> & Hi & Ht & Hseen). destruct i as [| i].
      * left. simpl in Ht, Hseen. rewrite Ht.
        destruct Hseen as [Hs | (j & Hj & _)]; [| lia].
        rewrite Hs. simpl. left. lia.
      * right. exists i. simpl in Hi, Ht, Hseen.
        repeat split; try lia; auto.
        rewrite Set_has_add. destruct Hseen as [Hs | (j & Hj & Hjv)].
        -- left. rewrite Hs. reflexivity.
        -- destruct j as [| j].
           ++ left. apply orb_true_iff. right. apply Cell_eqb_eq.
              simpl in Hjv. symmetry. exact Hjv.
           ++ right. exists j. split; [lia | exact Hjv].
Qed.

Lemma duplicateScan_NoDup file idColumn : forall rows ids k,
  NoDup (map row (duplicateScan file idColumn ids rows k)).
Proof.
  induction rows as [| rw rows IH]; intros ids k; [constructor |].
  cbn [duplicateScan]. cbv zeta. rewrite map_app.
  assert (Htail : forall z,
            In z (map row (duplicateScan file idColumn
                             (Set_add ids (getIndex rw idColumn)) rows (k + 1)%Z)) ->
            (k + 1 <= z)%Z).
  { intros z Hz. apply in_map_iff in Hz. destruct Hz as (e & <- & He).
    pose proof (duplicateScan_shape file idColumn rows
                  (Set_add ids (getIndex rw idColumn)) (k + 1)%Z) as Hs.
    rewrite Forall_forall in Hs. apply Hs in He. tauto. }
  destruct (truthy (getIndex rw idColumn) && Set_has ids (getIndex rw idColumn)).
  - simpl. constructor; [| apply IH].
    intros Hin. apply Htail in Hin. lia.
  - simpl. apply IH.
Qed.

(** The issues of kind duplicate of a pass are the issues of step 3. *)
Lemma duplicate_issues file :
  filter isDuplicateIssue (fileIssues file) = duplicateIssues file.
Proof.
  unfold fileIssues. rewrite !filter_app.
  rewrite (filter_none isDuplicateIssue (missingIssues file)).
  2:{ unfold missingIssues. apply Forall_forall. intros e He.
      apply in_map_iff in He. destruct He as (col & <- & _). reflexivity. }
  rewrite (filter_none isDuplicateIssue (gridIssues file)).
  2:{ eapply Forall_impl; [| apply gridIssues_shape].
      intros e [_ Hty]. unfold isDuplicateIssue.
      destruct (type e); try reflexivity. contradiction. }
  simpl. apply filter_all.
  eapply Forall_impl; [| apply duplicateIssues_shape].
  intros e (_ & Hty & _). unfold isDuplicateIssue. rewrite Hty. reflexivity.
Qed.

Lemma isDuplicateIssue_true e : isDuplicateIssue e = true <-> type e = duplicate.
Proof.
  unfold isDuplicateIssue. destruct (type e); simpl; split; intros H;
    try discriminate; reflexivity.
Qed.

(** Rows of the issues of kind duplicate, for any pass. *)
Lemma duplicate_rows file errs :
  map eraseId errs = fileIssues file ->
  map row (filter isDuplicateIssue errs) = map row (duplicateIssues file).
Proof.
  intros Herrs. rewrite <- duplicate_issues, <- Herrs.
  rewrite <- filter_map_eraseId by reflexivity.
  rewrite map_map. reflexivity.
Qed.

Lemma duplicateIssues_rows file z :
  In z (map row (duplicateIssues file)) <->
  findIdColumn (headers file) <> (-1)%Z /\
  exists i : nat,
    z = Z.of_nat i /\ (i < length (data file))%nat /\
    truthy (idValue file i) = true /\
    exists j : nat, (j < i)%nat /\ idValue file j = idValue file i.
Proof.
  unfold duplicateIssues, idValue. cbv zeta.
  destruct (Z.eqb_spec (findIdColumn (headers file)) (-1)) as [Heq | Hne]; simpl.
  - split; [contradiction | intros [H _]; contradiction].
  - rewrite duplicateScan_rows. split.
    + intros (i & -> & Hi & Ht & [Hs | Hj]); [discriminate Hs |].
      split; [exact Hne |]. exists i. auto.
    + intros (_ & i & -> & Hi & Ht & Hj). exists i. auto.
Qed.

Lemma findIndexFrom_first {A} (p : A -> bool) (l : list A) : forall i0,
  findIndexFrom p l i0 <> (-1)%Z -> (0 <= i0)%Z ->
  exists k : nat,
    findIndexFrom p l i0 = (i0 + Z.of_nat k)%Z /\ (k < length l)%nat /\
    (exists x, nth_error l k = Some x /\ p x = true) /\
    forall k' x, (k' < k)%nat -> nth_error l k' = Some x -> p x = false.
Proof.
  induction l as [| x l IH]; intros i0 Hne Hi0; simpl in *; [contradiction |].
  destruct (p x) eqn:Hp.
  - exists 0%nat. split; [lia |]. split; [lia |]. split.
    + exists x. split; [reflexivity | exact Hp].
    + intros k' y Hk'. lia.
  - destruct (IH (i0 + 1)%Z Hne ltac:(lia)) as (k & Hk & Hlen & Hx & Hfirst).
    exists (S k). split; [lia |]. split; [lia |]. split.
    + exact Hx.
    + intros [| k'] y Hk' Hy; simpl in Hy.
      * inversion Hy; subst. exact Hp.
      * eapply Hfirst; [| exact Hy]. lia.
Qed.

(* ================================================================== *)
(** * Duplicate identifiers *)
(* ================================================================== *)

(** C2, amended.  When [findIdColumn] finds an identifier column (the first
    header that contains "id" and none of "client", "task", "worker"), the
    issues of kind duplicate sit exactly at the rows whose identifier is
    truthy and equals the identifier of a row above: never at a first
    occurrence, once at each later occurrence of a truthy value, each with
    severity error.  For the column A, B, A, C, A they are at rows 2 and 4. *)
Theorem validateData_duplicates (file : DataFile) (ids : IdSupply) :
  findIdColumn (headers file) <> (-1)%Z ->
  exists errs ids',
    validateData file ids = (Normal errs, ids') /\
    (forall i : nat,
       In (Z.of_nat i) (map row (filter isDuplicateIssue errs)) <->
       (i < length (data file))%nat /\ truthy (idValue file i) = true /\
       exists j : nat, (j < i)%nat /\ idValue file j = idValue file i) /\
    NoDup (map row (filter isDuplicateIssue errs)) /\
    Forall (fun e => severity e = error /\ (0 <= row e)%Z
                     /\ column e = findIdColumn (headers file))
      (filter isDuplicateIssue errs) /\
    (exists k : nat,
       findIdColumn (headers file) = Z.of_nat k /\
       (exists h, nth_error (headers file) k = Some h /\ isIdHeader h = true) /\
       forall k' h, (k' < k)%nat -> nth_error (headers file) k' = Some h ->
                    isIdHeader h = false) /\
    map row (filter isDuplicateIssue (issuesOf (validateData abacaFile ids)))
    = [2%Z; 4%Z].
Proof.
  intros Hid.
  destruct (validateData_issues file ids) as (errs & ids' & Hrun & Herrs).
  exists errs, ids'. split; [exact Hrun |].
  pose proof (duplicate_rows file errs Herrs) as Hrows.
  split; [| split; [| split; [| split]]].
  - intros i. rewrite Hrows, duplicateIssues_rows. split.
    + intros (_ & i' & Hi' & H). apply Nat2Z.inj in Hi'. subst i'. exact H.
    + intros H. split; [exact Hid |]. exists i. split; [reflexivity | exact H].
  - rewrite Hrows. unfold duplicateIssues. cbv zeta.
    destruct (negb _); [apply duplicateScan_NoDup | constructor].
  - apply Forall_forall. intros e He.
    assert (Hin : In (eraseId e) (duplicateIssues file)).
    { rewrite <- duplicate_issues, <- Herrs.
      rewrite <- filter_map_eraseId by reflexivity. apply in_map. exact He. }
    pose proof (duplicateIssues_shape file) as Hs.
    rewrite Forall_forall in Hs. apply Hs in Hin. simpl in Hin. tauto.
  - destruct (findIndexFrom_first isIdHeader (headers file) 0%Z Hid ltac:(lia))
      as (k & Hk & _ & Hx & Hfirst).
    exists k. split; [exact Hk |]. split; [exact Hx | exact Hfirst].
  - destruct (validateData_issues abacaFile ids) as (errs0 & ids0 & Hrun0 & Herrs0).
    unfold issuesOf. rewrite Hrun0. cbn [fst].
    rewrite (duplicate_rows abacaFile errs0 Herrs0). reflexivity.
Qed.

(** C10.  An issue of kind duplicate is only emitted at a row whose
    identifier cell is truthy and equal to the identifier of an earlier row;
    a row whose identifier cell is falsy (empty string, 0, null, undefined)
    never gets one, however many rows share that value. *)
Theorem duplicate_issue_only_for_truthy_repeat (file : DataFile) (ids : IdSupply) :
  exists errs ids',
    validateData file ids = (Normal errs, ids') /\
    (forall e, In e errs -> type e = duplicate ->
       exists i : nat,
         row e = Z.of_nat i /\ (i < length (data file))%nat /\
         truthy (idValue file i) = true /\
         exists j : nat, (j < i)%nat /\ idValue file j = idValue file i) /\
    (forall (i : nat) e,
       truthy (idValue file i) = false ->
       In e errs -> type e = duplicate -> row e <> Z.of_nat i) /\
    truthy (CStr EmptyString) = false /\ truthy (CNum 0) = false /\
    truthy CNull = false /\ truthy CUndefined = false.
Proof.
  destruct (validateData_issues file ids) as (errs & ids' & Hrun & Herrs).
  exists errs, ids'. split; [exact Hrun |].
  assert (Hrow : forall e, In e errs -> type e = duplicate ->
            exists i : nat,
              row e = Z.of_nat i /\ (i < length (data file))%nat /\
              truthy (idValue file i) = true /\
              exists j : nat, (j < i)%nat /\ idValue file j = idValue file i).
  { intros e He Hty.
    assert (Hin : In (row e) (map row (filter isDuplicateIssue errs))).
    { apply in_map. apply filter_In. split; [exact He |].
      apply isDuplicateIssue_true. exact Hty. }
    rewrite (duplicate_rows file errs Herrs) in Hin.
    apply duplicateIssues_rows in Hin. destruct Hin as (_ & i & Hi & H).
    exists i. split; [exact Hi | exact H]. }
  split; [exact Hrow |]. split.
  - intros i e Hfalsy He Hty Heq.
    destruct (Hrow e He Hty) as (i' & Hi' & _ & Ht & _).
    rewrite Heq in Hi'. apply Nat2Z.inj in Hi'. subst i'.
    rewrite Ht in Hfalsy. discriminate.
  - repeat split; reflexivity.
Qed.

(* ================================================================== *)
(** * Validation never throws *)
(* ================================================================== *)





(* ================================================================== *)
(** * Concrete runs of the validators *)
(* ================================================================== *)

(** C1, counterexample.  "3.5" does not parse as an integer in 1..5, yet a
    priority cell holding it gets no issue. *)
Lemma priority_accepts_3_5 :
  includes (toLowerCase "priority") "priority" = true /\
  trim "3.5" <> EmptyString /\
  wholeIntegerInRange "3.5" = false /\
  validateCell clientsNoEmail 0 2 "priority" (CStr "3.5") noIds = (Normal [], noIds).
Proof.
  split; [reflexivity |]. split; [discriminate |]. split; reflexivity.
Qed.

Lemma validateCell_priority_witness :
  includes (toLowerCase "priority") "priority" = true /\
  blankCell (CStr "6") = false /\
  exists errs e,
    issuesOf (validateCell clientsNoEmail 0 2 "priority" (CStr "6") noIds) = errs /\
    filter isPriorityIssue errs = [e] /\ type e = range /\ severity e = error.
Proof.
  split; [reflexivity |]. split; [reflexivity |].
  destruct (validateCell_priority clientsNoEmail 0 2 "priority" (CStr "6") noIds
              eq_refl eq_refl) as (errs & ids' & Hrun & _ & Hout & _).
  destruct (Hout eq_refl) as (e & He & Hty & Hsev & _).
  exists errs, e. unfold issuesOf. rewrite Hrun. auto.
Defined.

(** C2, counterexample.  Row 1 of [blankIdsFile] repeats the identifier of
    row 0 (the empty string), and no issue of kind duplicate is emitted
    there. *)
Lemma blank_identifiers_not_reported :
  findIdColumn (headers blankIdsFile) = 0%Z /\
  idValue blankIdsFile 1 = idValue blankIdsFile 0 /\
  ~ (exists e, In e (issuesOf (validateData blankIdsFile noIds)) /\
               type e = duplicate /\ row e = 1%Z).
Proof.
  split; [reflexivity |]. split; [reflexivity |].
  intros (e & He & Hty & _). vm_compute in He.
  repeat (destruct He as [<- | He]; [discriminate Hty |]). exact He.
Qed.

Lemma validateData_duplicates_witness :
  findIdColumn (headers abacaFile) <> (-1)%Z /\
  exists errs,
    issuesOf (validateData abacaFile noIds) = errs /\
    (In 2%Z (map row (filter isDuplicateIssue errs)) <->
     (2 < length (data abacaFile))%nat /\ truthy (idValue abacaFile 2) = true /\
     exists j : nat, (j < 2)%nat /\ idValue abacaFile j = idValue abacaFile 2).
Proof.
  assert (Hid : findIdColumn (headers abacaFile) <> (-1)%Z)
    by (vm_compute; discriminate).
  split; [exact Hid |].
  destruct (validateData_duplicates abacaFile noIds Hid)
    as (errs & ids' & Hrun & Hrows & _).
  exists errs. unfold issuesOf. rewrite Hrun. split; [reflexivity |].
  exact (Hrows 2%nat).
Defined.

Lemma validateData_missing_column_witness :
  file_type clientsNoEmail = "clients" /\
  In "email" (getRequiredColumns (file_type clientsNoEmail)) /\
  existsb (headerMatches "email") (headers clientsNoEmail) = false /\
  exists errs e,
    issuesOf (validateData clientsNoEmail noIds) = errs /\
    filter (fun e => isFileLevel e && String.eqb "email" (field e)) errs = [e] /\
    field e = "email" /\ row e = (-1)%Z /\ column e = (-1)%Z /\
    type e = missing /\ severity e = error.
Proof.
  assert (Hreq : In "email" (getRequiredColumns (file_type clientsNoEmail)))
    by (simpl; auto).
  split; [reflexivity |]. split; [exact Hreq |]. split; [reflexivity |].
  destruct (validateData_missing_column clientsNoEmail noIds "email" Hreq eq_refl)
    as (errs & ids' & e & Hrun & He & Hrow & Hcol & Hfield & Hty & Hsev & _).
  exists errs, e. unfold issuesOf. rewrite Hrun. simpl. auto 10.
Defined.

Lemma validateCell_falsy_witness :
  truthy (CNum 0) = false /\
  requiredHeader "duration" = false /\
  issuesOf (validateCell jsonFile 0 2 "duration" (CNum 0) noIds) = [].
Proof.
  split; [reflexivity |]. split; [reflexivity |].
  destruct (validateCell_falsy jsonFile 0 2 "duration" (CNum 0) noIds eq_refl)
    as (errs & ids' & Hrun & Hnone & _).
  unfold issuesOf. rewrite Hrun. simpl. apply Hnone. reflexivity.
Defined.


Lemma duplicate_issue_only_for_truthy_repeat_witness :
  truthy (idValue blankIdsFile 1) = false /\
  forall e, In e (issuesOf (validateData blankIdsFile noIds)) ->
            type e = duplicate -> row e <> 1%Z.
Proof.
  split; [reflexivity |].
  destruct (duplicate_issue_only_for_truthy_repeat blankIdsFile noIds)
    as (errs & ids' & Hrun & _ & Hfalsy & _).
  unfold issuesOf. rewrite Hrun. cbn [fst].
  intros e He Hty. exact (Hfalsy 1%nat e eq_refl He Hty).
Defined.

(* ================================================================== *)
(** * File category inference *)
(* ================================================================== *)

(** C6.  [detectFileType] looks for "customer" in the joined headers only:
    a file named customers.csv whose headers name no category is classified
    as tasks, whereas the filename is consulted for both "worker" and
    "employee". *)
Theorem detectFileType_customer_filename :
  includes (toLowerCase "customers.csv") "customer" = true /\
  detectFileType "customers.csv" ["id"; "name"] = "tasks" /\
  detectFileType "employees.csv" ["id"; "name"] = "workers" /\
  detectFileType "list.csv" ["customer_id"; "name"] = "clients" /\
  forall fileName headers,
    detectFileType fileName headers = "clients" <->
    includes (toLowerCase fileName) "client"
    || includes (toLowerCase (join " " headers)) "client"
    || includes (toLowerCase (join " " headers)) "customer" = true.
Proof.
  repeat (split; [reflexivity |]).
  intros fileName hs. unfold detectFileType. cbv zeta.
  destruct (includes (toLowerCase fileName) "client"
            || includes (toLowerCase (join " " hs)) "client"
            || includes (toLowerCase (join " " hs)) "customer").
  - split; reflexivity.
  - destruct (includes (toLowerCase fileName) "worker" || _ || _ || _);
      split; discriminate.
Qed.

(* ================================================================== *)
(** * Priority weights *)
(* ================================================================== *)







(* ================================================================== *)
(** * Rule conditions *)
(* ================================================================== *)

Lemma prefix_spec p s : prefix p s = true <-> exists post, s = (p ++ post)%string.
Proof.
  revert s. induction p as [| a p IH]; intros s.
  - rewrite prefix_empty. split; [| reflexivity]. intros _. exists s. reflexivity.
  - destruct s as [| b s]; simpl.
    + split; [discriminate | intros [post Hp]; discriminate].
    + destruct (ascii_dec a b) as [-> | Hne].
      * rewrite IH. split; intros [post Hp]; exists post.
        -- rewrite Hp. reflexivity.
        -- inversion Hp. reflexivity.
      * split; [discriminate |]. intros [post Hp]. inversion Hp. congruence.
Qed.

(** [s.includes(sub)]: [sub] occurs in [s]. *)
Lemma includes_spec s sub :
  includes s sub = true <-> exists pre post, s = (pre ++ sub ++ post)%string.
Proof.
  induction s as [| a s IH].
  - cbn [includes]. rewrite orb_false_r, prefix_spec. split.
    + intros [post Hp]. exists EmptyString, post. exact Hp.
    + intros (pre & post & Hp). destruct pre; [| discriminate].
      exists post. exact Hp.
  - cbn [includes]. rewrite orb_true_iff, prefix_spec, IH. split.
    + intros [[post Hp] | (pre & post & Hp)].
      * exists EmptyString, post. exact Hp.
      * exists (String a pre), post. rewrite Hp. reflexivity.
    + intros (pre & post & Hp). destruct pre as [| b pre].
      * left. exists post. exact Hp.
      * right. inversion Hp. exists pre, post. reflexivity.
Qed.

(** C7.  Under the matching contract of a condition ([evaluateCondition]):
    equals and not-equals are case-sensitive string equality; greater-than
    and less-than compare the two operands as numbers and are false when
    either is not numeric; contains is case-insensitive substring; regex
    applies the case-insensitively compiled pattern and is false for an
    invalid one; in and not-in test case-insensitive membership in the
    comma-separated list.  The condition priority equals "high" is true
    against "high" and false against "3" (and against "High"). *)
Theorem evaluateCondition_semantics
    (toNumber : string -> option Q)
    (compileIgnoreCase : string -> option (string -> bool))
    (fld x v : string) (lo : option LogicalOperator) :
  let eval op :=
    evaluateCondition toNumber compileIgnoreCase (mkRuleCondition fld op x lo) v in
  (eval equals = true <-> v = x) /\
  (eval not_equals = true <-> v <> x) /\
  (eval greater_than = true <->
   exists a b, toNumber v = Some a /\ toNumber x = Some b /\ (b < a)%Q) /\
  (eval less_than = true <->
   exists a b, toNumber v = Some a /\ toNumber x = Some b /\ (a < b)%Q) /\
  (eval contains = true <->
   exists pre post, toLowerCase v = (pre ++ toLowerCase x ++ post)%string) /\
  (eval regex = true <-> exists test, compileIgnoreCase x = Some test /\ test v = true) /\
  (eval op_in = true <->
   exists item, In item (splitOn "," x) /\ toLowerCase item = toLowerCase v) /\
  eval not_in = negb (eval op_in) /\
  evaluateCondition toNumber compileIgnoreCase
    (mkRuleCondition "priority" equals "high" None) "high" = true /\
  evaluateCondition toNumber compileIgnoreCase
    (mkRuleCondition "priority" equals "high" None) "3" = false /\
  evaluateCondition toNumber compileIgnoreCase
    (mkRuleCondition "priority" equals "high" None) "High" = false.
Proof.
  cbv zeta. unfold evaluateCondition. simpl.
  split; [apply String.eqb_eq |].
  split.
  { rewrite negb_true_iff. apply String.eqb_neq. }
  split.
  { destruct (toNumber v) as [a |], (toNumber x) as [b |].
    - rewrite negb_true_iff. split.
      + intros Hle. exists a, b. repeat split.
        apply Qnot_le_lt. intros Hc. apply Qle_bool_iff in Hc. congruence.
      + intros (a' & b' & Ha & Hb & Hlt). inversion Ha; inversion Hb; subst.
        destruct (Qle_bool a' b') eqn:Hle; [| reflexivity].
        apply Qle_bool_iff in Hle. exfalso. apply (Qlt_not_le _ _ Hlt Hle).
    - split; [discriminate | intros (? & ? & _ & Hb & _); discriminate].
    - split; [discriminate | intros (? & ? & Ha & _); discriminate].
    - split; [discriminate | intros (? & ? & Ha & _); discriminate]. }
  split.
  { destruct (toNumber v) as [a |], (toNumber x) as [b |].
    - rewrite negb_true_iff. split.
      + intros Hle. exists a, b. repeat split.
        apply Qnot_le_lt. intros Hc. apply Qle_bool_iff in Hc. congruence.
      + intros (a' & b' & Ha & Hb & Hlt). inversion Ha; inversion Hb; subst.
        destruct (Qle_bool b' a') eqn:Hle; [| reflexivity].
        apply Qle_bool_iff in Hle. exfalso. apply (Qlt_not_le _ _ Hlt Hle).
    - split; [discriminate | intros (? & ? & _ & Hb & _); discriminate].
    - split; [discriminate | intros (? & ? & Ha & _); discriminate].
    - split; [discriminate | intros (? & ? & Ha & _); discriminate]. }
  split; [apply includes_spec |].
  split.
  { destruct (compileIgnoreCase x) as [test |].
    - split.
      + intros Ht. exists test. split; [reflexivity | exact Ht].
      + intros (t & Ht & Hv). inversion Ht; subst. exact Hv.
    - split; [discriminate | intros (t & Ht & _); discriminate]. }
  split.
  { rewrite existsb_exists. split; intros (item & Hin & Heq); exists item;
      (split; [exact Hin |]); apply String.eqb_eq; exact Heq. }
  repeat split; reflexivity.
Qed.

(* ================================================================== *)
(** * Export to CSV and re-import *)
(* ================================================================== *)

Lemma append_assoc (a b c : string) : ((a ++ b) ++ c = a ++ (b ++ c))%string.
Proof. induction a as [| x a IH]; simpl; [reflexivity | rewrite IH; reflexivity]. Qed.









Lemma join_cons sep x y l :
  join sep (x :: y :: l) = (x ++ sep ++ join sep (y :: l))%string.
Proof. reflexivity. Qed.


















(* ================================================================== *)
(** * The exact result of a validation pass *)
(* ================================================================== *)

Lemma countingIds_distinct : distinctIds countingIds.
Proof.
  intros i. induction i as [| i IH]; intros [| j] H; try discriminate.
  - reflexivity.
  - cbn in H. inversion H as [Hij]. rewrite (IH j Hij). reflexivity.
Qed.

Lemma afterDraws_add a : forall b ids,
  afterDraws (a + b) ids = afterDraws b (afterDraws a ids).
Proof.
  induction a as [| a IH]; intros b ids; [reflexivity |].
  simpl. apply IH.
Qed.

Lemma afterDraws_at k : forall ids n, afterDraws k ids n = ids (k + n)%nat.
Proof.
  induction k as [| k IH]; intros ids n; [reflexivity |].
  simpl. rewrite IH. reflexivity.
Qed.

Lemma stamp_app a : forall b ids,
  stamp ids (a ++ b) = stamp ids a ++ stamp (afterDraws (length a) ids) b.
Proof.
  induction a as [| x a IH]; intros b ids; [reflexivity |].
  simpl. rewrite IH. reflexivity.
Qed.

Lemma stamp_length bodies : forall ids, length (stamp ids bodies) = length bodies.
Proof.
  induction bodies as [| b bs IH]; intros ids; [reflexivity |].
  simpl. rewrite IH. reflexivity.
Qed.

Lemma stamp_eraseId bodies : forall ids,
  map eraseId (stamp ids bodies) = map eraseId bodies.
Proof.
  induction bodies as [| b bs IH]; intros ids; [reflexivity |].
  simpl. rewrite IH. reflexivity.
Qed.

Lemma stamp_ids bodies : forall ids,
  map id (stamp ids bodies) = map ids (seq 0 (length bodies)).
Proof.
  induction bodies as [| b bs IH]; intros ids; [reflexivity |].
  simpl. rewrite IH. rewrite <- seq_shift, map_map. reflexivity.
Qed.

Lemma emitAll_exact checks : forall errors ids,
  emitAll errors checks ids
  = (Normal (errors ++ stamp ids (fired checks)),
     afterDraws (length (fired checks)) ids).
Proof.
  induction checks as [| [fires e] rest IH]; intros errors ids.
  - simpl. rewrite app_nil_r. reflexivity.
  - destruct fires.
    + simpl. unfold bind at 1. simpl. rewrite IH. unfold push, fired. simpl.
      rewrite <- app_assoc. reflexivity.
    + simpl. unfold bind at 1. simpl. rewrite IH. reflexivity.
Qed.

Lemma validateCell_exact file r c header cell ids :
  validateCell file r c header cell ids
  = (Normal (stamp ids (cellIssues file r c header cell)),
     afterDraws (length (cellIssues file r c header cell)) ids).
Proof.
  unfold cellIssues. destruct (blankCell cell) eqn:Hb.
  - rewrite (validateCell_blank _ _ _ _ _ _ Hb). apply emitAll_exact.
  - rewrite (validateCell_nonblank _ _ _ _ _ _ Hb). apply emitAll_exact.
Qed.

Lemma forEachFrom_stamped {A : Type}
    (f : list ValidationError -> A -> Z -> Js (list ValidationError)) body :
  AppendsStamped f body ->
  forall l i errors ids,
    forEachFrom f l i errors ids
    = (Normal (errors ++ stamp ids (indexedFlatMap body l i)),
       afterDraws (length (indexedFlatMap body l i)) ids).
Proof.
  intros Hf. induction l as [| x l IH]; intros i errors ids.
  - simpl. rewrite app_nil_r. reflexivity.
  - simpl. rewrite (bind_normal _ _ _ _ _ (Hf errors x i ids)). rewrite IH.
    rewrite stamp_app, length_app, afterDraws_add, app_assoc. reflexivity.
Qed.

Lemma duplicateStep_exact file idColumn : forall rows rowIndex st ids,
  exists st',
    forEachFrom (duplicateStep file idColumn) rows rowIndex st ids
    = (Normal st',
       afterDraws (length (duplicateScan file idColumn (scan_ids st) rows rowIndex))
         ids) /\
    scan_errors st'
    = scan_errors st
      ++ stamp ids (duplicateScan file idColumn (scan_ids st) rows rowIndex).
Proof.
  induction rows as [| rw rows IH]; intros rowIndex st ids.
  - exists st. simpl. rewrite app_nil_r. split; reflexivity.
  - simpl. unfold duplicateStep at 1. unfold bind at 1 2.
    destruct (truthy (getIndex rw idColumn)
              && Set_has (scan_ids st) (getIndex rw idColumn)).
    + simpl.
      match goal with
      | |- context [forEachFrom _ rows _ ?s ?i] =>
          destruct (IH (rowIndex + 1)%Z s i) as (st' & Hrun & Herr)
      end.
      exists st'. split; [exact Hrun |].
      rewrite Herr. simpl. unfold push. rewrite <- app_assoc. reflexivity.
    + simpl.
      match goal with
      | |- context [forEachFrom _ rows _ ?s ?i] =>
          destruct (IH (rowIndex + 1)%Z s i) as (st' & Hrun & Herr)
      end.
      exists st'. split; assumption.
Qed.

(** [validateData] returns the issues of [fileIssues], the k-th of them
    carrying the k-th identifier drawn, and draws no other identifier. *)
Lemma validateData_exact file ids :
  validateData file ids
  = (Normal (stamp ids (fileIssues file)),
     afterDraws (length (fileIssues file)) ids).
Proof.
  unfold validateData, fileIssues.
  assert (H1 : AppendsStamped
            (fun errors col (_ : Z) =>
               i <- randomId ;;
               ret (push errors
                      {| id := i; fileId := file_id file; row := (-1)%Z;
                         column := (-1)%Z; field := col;
                         message := "Missing required column: " ++ col;
                         severity := error; type := missing;
                         suggestion :=
                           Some ("Add a column for " ++ col
                                 ++ " or rename an existing column")%string |}))
            (fun col _ => [missingIssue file col])).
  { intros errors col i s. reflexivity. }
  unfold forEach at 1. fold (missingColumns file).
  rewrite (bind_normal _ _ _ _ _
             (forEachFrom_stamped _ _ H1 (missingColumns file) 0%Z [] ids)).
  rewrite indexedFlatMap_singleton. fold (missingIssues file).
  assert (H2 : AppendsStamped
            (fun errors rw rowIndex =>
               forEach (fun errors header colIndex =>
                 let cell := getIndex rw colIndex in
                 cellErrors <- validateCell file rowIndex colIndex header cell ;;
                 ret (errors ++ cellErrors))
                 (headers file) errors)
            (fun rw rowIndex =>
               indexedFlatMap
                 (fun header colIndex =>
                    cellIssues file rowIndex colIndex header (getIndex rw colIndex))
                 (headers file) 0%Z)).
  { intros errors rw rowIndex s. unfold forEach.
    apply (forEachFrom_stamped
             (fun errors header colIndex =>
                let cell := getIndex rw colIndex in
                cellErrors <- validateCell file rowIndex colIndex header cell ;;
                ret (errors ++ cellErrors))
             (fun header colIndex =>
                cellIssues file rowIndex colIndex header (getIndex rw colIndex))).
    intros errors' header colIndex s'. cbv zeta.
    rewrite (bind_normal _ _ _ _ _
               (validateCell_exact file rowIndex colIndex header
                  (getIndex rw colIndex) s')).
    reflexivity. }
  unfold forEach at 1.
  rewrite (bind_normal _ _ _ _ _
             (forEachFrom_stamped _ _ H2 (data file) 0%Z _ _)).
  fold (gridIssues file).
  unfold duplicateIssues. cbv zeta.
  destruct (negb (Z.eqb (findIdColumn (headers file)) (-1))).
  - unfold forEach. fold (duplicateStep file (findIdColumn (headers file))).
    match goal with
    | |- bind (forEachFrom _ _ _ ?s) _ ?i = _ =>
        destruct (duplicateStep_exact file (findIdColumn (headers file))
                    (data file) 0%Z s i) as (st' & Hrun & Herr)
    end.
    rewrite (bind_normal _ _ _ _ _ Hrun). unfold ret. simpl in Herr.
    rewrite Herr. rewrite !stamp_app, !length_app, !afterDraws_add.
    rewrite <- !app_assoc. reflexivity.
  - unfold ret. rewrite app_nil_r. simpl app at 1.
    rewrite !stamp_app, !length_app, !afterDraws_add. reflexivity.
Qed.

(* ================================================================== *)
(** * What a validation pass can and cannot emit *)
(* ================================================================== *)

Lemma indexedFlatMap_Forall_range {A B} (P : B -> Prop) (f : A -> Z -> list B) l :
  forall i0,
  (forall x i, In x l -> (i0 <= i < i0 + Z.of_nat (length l))%Z -> Forall P (f x i)) ->
  Forall P (indexedFlatMap f l i0).
Proof.
  induction l as [| x l IH]; intros i0 Hf; simpl; [constructor |].
  apply Forall_app. split.
  - apply Hf; [left; reflexivity |]. simpl length. lia.
  - apply IH. intros y i Hy Hi. apply Hf; [right; exact Hy |]. simpl length. lia.
Qed.

Lemma fired_inv e checks :
  In e (fired checks) -> exists ch, In ch checks /\ fst ch = true /\ snd ch = e.
Proof.
  unfold fired. intros H. apply in_map_iff in H. destruct H as (ch & He & Hin).
  apply filter_In in Hin. destruct Hin as [Hin Hb]. exists ch. auto.
Qed.

(** Every issue of a cell: where it points, and what kind it can be. *)
Lemma cellIssues_kinds file r c header cell e :
  In e (cellIssues file r c header cell) ->
  fileId e = file_id file /\ row e = r /\ column e = c /\ field e = header /\
  (type e = missing \/ type e = malformed \/ type e = range) /\
  (severity e = error \/
   severity e = warning /\
   (includes (toLowerCase header) "budget" = true
    \/ includes (toLowerCase header) "skill" = true)) /\
  suggestion e <> None.
Proof.
  unfold cellIssues. intros Hin.
  destruct (blankCell cell); apply fired_inv in Hin;
    destruct Hin as (ch & Hin & Hfire & <-); simpl in Hin.
  - destruct Hin as [<- | []]. simpl. repeat split; auto; discriminate.
  - repeat (destruct Hin as [<- | Hin];
            [simpl; repeat split; auto; try discriminate |]);
      try contradiction.
    + right. split; [reflexivity |]. left.
      unfold budgetCheck in Hfire. simpl in Hfire.
      apply andb_prop in Hfire. apply Hfire.
    + right. split; [reflexivity |]. right.
      unfold skillsCheck in Hfire. simpl in Hfire.
      apply andb_prop in Hfire. apply Hfire.
Qed.

Lemma findIdColumn_range hs :
  findIdColumn hs <> (-1)%Z ->
  (0 <= findIdColumn hs < Z.of_nat (length hs))%Z.
Proof.
  intros Hne.
  destruct (findIndexFrom_first isIdHeader hs 0%Z Hne ltac:(lia))
    as (k & Hk & Hlen & _).
  unfold findIdColumn, findIndex. rewrite Hk. lia.
Qed.

Lemma duplicateScan_rows_range file idColumn : forall rows ids k,
  Forall (fun e => (k <= row e < k + Z.of_nat (length rows))%Z)
    (duplicateScan file idColumn ids rows k).
Proof.
  induction rows as [| rw rows IH]; intros ids k; simpl; [constructor |].
  apply Forall_app. split.
  - destruct (truthy _ && Set_has _ _); repeat constructor; simpl; lia.
  - eapply Forall_impl; [| apply IH]. simpl. intros e He. lia.
Qed.

Lemma duplicateScan_fileId file idColumn : forall rows ids k,
  Forall (fun e => fileId e = file_id file) (duplicateScan file idColumn ids rows k).
Proof.
  induction rows as [| rw rows IH]; intros ids k; simpl; [constructor |].
  apply Forall_app. split; [| apply IH].
  destruct (truthy _ && Set_has _ _); repeat constructor.
Qed.

Lemma in_stamp e bodies : forall ids,
  In e (stamp ids bodies) -> In (eraseId e) (map eraseId bodies).
Proof.
  intros ids Hin. rewrite <- (stamp_eraseId bodies ids). apply in_map. exact Hin.
Qed.

(** X1.  Every issue [validateData] returns names the validated file, and
    either is file-level (row -1 and column -1) or points at an existing
    cell of the grid: a row index below the number of rows and a column index
    below the number of headers. *)
Theorem validateData_issue_coordinates (file : DataFile) (ids : IdSupply) :
  exists errs ids',
    validateData file ids = (Normal errs, ids') /\
    forall e, In e errs ->
      fileId e = file_id file /\
      ((row e = (-1)%Z /\ column e = (-1)%Z) \/
       ((0 <= row e < Z.of_nat (length (data file)))%Z /\
        (0 <= column e < Z.of_nat (length (headers file)))%Z)).
Proof.
  eexists _, _. split; [apply validateData_exact |].
  intros e He. apply in_stamp in He. apply in_map_iff in He.
  destruct He as (b & Hb & Hin).
  assert (Hsame : fileId e = fileId b /\ row e = row b /\ column e = column b).
  { destruct e, b; unfold eraseId, withId in Hb; simpl in *.
    inversion Hb; subst. auto. }
  destruct Hsame as (-> & -> & ->). clear Hb e.
  unfold fileIssues in Hin. apply in_app_iff in Hin.
  destruct Hin as [Hin | Hin]; [| apply in_app_iff in Hin; destruct Hin as [Hin | Hin]].
  - unfold missingIssues in Hin. apply in_map_iff in Hin.
    destruct Hin as (col & <- & _). simpl. auto.
  - assert (Hall : Forall (fun e =>
                fileId e = file_id file /\
                (0 <= row e < Z.of_nat (length (data file)))%Z /\
                (0 <= column e < Z.of_nat (length (headers file)))%Z)
              (gridIssues file)).
    { unfold gridIssues. apply indexedFlatMap_Forall_range. intros rw r _ Hr.
      apply indexedFlatMap_Forall_range. intros header c _ Hc.
      apply Forall_forall. intros e He.
      destruct (cellIssues_kinds _ _ _ _ _ _ He) as (Hf & Hrow & Hcol & _).
      rewrite Hf, Hrow, Hcol. split; [reflexivity |]. split; lia. }
    rewrite Forall_forall in Hall. destruct (Hall b Hin) as (Hf & Hr & Hc).
    split; [exact Hf |]. right. split; assumption.
  - unfold duplicateIssues in Hin. cbv zeta in Hin.
    destruct (Z.eqb_spec (findIdColumn (headers file)) (-1)) as [Heq | Hne];
      simpl in Hin; [contradiction |].
    pose proof (duplicateScan_rows_range file (findIdColumn (headers file))
                  (data file) [] 0%Z) as Hrange.
    pose proof (duplicateScan_shape file (findIdColumn (headers file))
                  (data file) [] 0%Z) as Hshape.
    rewrite Forall_forall in Hrange, Hshape.
    specialize (Hrange b Hin). destruct (Hshape b Hin) as (_ & _ & _ & Hcol).
    pose proof (duplicateScan_fileId file (findIdColumn (headers file))
                  (data file) [] 0%Z) as Hfile.
    rewrite Forall_forall in Hfile.
    split; [exact (Hfile b Hin) |].
    + right. split; [lia |]. rewrite Hcol. apply findIdColumn_range. exact Hne.
Qed.

Lemma eraseId_fields e b :
  eraseId e = b ->
  fileId e = fileId b /\ row e = row b /\ column e = column b /\
  field e = field b /\ message e = message b /\ severity e = severity b /\
  type e = type b /\ suggestion e = suggestion b.
Proof.
  intros <-. destruct e. simpl. repeat split; reflexivity.
Qed.

(** X2.  [validateData] only emits the kinds missing, duplicate, malformed
    and range, with severity error or warning (never info), and always with a
    suggestion.  An issue of severity warning comes from a cell under a header
    that contains "budget" or "skill": it is never file-level, never a
    duplicate and never a missing value. *)
Theorem validateData_kinds (file : DataFile) (ids : IdSupply) :
  exists errs ids',
    validateData file ids = (Normal errs, ids') /\
    forall e, In e errs ->
      (type e = missing \/ type e = duplicate \/ type e = malformed
       \/ type e = range) /\
      (severity e = error \/
       severity e = warning /\ (0 <= row e)%Z /\
       (type e = malformed \/ type e = range) /\
       (includes (toLowerCase (field e)) "budget" = true
        \/ includes (toLowerCase (field e)) "skill" = true)) /\
      suggestion e <> None.
Proof.
  eexists _, _. split; [apply validateData_exact |].
  intros e He. apply in_stamp in He. apply in_map_iff in He.
  destruct He as (b & Hb & Hin). symmetry in Hb.
  destruct (eraseId_fields e (eraseId b) Hb)
    as (_ & Hrow & _ & Hfield & _ & Hsev & Hty & Hsug).
  simpl in Hrow, Hfield, Hsev, Hty, Hsug.
  rewrite Hrow, Hfield, Hsev, Hty, Hsug. clear Hb Hrow Hfield Hsev Hty Hsug e.
  unfold fileIssues in Hin. apply in_app_iff in Hin.
  destruct Hin as [Hin | Hin]; [| apply in_app_iff in Hin; destruct Hin as [Hin | Hin]].
  - unfold missingIssues in Hin. apply in_map_iff in Hin.
    destruct Hin as (col & <- & _). simpl. repeat split; auto. discriminate.
  - assert (Hall : Forall (fun e =>
                ((type e = missing \/ type e = malformed \/ type e = range) /\
                 (severity e = error \/
                  severity e = warning /\
                  (includes (toLowerCase (field e)) "budget" = true
                   \/ includes (toLowerCase (field e)) "skill" = true)) /\
                 suggestion e <> None) /\ (0 <= row e)%Z)
              (gridIssues file)).
    { unfold gridIssues. apply indexedFlatMap_Forall_range. intros rw r _ Hr.
      apply indexedFlatMap_Forall_range. intros header c _ Hc.
      apply Forall_forall. intros e He.
      destruct (cellIssues_kinds _ _ _ _ _ _ He)
        as (_ & Hrow & _ & Hfield & Hty & Hsev & Hsug).
      rewrite Hfield, Hrow. repeat split; auto. lia. }
    rewrite Forall_forall in Hall.
    destruct (Hall b Hin) as ((Hty & Hsev & Hsug) & Hrow).
    split; [tauto |]. split; [| exact Hsug].
    destruct Hsev as [Hsev | [Hsev Hh]]; [left; exact Hsev |].
    right. repeat split; auto.
    destruct Hty as [Hty | Hty]; [| exact Hty].
    exfalso. clear - Hin Hty Hsev.
    unfold gridIssues in Hin.
    assert (Hno : Forall (fun e => type e = missing -> severity e = error)
                    (gridIssues file)).
    { unfold gridIssues. apply indexedFlatMap_Forall. intros rw r _.
      apply indexedFlatMap_Forall. intros header c _.
      apply Forall_forall. intros e He. unfold cellIssues in He.
      destruct (blankCell _); apply fired_inv in He;
        destruct He as (ch & Hc & _ & <-); simpl in Hc.
      - destruct Hc as [<- | []]. reflexivity.
      - repeat (destruct Hc as [<- | Hc]; [simpl; try reflexivity; discriminate |]).
        contradiction. }
    rewrite Forall_forall in Hno. specialize (Hno b Hin Hty). congruence.
  - pose proof (duplicateIssues_shape file) as Hshape.
    rewrite Forall_forall in Hshape.
    destruct (Hshape b Hin) as (_ & Hty & Hsev & _).
    split; [auto |]. split; [left; exact Hsev |].
    unfold duplicateIssues in Hin. cbv zeta in Hin.
    destruct (negb _); [| contradiction].
    clear - Hin. revert Hin. generalize (@nil Cell). generalize 0%Z.
    induction (data file) as [| rw rows IH]; intros k s Hin; [contradiction |].
    simpl in Hin. apply in_app_iff in Hin. destruct Hin as [Hin | Hin].
    + destruct (truthy _ && Set_has _ _); [| contradiction].
      destruct Hin as [<- | []]. discriminate.
    + eapply IH. exact Hin.
Qed.

Lemma NoDup_map_distinct (ids : IdSupply) (l : list nat) :
  distinctIds ids -> NoDup l -> NoDup (map ids l).
Proof.
  intros Hd. induction 1 as [| x l Hx _ IH]; simpl; constructor; [| exact IH].
  intros Hin. apply in_map_iff in Hin. destruct Hin as (y & Hy & Hin).
  apply Hd in Hy. subst y. contradiction.
Qed.

(** X3.  The k-th issue [validateData] returns carries the k-th identifier
    drawn from [Math.random], and the pass draws exactly as many identifiers
    as it returns issues; so the identifiers of a pass are pairwise distinct
    whenever the random source does not repeat itself. *)
Theorem validateData_identifiers (file : DataFile) (ids : IdSupply) :
  exists errs ids',
    validateData file ids = (Normal errs, ids') /\
    map id errs = map ids (seq 0 (length errs)) /\
    (forall n : nat, ids' n = ids (length errs + n)%nat) /\
    (distinctIds ids -> NoDup (map id errs)).
Proof.
  eexists _, _. split; [apply validateData_exact |].
  rewrite stamp_ids, stamp_length. split; [reflexivity |]. split.
  - intros n. apply afterDraws_at.
  - intros Hd. apply NoDup_map_distinct; [exact Hd | apply seq_NoDup].
Qed.

Lemma validateData_identifiers_witness :
  distinctIds countingIds /\
  exists errs ids',
    validateData (sampleFile "clients" ["id"; "email"]
                    [[CStr "7"; CStr "nobody"]; [CStr "7"; CStr EmptyString]])
      countingIds = (Normal errs, ids') /\
    map id errs = [EmptyString; "a"; "aa"; "aaa"; "aaaa"] /\
    NoDup (map id errs).
Proof.
  split; [exact countingIds_distinct |].
  destruct (validateData_identifiers
              (sampleFile "clients" ["id"; "email"]
                 [[CStr "7"; CStr "nobody"]; [CStr "7"; CStr EmptyString]])
              countingIds)
    as (errs & ids' & Hrun & Hids & _ & Hnd).
  exists errs, ids'. split; [exact Hrun |].
  split; [| exact (Hnd countingIds_distinct)].
  rewrite validateData_exact in Hrun. injection Hrun as Herrs _. subst errs.
  vm_compute. reflexivity.
Defined.

(* ================================================================== *)
(** * Identifier column and required columns: the blind spots *)
(* ================================================================== *)

Lemma findIndexFrom_none {A} (p : A -> bool) (l : list A) : forall i0,
  (0 <= i0)%Z ->
  (findIndexFrom p l i0 = (-1)%Z <-> forall x, In x l -> p x = false).
Proof.
  induction l as [| x l IH]; intros i0 Hi0; simpl.
  - split; [intros _ y [] | reflexivity].
  - destruct (p x) eqn:Hp.
    + split; [lia |]. intros H. specialize (H x (or_introl eq_refl)). congruence.
    + rewrite IH by lia. split.
      * intros H y [<- | Hy]; auto.
      * intros H y Hy. apply H. right. exact Hy.
Qed.

Lemma stamp_In_type e bodies ids :
  In e (stamp ids bodies) -> exists b, In b bodies /\ eraseId e = eraseId b.
Proof.
  intros Hin. apply in_stamp in Hin. apply in_map_iff in Hin.
  destruct Hin as (b & Hb & Hin). exists b. split; [exact Hin | symmetry; exact Hb].
Qed.

(** X4.  [findIdColumn] finds no column exactly when no header contains
    "id" without also containing "client", "task" or "worker"; in such a file
    (for instance one whose only key is client_id) [validateData] emits no
    issue of kind duplicate, whatever values repeat. *)
Theorem no_identifier_column_no_duplicates (file : DataFile) (ids : IdSupply) :
  (forall h, In h (headers file) -> isIdHeader h = false) ->
  findIdColumn (headers file) = (-1)%Z /\
  exists errs ids',
    validateData file ids = (Normal errs, ids') /\
    forall e, In e errs -> type e <> duplicate.
Proof.
  intros Hno.
  assert (Hid : findIdColumn (headers file) = (-1)%Z).
  { apply (findIndexFrom_none isIdHeader (headers file) 0%Z); [lia | exact Hno]. }
  split; [exact Hid |].
  eexists _, _. split; [apply validateData_exact |].
  intros e He Hty. apply stamp_In_type in He. destruct He as (b & Hb & Heq).
  destruct (eraseId_fields e (eraseId b) Heq) as (_ & _ & _ & _ & _ & _ & Htb & _).
  simpl in Htb. rewrite Hty in Htb.
  assert (Hdup : In b (filter isDuplicateIssue (fileIssues file))).
  { apply filter_In. split; [exact Hb |]. apply isDuplicateIssue_true. auto. }
  rewrite duplicate_issues in Hdup. unfold duplicateIssues in Hdup.
  rewrite Hid in Hdup. exact Hdup.
Qed.

Lemma no_identifier_column_no_duplicates_witness :
  (forall h, In h (headers foreignKeyFile) -> isIdHeader h = false) /\
  idValue foreignKeyFile 0 = idValue foreignKeyFile 1 /\
  forall e, In e (issuesOf (validateData foreignKeyFile noIds)) -> type e <> duplicate.
Proof.
  assert (Hno : forall h, In h (headers foreignKeyFile) -> isIdHeader h = false).
  { intros h [<- | [<- | []]]; reflexivity. }
  split; [exact Hno |]. split; [reflexivity |].
  destruct (no_identifier_column_no_duplicates foreignKeyFile noIds Hno)
    as (_ & errs & ids' & Hrun & Hnone).
  unfold issuesOf. rewrite Hrun. exact Hnone.
Defined.

(** X5.  A required column is not reported missing as soon as some header is
    contained in its name (case-insensitively), even if no header contains the
    name: the containment test runs in both directions.  An empty header
    therefore hides every missing column. *)
Theorem header_inside_required_name_hides_missing
    (file : DataFile) (ids : IdSupply) (col h : string) :
  In h (headers file) ->
  includes (toLowerCase col) (toLowerCase h) = true ->
  exists errs ids',
    validateData file ids = (Normal errs, ids') /\
    forall e, In e errs -> isFileLevel e = true -> field e <> col.
Proof.
  intros Hh Hinc.
  eexists _, _. split; [apply validateData_exact |].
  intros e He Hlevel Hfield.
  apply stamp_In_type in He. destruct He as (b & Hb & Heq).
  destruct (eraseId_fields e (eraseId b) Heq) as (_ & Hrow & _ & Hf & _).
  simpl in Hrow, Hf.
  assert (Hin : In b (filter isFileLevel (fileIssues file))).
  { apply filter_In. split; [exact Hb |]. unfold isFileLevel in *.
    rewrite <- Hrow. exact Hlevel. }
  rewrite fileLevel_issues in Hin. unfold missingIssues in Hin.
  apply in_map_iff in Hin. destruct Hin as (col' & <- & Hmiss).
  simpl in Hf. rewrite Hfield in Hf. subst col'.
  unfold missingColumns in Hmiss. apply filter_In in Hmiss.
  destruct Hmiss as [_ Hmiss]. apply negb_true_iff in Hmiss.
  assert (Hex : existsb (headerMatches col) (headers file) = true).
  { apply existsb_exists. exists h. split; [exact Hh |].
    unfold headerMatches. rewrite Hinc. apply orb_true_r. }
  congruence.
Qed.

Lemma header_inside_required_name_hides_missing_witness :
  In EmptyString (headers emptyHeaderFile) /\
  includes (toLowerCase "email") (toLowerCase EmptyString) = true /\
  existsb (fun h => includes (toLowerCase h) "email") (headers emptyHeaderFile) = false /\
  forall e, In e (issuesOf (validateData emptyHeaderFile noIds)) ->
            isFileLevel e = true -> field e <> "email".
Proof.
  assert (Hh : In EmptyString (headers emptyHeaderFile)) by (left; reflexivity).
  split; [exact Hh |]. split; [reflexivity |]. split; [reflexivity |].
  destruct (header_inside_required_name_hides_missing emptyHeaderFile noIds
              "email" EmptyString Hh eq_refl) as (errs & ids' & Hrun & Hnone).
  unfold issuesOf. rewrite Hrun. exact Hnone.
Defined.

(* ================================================================== *)
(** * The matcher decides what a regular expression denotes *)
(* ================================================================== *)

Lemma append_nil_inv (a b : string) :
  (a ++ b = EmptyString)%string -> a = EmptyString /\ b = EmptyString.
Proof. destruct a; simpl; intros H; [auto | discriminate]. Qed.

Lemma matches_seq_inv r1 r2 s :
  matches (RSeq r1 r2) s ->
  exists s1 s2, s = (s1 ++ s2)%string /\ matches r1 s1 /\ matches r2 s2.
Proof. intros H. inversion H; subst. eauto. Qed.

Lemma matches_alt_inv r1 r2 s :
  matches (RAlt r1 r2) s -> matches r1 s \/ matches r2 s.
Proof. intros H. inversion H; subst; auto. Qed.

Lemma matches_class_inv p s :
  matches (RClass p) s -> exists c, s = String c EmptyString /\ p c = true.
Proof. intros H. inversion H; subst. eauto. Qed.

Lemma nullable_matches r : nullable r = true <-> matches r EmptyString.
Proof.
  induction r as [| | p | r1 IH1 r2 IH2 | r1 IH1 r2 IH2 | r IH]; simpl.
  - split; [discriminate | intros H; inversion H].
  - split; [intros _; constructor | reflexivity].
  - split; [discriminate | intros H; inversion H].
  - rewrite andb_true_iff, IH1, IH2. split.
    + intros [H1 H2]. apply (matches_seq _ _ EmptyString EmptyString H1 H2).
    + intros H. apply matches_seq_inv in H. destruct H as (s1 & s2 & Heq & H1 & H2).
      symmetry in Heq. apply append_nil_inv in Heq. destruct Heq as [-> ->]. auto.
  - rewrite orb_true_iff, IH1, IH2. split.
    + intros [H | H]; [apply matches_alt_l | apply matches_alt_r]; exact H.
    + apply matches_alt_inv.
  - split; [intros _; constructor | reflexivity].
Qed.

(** A non-empty match of a star starts with a non-empty match of its body. *)
Lemma matches_star_cons_inv r c s :
  matches (RStar r) (String c s) ->
  exists s1 s2, s = (s1 ++ s2)%string /\ matches r (String c s1)
                /\ matches (RStar r) s2.
Proof.
  intros H. remember (RStar r) as r' eqn:Hr. remember (String c s) as t eqn:Ht.
  revert c s Ht.
  induction H as [| | | | | | r0 u1 u2 H1 _ H2 IH2]; intros c0 s0 Ht;
    try discriminate.
  inversion Hr; subst r0. destruct u1 as [| a u1].
  - simpl in Ht. apply (IH2 eq_refl c0 s0 Ht).
  - simpl in Ht. inversion Ht; subst. exists u1, u2. auto.
Qed.

Lemma deriv_matches c r : forall s, matches (deriv c r) s <-> matches r (String c s).
Proof.
  induction r as [| | p | r1 IH1 r2 IH2 | r1 IH1 r2 IH2 | r IH]; intros s; simpl.
  - split; intros H; inversion H.
  - split; intros H; inversion H.
  - destruct (p c) eqn:Hp.
    + split; intros H; inversion H; subst; [constructor; exact Hp | constructor].
    + split; intros H; inversion H; subst. congruence.
  - assert (Hseq : matches (RSeq (deriv c r1) r2) s ->
                   matches (RSeq r1 r2) (String c s)).
    { intros H. apply matches_seq_inv in H. destruct H as (s1 & s2 & -> & H1 & H2).
      apply IH1 in H1. apply (matches_seq _ _ (String c s1) s2 H1 H2). }
    assert (Hinv : matches (RSeq r1 r2) (String c s) ->
                   matches (RSeq (deriv c r1) r2) s
                   \/ (matches r1 EmptyString /\ matches r2 (String c s))).
    { intros H. apply matches_seq_inv in H. destruct H as (s1 & s2 & Heq & H1 & H2).
      destruct s1 as [| a s1]; simpl in Heq.
      - right. subst. auto.
      - inversion Heq; subst. left. apply matches_seq; [apply IH1; exact H1 | exact H2]. }
    destruct (nullable r1) eqn:Hn.
    + split.
      * intros H. apply matches_alt_inv in H. destruct H as [H | H];
          [apply Hseq; exact H |].
        apply (matches_seq _ _ EmptyString (String c s)).
        -- apply nullable_matches. exact Hn.
        -- apply IH2. exact H.
      * intros H. destruct (Hinv H) as [H' | [_ H']].
        -- apply matches_alt_l. exact H'.
        -- apply matches_alt_r. apply IH2. exact H'.
    + split; [exact Hseq |].
      intros H. destruct (Hinv H) as [H' | [H' _]]; [exact H' |].
      apply nullable_matches in H'. congruence.
  - split.
    + intros H. apply matches_alt_inv in H. destruct H as [H | H];
        [apply matches_alt_l; apply IH1 | apply matches_alt_r; apply IH2]; exact H.
    + intros H. apply matches_alt_inv in H. destruct H as [H | H];
        [apply matches_alt_l; apply IH1 | apply matches_alt_r; apply IH2]; exact H.
  - split.
    + intros H. apply matches_seq_inv in H. destruct H as (s1 & s2 & -> & H1 & H2).
      apply IH in H1. apply (matches_star_cons _ (String c s1) s2 H1 H2).
    + intros H. apply matches_star_cons_inv in H.
      destruct H as (s1 & s2 & -> & H1 & H2).
      apply matches_seq; [apply IH; exact H1 | exact H2].
Qed.

(** The test and the language, one direction each. *)
Lemma regexTest_sound s : forall r, regexTest r s = true -> matches r s.
Proof.
  induction s as [| c s IH]; intros r H; cbn [regexTest] in H.
  - apply nullable_matches. exact H.
  - apply deriv_matches. apply IH. exact H.
Qed.

Lemma regexTest_complete s : forall r, matches r s -> regexTest r s = true.
Proof.
  induction s as [| c s IH]; intros r H; cbn [regexTest].
  - apply nullable_matches. exact H.
  - apply IH. apply deriv_matches. exact H.
Qed.

(** X6.  [regexTest r s] is true exactly when the whole of [s] is a string
    the expression denotes. *)
Theorem regexTest_matches (r : Regex) (s : string) :
  regexTest r s = true <-> matches r s.
Proof.
  revert r. induction s as [| c s IH]; intros r; simpl.
  - apply nullable_matches.
  - rewrite IH. apply deriv_matches.
Qed.

(* ================================================================== *)
(** * The email check *)
(* ================================================================== *)

Lemma star_class_matches p s :
  matches (RStar (RClass p)) s <-> allChars p s = true.
Proof.
  split.
  - intros H. remember (RStar (RClass p)) as r eqn:Hr.
    induction H as [| | | | | | r0 u1 u2 H1 _ H2 IH2]; try discriminate.
    + reflexivity.
    + inversion Hr; subst r0. apply matches_class_inv in H1.
      destruct H1 as (c & -> & Hc). simpl. rewrite Hc. apply IH2. reflexivity.
  - induction s as [| c s IH]; simpl; intros H; [constructor |].
    apply andb_prop in H. destruct H as [Hc Hs].
    apply (matches_star_cons _ (String c EmptyString) s);
      [constructor; exact Hc | apply IH; exact Hs].
Qed.

Lemma plus_class_matches p s :
  matches (RPlus (RClass p)) s <-> s <> EmptyString /\ allChars p s = true.
Proof.
  unfold RPlus. split.
  - intros H. apply matches_seq_inv in H. destruct H as (s1 & s2 & -> & H1 & H2).
    apply matches_class_inv in H1. destruct H1 as (c & -> & Hc).
    apply star_class_matches in H2. simpl. rewrite Hc, H2.
    split; [discriminate | reflexivity].
  - intros [Hne Hall]. destruct s as [| c s]; [contradiction |].
    simpl in Hall. apply andb_prop in Hall. destruct Hall as [Hc Hs].
    apply (matches_seq _ _ (String c EmptyString) s);
      [constructor; exact Hc | apply star_class_matches; exact Hs].
Qed.

Lemma char_matches c s : matches (RChar c) s <-> s = String c EmptyString.
Proof.
  unfold RChar. split.
  - intros H. apply matches_class_inv in H. destruct H as (d & -> & Hd).
    apply Ascii.eqb_eq in Hd. subst. reflexivity.
  - intros ->. constructor. apply Ascii.eqb_refl.
Qed.

Lemma emailRegex_language (s : string) : matches emailRegex s <-> emailShape s.
Proof.
  unfold emailRegex, emailShape, emailPart. split.
  - intros H.
    apply matches_seq_inv in H. destruct H as (l & s1 & -> & Hl & H).
    apply matches_seq_inv in H. destruct H as (a & s2 & -> & Ha & H).
    apply matches_seq_inv in H. destruct H as (d & s3 & -> & Hd & H).
    apply matches_seq_inv in H. destruct H as (o & t & -> & Ho & Ht).
    apply char_matches in Ha, Ho. subst a o.
    apply plus_class_matches in Hl, Hd, Ht.
    exists l, d, t. auto.
  - intros (l & d & t & -> & Hl & Hd & Ht).
    apply plus_class_matches in Hl, Hd, Ht.
    apply matches_seq; [exact Hl |].
    apply (matches_seq _ _ "@"); [apply char_matches; reflexivity |].
    apply matches_seq; [exact Hd |].
    apply (matches_seq _ _ "."); [apply char_matches; reflexivity | exact Ht].
Qed.

(** X7.  The pattern of the email check accepts exactly the strings of the
    shape local@domain.tld, the three parts being non-empty and free of white
    space and of the at sign (the domain and the tld may hold further dots). *)
Theorem emailRegex_shape (s : string) :
  regexTest emailRegex s = true <-> emailShape s.
Proof.
  split.
  - intros Ht. apply emailRegex_language. apply regexTest_sound. exact Ht.
  - intros Hshape. apply regexTest_complete. apply emailRegex_language.
    exact Hshape.
Qed.

Lemma email_issue_of_checks file r c header cellStr :
  filter isEmailIssue (fired (cellChecks file r c header cellStr))
  = if fst (emailCheck file r c header cellStr)
    then [snd (emailCheck file r c header cellStr)] else [].
Proof.
  unfold fired, cellChecks, emailCheck, priorityCheck, durationCheck, budgetCheck,
    skillsCheck, jsonCheck.
  cbn [filter fst snd map].
  case_checks; cbn; unfold isEmailIssue; cbn;
    rewrite ?prefix_empty; reflexivity.
Qed.

(** X8.  For a cell that is not blank under a header containing "email",
    the email check emits nothing when the trimmed text has the shape
    local@domain.tld and exactly one issue, kind malformed and severity
    error, otherwise. *)
Theorem validateCell_email (file : DataFile) (r c : Z) (header : string)
    (cell : Cell) (ids : IdSupply) :
  includes (toLowerCase header) "email" = true ->
  blankCell cell = false ->
  exists errs ids',
    validateCell file r c header cell ids = (Normal errs, ids') /\
    (emailShape (trim (ToString cell)) -> filter isEmailIssue errs = []) /\
    (~ emailShape (trim (ToString cell)) ->
     exists e, filter isEmailIssue errs = [e] /\ type e = malformed /\
               severity e = error /\ row e = r /\ column e = c /\ field e = header).
Proof.
  intros Hh Hb.
  eexists _, _. split; [apply validateCell_exact |].
  rewrite (cellIssues_nonblank _ _ _ _ _ Hb).
  set (cellStr := trim (ToString cell)).
  assert (Hemail :
            map eraseId (filter isEmailIssue
                           (stamp ids (fired (cellChecks file r c header cellStr))))
            = if negb (regexTest emailRegex cellStr)
              then [snd (emailCheck file r c header cellStr)] else []).
  { rewrite filter_map_eraseId by reflexivity. rewrite stamp_eraseId.
    rewrite <- filter_map_eraseId by reflexivity.
    rewrite email_issue_of_checks. unfold emailCheck at 1. simpl fst.
    rewrite Hh. simpl. destruct (regexTest emailRegex cellStr); reflexivity. }
  split.
  - intros Hshape. apply emailRegex_language, regexTest_complete in Hshape.
    rewrite Hshape in Hemail. apply map_eraseId_nil. exact Hemail.
  - intros Hshape.
    destruct (regexTest emailRegex cellStr) eqn:Ht.
    + exfalso. apply Hshape. apply emailRegex_language, regexTest_sound.
      exact Ht.
    + simpl in Hemail. apply map_eraseId_singleton in Hemail.
      destruct Hemail as (e & He & Hbody). exists e. split; [exact He |].
      destruct (eraseId_fields e _ Hbody) as (_ & Hr & Hc & Hf & _ & Hs & Hty & _).
      simpl in *. auto.
Qed.

Lemma validateCell_email_witness :
  includes (toLowerCase "email") "email" = true /\
  blankCell (CStr "user@example.com") = false /\
  emailShape "user@example.com" /\
  filter isEmailIssue
    (issuesOf (validateCell clientsNoEmail 0 0 "email" (CStr "user@example.com") noIds))
  = [].
Proof.
  assert (Hshape : emailShape "user@example.com").
  { exists "user", "example", "com". repeat split; try reflexivity; discriminate. }
  split; [reflexivity |]. split; [reflexivity |]. split; [exact Hshape |].
  destruct (validateCell_email clientsNoEmail 0 0 "email" (CStr "user@example.com")
              noIds eq_refl eq_refl) as (errs & ids' & Hrun & Hok & _).
  unfold issuesOf. rewrite Hrun. apply Hok. exact Hshape.
Defined.

(* ================================================================== *)
(** * Cells holding numbers *)
(* ================================================================== *)
















(* ================================================================== *)
(** * Uploaded files *)
(* ================================================================== *)


(** Every row the reader returns has at least one field. *)
Lemma parseCsv_rows_nonempty input : forall st fld fields,
  Forall (fun r => r <> []) (parseCsv st fld fields input).
Proof.
  assert (Hne : forall (fields : list string) fld, fields ++ [fld] <> []).
  { intros fields fld H. apply app_eq_nil in H. destruct H; discriminate. }
  induction input as [| c rest IH]; intros st fld fields.
  - simpl. constructor; [apply Hne | constructor].
  - destruct st; cbn [parseCsv];
      repeat match goal with
             | |- context [if ?b then _ else _] => destruct b
             end;
      try apply IH; constructor; try apply Hne; apply IH.
Qed.

Lemma papaParse_rows text :
  Forall (fun r => blankLine r = false) (papaParse text).
Proof.
  unfold papaParse. apply Forall_forall. intros r Hin.
  apply filter_In in Hin. destruct Hin as [Hin Htest].
  pose proof (parseCsv_rows_nonempty text FieldStart EmptyString []) as Hne.
  rewrite Forall_forall in Hne. specialize (Hne r Hin).
  apply negb_true_iff in Htest.
  destruct r as [| f [| g l]]; [contradiction | exact Htest | reflexivity].
Qed.


(** What [processFile] returns when it returns a file. *)
Lemma processFile_some fileName text ids ids' file :
  processFile fileName text ids = (Normal (Some file), ids') ->
  exists firstRow rest,
    papaParse text = firstRow :: rest /\
    blankLine firstRow = false /\
    Forall (fun r => blankLine r = false) rest /\
    ids' = tailIds ids /\
    file = {| file_id := ids 0%nat;
              file_name := fileName;
              file_type := detectFileType fileName (map normalizeHeader firstRow);
              headers := map normalizeHeader firstRow;
              data := map (map CStr) rest;
              originalData := map (map CStr) rest;
              errors := [] |}.
Proof.
  unfold processFile. pose proof (papaParse_rows text) as Hrows.
  destruct (papaParse text) as [| firstRow rest]; [discriminate |].
  intros H. inversion H; subst file ids'. clear H.
  inversion Hrows as [| ? ? Hfirst Hrest]; subst.
  exists firstRow, rest. repeat split; assumption.
Qed.



Lemma processFile_errors fileName text ids ids' file :
  processFile fileName text ids = (Normal (Some file), ids') -> errors file = [].
Proof.
  intros H. destruct (processFile_some _ _ _ _ _ H)
    as (firstRow & rest & _ & _ & _ & _ & ->).
  reflexivity.
Qed.



Lemma parseCsv_blank_lines text : forall fields,
  allChars (Ascii.eqb LF) text = true ->
  Forall (fun r => testEmptyLine r = true \/ r = fields ++ [EmptyString])
    (parseCsv FieldStart EmptyString fields text).
Proof.
  induction text as [| c rest IH]; intros fields Hall.
  - simpl. constructor; [right; reflexivity | constructor].
  - cbn [allChars] in Hall. apply andb_prop in Hall. destruct Hall as [Hc Hrest].
    apply Ascii.eqb_eq in Hc. subst c. cbn [parseCsv].
    change (Ascii.eqb LF DQUOTE) with false.
    change (Ascii.eqb LF ",") with false. rewrite Ascii.eqb_refl. cbv iota.
    constructor; [right; reflexivity |].
    eapply Forall_impl; [| apply (IH [] Hrest)].
    intros r [Hr | ->]; left; [exact Hr | reflexivity].
Qed.

(** X11.  A text that holds nothing but line feeds (the empty text
    included) has no header row: [processFile] resolves to null and draws no
    identifier. *)
Theorem processFile_blank_text (fileName text : string) (ids : IdSupply) :
  allChars (Ascii.eqb LF) text = true ->
  processFile fileName text ids = (Normal None, ids).
Proof.
  intros Hall. unfold processFile.
  assert (Hnone : papaParse text = []).
  { unfold papaParse. apply filter_none.
    eapply Forall_impl; [| apply (parseCsv_blank_lines text [] Hall)].
    intros r [Hr | ->]; [rewrite Hr |]; reflexivity. }
  rewrite Hnone. reflexivity.
Qed.

Lemma processFile_blank_text_witness :
  allChars (Ascii.eqb LF) (String LF (String LF EmptyString)) = true /\
  processFile "empty.csv" (String LF (String LF EmptyString)) noIds
  = (Normal None, noIds).
Proof.
  split; [reflexivity |].
  apply (processFile_blank_text "empty.csv" _ noIds). reflexivity.
Defined.



(* ================================================================== *)
(** * The export of the original data *)
(* ================================================================== *)

Lemma csvCell_csvField cell : csvCell cell = csvField (cellText cell).
Proof. reflexivity. Qed.

Lemma joinElement_cellText cell : joinElement cell = cellText cell.
Proof. destruct cell; reflexivity. Qed.

Lemma append_length (s t : string) :
  String.length (s ++ t) = (String.length s + String.length t)%nat.
Proof. induction s as [| c s IH]; cbn; [reflexivity | rewrite IH; reflexivity]. Qed.

Lemma join_length sep (l : list string) :
  (String.length (join sep l) + String.length sep * Nat.min 1 (length l)
   = sumNat (map String.length l) + String.length sep * length l)%nat.
Proof.
  induction l as [| x [| y l] IH].
  - cbn. lia.
  - cbn. lia.
  - rewrite join_cons. rewrite !append_length.
    change (sumNat (map String.length (x :: y :: l)))
      with (String.length x + sumNat (map String.length (y :: l)))%nat.
    cbn [length Nat.min] in *. lia.
Qed.

Lemma sumNat_le {A} (a b : A -> nat) l :
  (forall x, In x l -> a x <= b x)%nat ->
  (sumNat (map a l) <= sumNat (map b l))%nat.
Proof.
  unfold sumNat. induction l as [| x l IH]; intros H; cbn; [lia |].
  pose proof (H x (or_introl eq_refl)).
  assert (fold_right Nat.add 0 (map a l) <= fold_right Nat.add 0 (map b l))%nat
    by (apply IH; intros y Hy; apply H; right; exact Hy).
  lia.
Qed.

Lemma sumNat_eq {A} (a b : A -> nat) l :
  (forall x, In x l -> a x <= b x)%nat ->
  sumNat (map a l) = sumNat (map b l) ->
  forall x, In x l -> a x = b x.
Proof.
  induction l as [| y l IH]; intros Hle Heq x Hin; [destruct Hin |].
  assert (Hl : (sumNat (map a l) <= sumNat (map b l))%nat)
    by (apply sumNat_le; intros z Hz; apply Hle; right; exact Hz).
  unfold sumNat in *. cbn in Heq.
  pose proof (Hle y (or_introl eq_refl)) as Hy.
  destruct Hin as [<- | Hin]; [lia |].
  apply IH; [intros z Hz; apply Hle; right; exact Hz | lia | exact Hin].
Qed.

Lemma join_map_length_le {A} sep (f g : A -> string) l :
  (forall x, In x l -> String.length (f x) <= String.length (g x))%nat ->
  (String.length (join sep (map f l)) <= String.length (join sep (map g l)))%nat.
Proof.
  intros H.
  pose proof (join_length sep (map f l)) as Hf.
  pose proof (join_length sep (map g l)) as Hg.
  rewrite !length_map in Hf, Hg. rewrite !map_map in Hf, Hg.
  pose proof (sumNat_le (fun x => String.length (f x))
                (fun x => String.length (g x)) l H).
  lia.
Qed.

Lemma join_map_length_eq {A} sep (f g : A -> string) l :
  (forall x, In x l -> String.length (f x) <= String.length (g x))%nat ->
  String.length (join sep (map f l)) = String.length (join sep (map g l)) ->
  forall x, In x l -> String.length (f x) = String.length (g x).
Proof.
  intros H Heq.
  pose proof (join_length sep (map f l)) as Hf.
  pose proof (join_length sep (map g l)) as Hg.
  rewrite !length_map in Hf, Hg. rewrite !map_map in Hf, Hg.
  apply (sumNat_eq (fun x => String.length (f x))
           (fun x => String.length (g x)) l H).
  lia.
Qed.

Lemma doubleQuotes_length s :
  (String.length s <= String.length (doubleQuotes s))%nat.
Proof.
  unfold doubleQuotes. induction s as [| c s IH]; [apply le_n |].
  cbn [replaceAllChars]. destruct (Ascii.eqb DQUOTE c).
  - rewrite append_length. change (String.length (quote ++ quote)) with 2%nat.
    cbn [String.length]. lia.
  - cbn [String.length]. lia.
Qed.

Lemma csvField_length s :
  (String.length s <= String.length (csvField s))%nat /\
  (String.length s = String.length (csvField s) -> needsQuote s = false).
Proof.
  unfold csvField. destruct (needsQuote s); [| split; [apply le_n | reflexivity]].
  pose proof (doubleQuotes_length s).
  assert (String.length (quote ++ doubleQuotes s ++ quote)%string
          = S (String.length (doubleQuotes s) + 1)) as ->.
  { change (quote ++ doubleQuotes s ++ quote)%string
      with (String DQUOTE (doubleQuotes s ++ quote)%string).
    cbn [String.length]. rewrite append_length. reflexivity. }
  split; lia.
Qed.

(** X13.  The export of the original data writes every cell as it is.  Its
    text is the cleaned export of the same grid exactly when no cell of the
    grid contains a comma, a double quote or a line feed. *)
Theorem originalCsv_unquoted (file : DataFile) :
  originalCsv file = generateCleanedCSV (setData file (originalData file))
  <-> Forall (Forall (fun cell => needsQuote (cellText cell) = false))
        (originalData file).
Proof.
  unfold originalCsv, generateCleanedCSV. cbn [headers data setData].
  set (orig := fun row : list Cell => join "," (map joinElement row)).
  set (clean := fun row : list Cell => join "," (map csvCell row)).
  assert (Hcell : forall cell,
             (String.length (joinElement cell) <= String.length (csvCell cell))%nat).
  { intros cell. rewrite joinElement_cellText, csvCell_csvField.
    apply csvField_length. }
  assert (Hrow : forall row,
             (String.length (orig row) <= String.length (clean row))%nat).
  { intros row. apply join_map_length_le. intros cell _. apply Hcell. }
  split.
  - intros Heq. apply Forall_forall. intros rw Hin.
    apply Forall_forall. intros cell Hc.
    apply (f_equal String.length) in Heq.
    assert (Hrows : String.length (orig rw) = String.length (clean rw)).
    { pose proof (join_length (String LF EmptyString)
                    (join "," (headers file) :: map orig (originalData file))) as Ho.
      pose proof (join_length (String LF EmptyString)
                    (join "," (headers file) :: map clean (originalData file))) as Hcl.
      cbn [map sumNat fold_right length] in Ho, Hcl.
      fold (sumNat (map String.length (map orig (originalData file)))) in Ho.
      fold (sumNat (map String.length (map clean (originalData file)))) in Hcl.
      rewrite !length_map in Ho, Hcl. rewrite !map_map in Ho, Hcl.
      apply (sumNat_eq (fun r => String.length (orig r))
               (fun r => String.length (clean r)) (originalData file));
        [intros r _; apply Hrow | | exact Hin].
      cbn [Nat.min] in Ho, Hcl. lia. }
    pose proof (join_map_length_eq "," joinElement csvCell rw
                  (fun cell _ => Hcell cell) Hrows cell Hc) as Hlen.
    rewrite joinElement_cellText, csvCell_csvField in Hlen.
    apply csvField_length. exact Hlen.
  - intros Hall. f_equal. f_equal. apply map_ext_in. intros rw Hin.
    unfold orig, clean. f_equal. apply map_ext_in. intros cell Hc.
    rewrite Forall_forall in Hall. specialize (Hall rw Hin).
    rewrite Forall_forall in Hall. specialize (Hall cell Hc).
    rewrite joinElement_cellText, csvCell_csvField. unfold csvField.
    rewrite Hall. reflexivity.
Qed.

(* ================================================================== *)
(** * The validation report *)
(* ================================================================== *)

Section TallyFacts.
Context {K : Type} (eqb : K -> K -> bool).
Hypothesis eqb_spec : forall a b, eqb a b = true <-> a = b.

Lemma eqb_same a : eqb a a = true.
Proof. apply eqb_spec. reflexivity. Qed.

Lemma eqb_other a b : a <> b -> eqb a b = false.
Proof.
  intros H. destruct (eqb a b) eqn:E; [| reflexivity].
  apply eqb_spec in E. contradiction.
Qed.

Lemma tallyGet_set acc k v k' :
  tallyGet eqb (tallySet eqb acc k v) k'
  = if eqb k k' then Some v else tallyGet eqb acc k'.
Proof.
  induction acc as [| [k0 n] rest IH]; cbn.
  - reflexivity.
  - destruct (eqb k0 k) eqn:E0.
    + apply eqb_spec in E0. subst k0. cbn. destruct (eqb k k'); reflexivity.
    + cbn. destruct (eqb k0 k') eqn:E1; [| exact IH].
      apply eqb_spec in E1. subst k0. rewrite eqb_other; [| intros ->].
      * reflexivity.
      * rewrite eqb_same in E0. discriminate.
Qed.

Lemma tallySet_keys acc k v :
  map fst (tallySet eqb acc k v)
  = if existsb (fun k0 => eqb k0 k) (map fst acc)
    then map fst acc else map fst acc ++ [k].
Proof.
  induction acc as [| [k0 n] rest IH]; cbn; [reflexivity |].
  destruct (eqb k0 k); cbn; [reflexivity |]. rewrite IH.
  destruct (existsb _ _); reflexivity.
Qed.

Lemma tallySet_sum acc k v :
  sumZ (map snd (tallySet eqb acc k v))
  = (sumZ (map snd acc) + v
     - match tallyGet eqb acc k with Some n => n | None => 0 end)%Z.
Proof.
  unfold sumZ in *. induction acc as [| [k0 n] rest IH]; cbn; [lia |].
  destruct (eqb k0 k); cbn; [lia |]. rewrite IH. lia.
Qed.

Lemma occurrences_nonneg k l : (0 <= occurrences eqb k l)%Z.
Proof. unfold occurrences, lengthZ. lia. Qed.

Lemma occurrences_snoc k l k' :
  occurrences eqb k (l ++ [k'])
  = (occurrences eqb k l + if eqb k k' then 1 else 0)%Z.
Proof.
  unfold occurrences, lengthZ. rewrite filter_app, length_app. cbn.
  destruct (eqb k k'); cbn; lia.
Qed.

Lemma tallyGet_keys acc k :
  tallyGet eqb acc k = None <-> ~ In k (map fst acc).
Proof.
  induction acc as [| [k0 n] rest IH]; cbn.
  - tauto.
  - destruct (eqb k0 k) eqn:E.
    + apply eqb_spec in E. split; [discriminate | intros H; exfalso; auto].
    + rewrite IH. split; [intros H [H0 | H0]; [| auto] | tauto].
      subst k0. rewrite eqb_same in E. discriminate.
Qed.

Lemma tallyBump_ok seen acc k :
  TallyOk eqb seen acc -> TallyOk eqb (seen ++ [k]) (tallyBump eqb acc k).
Proof.
  intros (Hget & Hnd & Hsum). unfold tallyBump.
  pose proof (occurrences_nonneg k seen) as Hk.
  assert (Hold : match tallyGet eqb acc k with
                 | Some n => if Z.eqb n 0 then 0%Z else n
                 | None => 0%Z
                 end = occurrences eqb k seen).
  { rewrite Hget. destruct (Z.eqb (occurrences eqb k seen) 0) eqn:E.
    - apply Z.eqb_eq in E. symmetry. exact E.
    - rewrite E. reflexivity. }
  rewrite Hold. split; [| split].
  - intros k'. rewrite tallyGet_set, occurrences_snoc.
    destruct (eqb k k') eqn:E.
    + apply eqb_spec in E. subst k'. rewrite eqb_same.
      destruct (Z.eqb (occurrences eqb k seen + 1) 0) eqn:E1;
        [apply Z.eqb_eq in E1; lia | reflexivity].
    + assert (E' : eqb k' k = false).
      { apply eqb_other. intros ->. rewrite eqb_same in E. discriminate. }
      rewrite E', Z.add_0_r. apply Hget.
  - rewrite tallySet_keys.
    destruct (existsb (fun k0 => eqb k0 k) (map fst acc)) eqn:E; [exact Hnd |].
    apply NoDup_app; [exact Hnd | constructor; [intros [] | constructor] |].
    intros x Hx [Hxk | []]. subst x.
    assert (existsb (fun k0 => eqb k0 k) (map fst acc) = true)
      by (apply existsb_exists; exists k; split; [exact Hx | apply eqb_same]).
    congruence.
  - rewrite tallySet_sum, Hsum. unfold lengthZ. rewrite length_app. cbn.
    rewrite Hget. destruct (Z.eqb (occurrences eqb k seen) 0) eqn:E;
      [apply Z.eqb_eq in E |]; lia.
Qed.

Lemma tallyOf_ok l : TallyOk eqb l (tallyOf eqb l).
Proof.
  unfold tallyOf.
  assert (Hgen : forall rest seen acc,
             TallyOk eqb seen acc ->
             TallyOk eqb (seen ++ rest)
               (fold_left (fun acc k => tallyBump eqb acc k) rest acc)).
  { induction rest as [| k rest IH]; intros seen acc Hok; cbn.
    - rewrite app_nil_r. exact Hok.
    - replace (seen ++ k :: rest) with ((seen ++ [k]) ++ rest)
        by (rewrite <- app_assoc; reflexivity).
      apply IH. apply tallyBump_ok. exact Hok. }
  apply (Hgen l [] []). split; [| split].
  - intros k. reflexivity.
  - constructor.
  - reflexivity.
Qed.

End TallyFacts.

Lemma IssueType_eqb_spec a b : IssueType_eqb a b = true <-> a = b.
Proof. destruct a, b; cbn; split; intros H; try reflexivity; discriminate. Qed.

Lemma Severity_eqb_spec a b : Severity_eqb a b = true <-> a = b.
Proof. destruct a, b; cbn; split; intros H; try reflexivity; discriminate. Qed.

Lemma fold_left_map {A B C} (f : C -> B -> C) (g : A -> B) l : forall acc,
  fold_left (fun acc x => f acc (g x)) l acc = fold_left f (map g l) acc.
Proof. induction l as [| x l IH]; intros acc; cbn; [reflexivity | apply IH]. Qed.

Lemma fold_left_sumZ {A} (f : A -> Z) l : forall acc,
  fold_left (fun sum x => (sum + f x)%Z) l acc = (acc + sumZ (map f l))%Z.
Proof.
  unfold sumZ. induction l as [| x l IH]; intros acc; cbn; [lia |].
  rewrite IH. lia.
Qed.

Lemma length_flat_map {A B} (f : A -> list B) l :
  lengthZ (flat_map f l) = sumZ (map (fun x => lengthZ (f x)) l).
Proof.
  unfold lengthZ, sumZ. induction l as [| x l IH]; cbn; [reflexivity |].
  rewrite length_app. lia.
Qed.

(** X14.  The counts of the validation report are consistent.  Each table
    lists a kind (a severity) exactly when some recorded issue has it, once,
    with the number of such issues; the counts of either table add up to
    [totalErrors], which is also the sum of the per-file error counts, and
    [totalRows] is the sum of the per-file row counts. *)
Theorem generateValidationReport_counts (files : list DataFile) :
  let report := generateValidationReport files in
  let allErrors := flat_map errors files in
  (forall t, tallyGet IssueType_eqb (errorsByType (summary report)) t
             = if Z.eqb (occurrences IssueType_eqb t (map type allErrors)) 0
               then None
               else Some (occurrences IssueType_eqb t (map type allErrors))) /\
  (forall s, tallyGet Severity_eqb (errorsBySeverity (summary report)) s
             = if Z.eqb (occurrences Severity_eqb s (map severity allErrors)) 0
               then None
               else Some (occurrences Severity_eqb s (map severity allErrors))) /\
  NoDup (map fst (errorsByType (summary report))) /\
  NoDup (map fst (errorsBySeverity (summary report))) /\
  sumZ (map snd (errorsByType (summary report))) = totalErrors (summary report) /\
  sumZ (map snd (errorsBySeverity (summary report))) = totalErrors (summary report) /\
  sumZ (map report_errors (report_files report)) = totalErrors (summary report) /\
  sumZ (map report_rows (report_files report)) = totalRows (summary report).
Proof.
  cbv zeta. unfold generateValidationReport.
  cbn [summary report_files errorsByType errorsBySeverity totalErrors totalRows].
  rewrite (fold_left_map (tallyBump IssueType_eqb) type).
  rewrite (fold_left_map (tallyBump Severity_eqb) severity).
  destruct (tallyOf_ok IssueType_eqb IssueType_eqb_spec
              (map type (flat_map errors files))) as (Ht & Htn & Hts).
  destruct (tallyOf_ok Severity_eqb Severity_eqb_spec
              (map severity (flat_map errors files))) as (Hs & Hsn & Hss).
  unfold tallyOf in *. unfold lengthZ in Hts, Hss. rewrite length_map in Hts, Hss.
  split; [exact Ht |]. split; [exact Hs |]. split; [exact Htn |].
  split; [exact Hsn |]. split; [exact Hts |]. split; [exact Hss |].
  rewrite !map_map. cbn [report_errors report_rows]. split.
  - symmetry. apply (length_flat_map errors).
  - rewrite fold_left_sumZ. reflexivity.
Qed.

Lemma handleDataUpdate_errors fileId newData files :
  map errors (handleDataUpdate fileId newData files) = map errors files.
Proof.
  unfold handleDataUpdate. rewrite map_map. apply map_ext. intros file.
  destruct (String.eqb (file_id file) fileId); reflexivity.
Qed.

Lemma PageFiles_errors files :
  PageFiles files -> Forall (fun file => errors file = []) files.
Proof.
  induction 1 as [files Hup | files fileId newData _ IH].
  - eapply Forall_impl; [| exact Hup]. cbn.
    intros file (fileName & text & ids & ids' & Hfile).
    exact (processFile_errors _ _ _ _ _ Hfile).
  - apply Forall_forall. intros file Hin.
    assert (Hmap : In (errors file)
                     (map errors (handleDataUpdate fileId newData files)))
      by (apply in_map; exact Hin).
    rewrite handleDataUpdate_errors in Hmap. apply in_map_iff in Hmap.
    destruct Hmap as (file0 & <- & Hin0). rewrite Forall_forall in IH.
    apply IH. exact Hin0.
Qed.

Lemma flat_map_nil {A B} (f : A -> list B) l :
  Forall (fun x => f x = []) l -> flat_map f l = [].
Proof.
  induction 1 as [| x l Hx _ IH]; cbn; [reflexivity |]. rewrite Hx, IH.
  reflexivity.
Qed.

(** X15.  No issue reaches the validation report.  The files of the page
    come from the upload, which gives each an empty error list, and a grid
    edit replaces the data of a file only; so whatever the validator finds
    in them, the report counts zero errors and both its tables are empty. *)
Theorem report_of_page_files_is_empty (files : list DataFile) :
  PageFiles files ->
  totalErrors (summary (generateValidationReport files)) = 0%Z /\
  errorsByType (summary (generateValidationReport files)) = [] /\
  errorsBySeverity (summary (generateValidationReport files)) = [] /\
  Forall (fun r => report_errors r = 0%Z /\ errorDetails r = [])
    (report_files (generateValidationReport files)).
Proof.
  intros Hpage. pose proof (PageFiles_errors files Hpage) as Hnone.
  unfold generateValidationReport.
  cbn [summary report_files errorsByType errorsBySeverity totalErrors].
  rewrite (flat_map_nil errors files Hnone). cbn.
  split; [reflexivity |]. split; [reflexivity |]. split; [reflexivity |].
  apply Forall_forall. intros r Hin. apply in_map_iff in Hin.
  destruct Hin as (file & <- & Hfile). rewrite Forall_forall in Hnone.
  cbn. rewrite (Hnone file Hfile). split; reflexivity.
Qed.

Lemma report_of_page_files_is_empty_witness :
  PageFiles (handleDataUpdate EmptyString [[CStr "7"; CStr EmptyString]]
               [mkDataFile EmptyString "Clients.csv" "clients"
                  ["client_id"; "e_mail"]
                  [[CStr "7"; CStr "a@b.c"]] [[CStr "7"; CStr "a@b.c"]] []]) /\
  fileIssues (setData (mkDataFile EmptyString "Clients.csv" "clients"
                         ["client_id"; "e_mail"]
                         [[CStr "7"; CStr "a@b.c"]] [[CStr "7"; CStr "a@b.c"]] [])
                [[CStr "7"; CStr EmptyString]]) <> [] /\
  totalErrors (summary (generateValidationReport
     (handleDataUpdate EmptyString [[CStr "7"; CStr EmptyString]]
        [mkDataFile EmptyString "Clients.csv" "clients"
           ["client_id"; "e_mail"]
           [[CStr "7"; CStr "a@b.c"]] [[CStr "7"; CStr "a@b.c"]] []]))) = 0%Z.
Proof.
  assert (Hpage : PageFiles
            (handleDataUpdate EmptyString [[CStr "7"; CStr EmptyString]]
               [mkDataFile EmptyString "Clients.csv" "clients"
                  ["client_id"; "e_mail"]
                  [[CStr "7"; CStr "a@b.c"]] [[CStr "7"; CStr "a@b.c"]] []])).
  { apply page_edited. apply page_uploaded. constructor; [| constructor].
    exists "Clients.csv",
      ("Client ID,E-mail" ++ String LF ("7,a@b.c" ++ String LF EmptyString))%string,
      noIds, (tailIds noIds).
    vm_compute. reflexivity. }
  split; [exact Hpage |]. split; [vm_compute; discriminate |].
  exact (proj1 (report_of_page_files_is_empty _ Hpage)).
Defined.

(* ================================================================== *)
(** * The grid: search *)
(* ================================================================== *)

Lemma includes_trans s t u :
  includes s t = true -> includes t u = true -> includes s u = true.
Proof.
  rewrite !includes_spec. intros (p1 & q1 & ->) (p2 & q2 & ->).
  exists (p1 ++ p2)%string, (q2 ++ q1)%string.
  rewrite !append_assoc. reflexivity.
Qed.

Lemma includes_empty_inv sub : includes EmptyString sub = true -> sub = EmptyString.
Proof.
  rewrite includes_spec. intros (pre & post & H).
  destruct pre; [| discriminate]. destruct sub; [reflexivity | discriminate].
Qed.

Lemma toLowerCase_empty s : toLowerCase s = EmptyString -> s = EmptyString.
Proof. destruct s; [reflexivity | discriminate]. Qed.

Lemma filter_filter_impl {A} (p q : A -> bool) l :
  (forall x, q x = true -> p x = true) ->
  filter q (filter p l) = filter q l.
Proof.
  intros H. induction l as [| x l IH]; [reflexivity |].
  cbn. destruct (p x) eqn:Hp; cbn.
  - rewrite IH. reflexivity.
  - destruct (q x) eqn:Hq; [| exact IH].
    rewrite (H x Hq) in Hp. discriminate.
Qed.

Lemma rowMatches_narrow q1 q2 row' :
  includes q2 q1 = true -> rowMatches q2 row' = true -> rowMatches q1 row' = true.
Proof.
  intros Hq. unfold rowMatches. rewrite !existsb_exists.
  intros (cell & Hin & Hm). exists cell. split; [exact Hin |].
  unfold cellMatches in *. apply andb_prop in Hm. destruct Hm as [Ht Hi].
  rewrite Ht. cbn. exact (includes_trans _ _ _ Hi Hq).
Qed.

(** X16.  Searching within the rows a search left gives what the narrower
    search gives on the whole grid: when the query [q1] occurs in the query
    [q2], letters compared without case, the rows shown for [q2] are the
    same whether the grid or only the rows shown for [q1] are searched. *)
Theorem filteredData_narrowing (file : DataFile) (q1 q2 : string) :
  includes (toLowerCase q2) (toLowerCase q1) = true ->
  filteredData (Some (setData file (filteredData (Some file) (Some q1)))) (Some q2)
  = filteredData (Some file) (Some q2).
Proof.
  intros Hq. cbn [filteredData]. cbv zeta. cbn [data setData].
  destruct q1 as [| a1 q1]; [reflexivity |].
  cbn [isEmptyString]. destruct q2 as [| a2 q2].
  - apply includes_empty_inv in Hq. discriminate.
  - cbn [isEmptyString]. apply filter_filter_impl. intros row'.
    apply rowMatches_narrow. exact Hq.
Qed.

Lemma filteredData_narrowing_witness :
  includes (toLowerCase "ACME Ltd") (toLowerCase "acme") = true /\
  filteredData
    (Some (setData (sampleFile "clients" ["id"; "name"]
                      [[CStr "1"; CStr "Acme Ltd"]; [CStr "2"; CStr "Acme Inc"];
                       [CStr "3"; CStr "Zenith"]])
             (filteredData
                (Some (sampleFile "clients" ["id"; "name"]
                         [[CStr "1"; CStr "Acme Ltd"]; [CStr "2"; CStr "Acme Inc"];
                          [CStr "3"; CStr "Zenith"]]))
                (Some "acme"))))
    (Some "ACME Ltd")
  = [[CStr "1"; CStr "Acme Ltd"]].
Proof.
  split; [reflexivity |].
  rewrite (filteredData_narrowing _ "acme" "ACME Ltd" eq_refl). reflexivity.
Defined.

(* ================================================================== *)
(** * The grid: the issues of a cell *)
(* ================================================================== *)

Lemma indexedFlatMap_flat_map {A B} (f : A -> list B) l : forall i,
  indexedFlatMap (fun x _ => f x) l i = flat_map f l.
Proof.
  induction l as [| x l IH]; intros i; cbn; [reflexivity |].
  rewrite IH. reflexivity.
Qed.

Lemma validateAll_exact files ids :
  validateAll files ids
  = (Normal (stamp ids (flat_map fileIssues files)),
     afterDraws (length (flat_map fileIssues files)) ids).
Proof.
  unfold validateAll, forEach.
  assert (H : AppendsStamped
                (fun errors file (_ : Z) =>
                   fileErrors <- validateData file ;; ret (errors ++ fileErrors))
                (fun file _ => fileIssues file)).
  { intros errors file i s.
    rewrite (bind_normal _ _ _ _ _ (validateData_exact file s)). reflexivity. }
  rewrite (forEachFrom_stamped _ _ H files 0%Z [] ids).
  rewrite indexedFlatMap_flat_map. reflexivity.
Qed.

Lemma fileIssues_fileId file :
  Forall (fun e => fileId e = file_id file) (fileIssues file).
Proof.
  unfold fileIssues. rewrite !Forall_app. split; [| split].
  - unfold missingIssues. apply Forall_forall. intros e He.
    apply in_map_iff in He. destruct He as (col & <- & _). reflexivity.
  - unfold gridIssues. apply indexedFlatMap_Forall. intros rw r _.
    apply indexedFlatMap_Forall. intros header c _.
    eapply Forall_impl; [| apply cellIssues_shape]. intros e He. apply He.
  - unfold duplicateIssues. cbv zeta. destruct (negb _); [| constructor].
    apply duplicateScan_fileId.
Qed.

Lemma fileIssues_erased file : map eraseId (fileIssues file) = fileIssues file.
Proof.
  destruct (validateData_issues file noIds) as (errs & ids' & Hrun & Herrs).
  rewrite validateData_exact in Hrun. inversion Hrun; subst errs.
  rewrite stamp_eraseId in Herrs. exact Herrs.
Qed.

Lemma indexedFlatMap_filter {A B} (p : B -> bool) (f : A -> Z -> list B) l :
  forall (i : nat) x i0,
  nth_error l i = Some x ->
  (forall y j, j <> (i0 + Z.of_nat i)%Z -> Forall (fun b => p b = false) (f y j)) ->
  filter p (indexedFlatMap f l i0) = filter p (f x (i0 + Z.of_nat i)%Z).
Proof.
  induction l as [| a l IH]; intros i x i0 Hnth Hout.
  - destruct i; discriminate.
  - cbn [indexedFlatMap]. rewrite filter_app. destruct i as [| i].
    + inversion Hnth; subst a. rewrite Z.add_0_r in *.
      rewrite (filter_none p (indexedFlatMap f l (i0 + 1)%Z)).
      * apply app_nil_r.
      * apply indexedFlatMap_Forall. intros y j Hj. apply Hout. lia.
    + rewrite (filter_none p (f a i0)) by (apply Hout; lia). cbn [app].
      replace (i0 + Z.of_nat (S i))%Z with (i0 + 1 + Z.of_nat i)%Z by lia.
      apply IH; [exact Hnth |]. intros y j Hj. apply Hout. lia.
Qed.

Lemma atCell_cellIssues file r c r' c' header cell :
  (r' <> r \/ c' <> c) ->
  Forall (fun e => atCell (file_id file) r c e = false)
    (cellIssues file r' c' header cell).
Proof.
  intros Hne. eapply Forall_impl; [| apply cellIssues_shape].
  intros e (_ & Hr & Hc & _). unfold atCell. rewrite Hr, Hc.
  destruct Hne as [Hne | Hne]; apply Z.eqb_neq in Hne.
  - rewrite Hne, andb_false_r. reflexivity.
  - rewrite Hne, andb_false_r. reflexivity.
Qed.

Lemma atCell_gridIssues file (r c : nat) rw header :
  nth_error (data file) r = Some rw ->
  nth_error (headers file) c = Some header ->
  filter (atCell (file_id file) (Z.of_nat r) (Z.of_nat c)) (gridIssues file)
  = cellIssues file (Z.of_nat r) (Z.of_nat c) header (getIndex rw (Z.of_nat c)).
Proof.
  intros Hrow Hcol. unfold gridIssues.
  rewrite (indexedFlatMap_filter _ _ _ r rw 0%Z Hrow).
  2:{ intros y j Hj. apply indexedFlatMap_Forall. intros h k _.
      apply atCell_cellIssues. left. lia. }
  rewrite (indexedFlatMap_filter _ _ _ c header 0%Z Hcol).
  2:{ intros y j Hj. apply atCell_cellIssues. right. lia. }
  cbn [Z.add]. apply filter_all.
  eapply Forall_impl; [| apply cellIssues_shape].
  intros e (Hf & Hr & Hc & _). unfold atCell.
  rewrite Hf, Hr, Hc, String.eqb_refl, !Z.eqb_refl. reflexivity.
Qed.

Lemma atCell_duplicateScan file idColumn r c : forall rows ids k (i : nat) rw,
  nth_error rows i = Some rw ->
  r = (k + Z.of_nat i)%Z ->
  filter (atCell (file_id file) r c) (duplicateScan file idColumn ids rows k)
  = if Z.eqb c idColumn
       && truthy (getIndex rw idColumn)
       && (Set_has ids (getIndex rw idColumn)
           || existsb (fun above => Cell_eqb (getIndex rw idColumn)
                                      (getIndex above idColumn))
                (firstn i rows))
    then [duplicateIssue file idColumn r (getIndex rw idColumn)]
    else [].
Proof.
  induction rows as [| x rows IH]; intros ids k i rw Hnth Hr.
  - destruct i; discriminate.
  - cbn [duplicateScan]. cbv zeta. rewrite filter_app. destruct i as [| i].
    + inversion Hnth; subst x. rewrite Z.add_0_r in Hr. subst r.
      rewrite (filter_none _ (duplicateScan _ _ _ rows _)).
      2:{ eapply Forall_impl; [| apply duplicateScan_shape].
          intros e (Hk & _). unfold atCell.
          assert (Hne : Z.eqb (row e) k = false) by (apply Z.eqb_neq; lia).
          rewrite Hne, andb_false_r. reflexivity. }
      rewrite app_nil_r. cbn [firstn existsb]. rewrite orb_false_r.
      destruct (truthy (getIndex rw idColumn) && Set_has ids (getIndex rw idColumn))
        eqn:Hfire.
      * cbn [filter]. unfold atCell. cbn [fileId row column duplicateIssue issueAt].
        rewrite String.eqb_refl, Z.eqb_refl. cbn [andb].
        rewrite (Z.eqb_sym idColumn c).
        apply andb_prop in Hfire. destruct Hfire as [-> ->].
        rewrite !andb_true_r. destruct (Z.eqb c idColumn); reflexivity.
      * cbn [filter]. rewrite <- andb_assoc, Hfire, andb_false_r. reflexivity.
    + assert (Hhead : filter (atCell (file_id file) r c)
                        (if truthy (getIndex x idColumn)
                            && Set_has ids (getIndex x idColumn)
                         then [duplicateIssue file idColumn k (getIndex x idColumn)]
                         else []) = []).
      { destruct (truthy _ && Set_has _ _); [| reflexivity].
        cbn [filter]. unfold atCell. cbn [fileId row column duplicateIssue issueAt].
        assert (Hne : Z.eqb k r = false) by (apply Z.eqb_neq; lia).
        rewrite Hne, andb_false_r. reflexivity. }
      rewrite Hhead. cbn [app].
      rewrite (IH (Set_add ids (getIndex x idColumn)) (k + 1)%Z i rw Hnth)
        by lia.
      rewrite Set_has_add. cbn [firstn existsb]. rewrite orb_assoc. reflexivity.
Qed.

Lemma atCell_other_file file file' r c :
  file_id file' <> file_id file ->
  filter (atCell (file_id file) r c) (fileIssues file') = [].
Proof.
  intros Hne. apply filter_none.
  eapply Forall_impl; [| apply fileIssues_fileId].
  intros e He. unfold atCell. rewrite He.
  apply String.eqb_neq in Hne. rewrite Hne. reflexivity.
Qed.

Lemma atCell_files file r c : forall files,
  NoDup (map file_id files) -> In file files ->
  filter (atCell (file_id file) r c) (flat_map fileIssues files)
  = filter (atCell (file_id file) r c) (fileIssues file).
Proof.
  induction files as [| f files IH]; intros Hnd Hin; [destruct Hin |].
  cbn [flat_map map] in *. rewrite filter_app. inversion Hnd as [| ? ? Hnot Hnd']; subst.
  destruct Hin as [-> | Hin].
  - rewrite (filter_none _ (flat_map fileIssues files)); [apply app_nil_r |].
    apply Forall_forall. intros e He. apply in_flat_map in He.
    destruct He as (f' & Hf' & He).
    assert (Hne : file_id f' <> file_id file).
    { intros Heq. apply Hnot. rewrite <- Heq. apply in_map. exact Hf'. }
    pose proof (fileIssues_fileId f') as Hid. rewrite Forall_forall in Hid.
    unfold atCell. rewrite (Hid e He). apply String.eqb_neq in Hne.
    rewrite Hne. reflexivity.
  - rewrite atCell_other_file; [apply IH; assumption |].
    intros Heq. apply Hnot. rewrite Heq. apply in_map. exact Hin.
Qed.

Lemma getCellErrors_lookup files file (r c : nat) rw header ids :
  NoDup (map file_id files) ->
  In file files ->
  nth_error (data file) r = Some rw ->
  nth_error (headers file) c = Some header ->
  map eraseId (getCellErrors (stamp ids (flat_map fileIssues files))
                 (file_id file) (Z.of_nat r) (Z.of_nat c))
  = cellIssues file (Z.of_nat r) (Z.of_nat c) header (getIndex rw (Z.of_nat c))
    ++ duplicateAt file r c rw.
Proof.
  intros Hnd Hin Hrow Hcol.
  unfold getCellErrors. fold (atCell (file_id file) (Z.of_nat r) (Z.of_nat c)).
  change (fun error => String.eqb (fileId error) (file_id file)
                       && Z.eqb (row error) (Z.of_nat r)
                       && Z.eqb (column error) (Z.of_nat c))
    with (atCell (file_id file) (Z.of_nat r) (Z.of_nat c)).
  rewrite filter_map_eraseId by (intros e; destruct e; reflexivity).
  rewrite stamp_eraseId.
  assert (Herased : map eraseId (flat_map fileIssues files)
                    = flat_map fileIssues files).
  { clear. induction files as [| f files IH]; [reflexivity |].
    cbn [flat_map]. rewrite map_app, fileIssues_erased, IH. reflexivity. }
  rewrite Herased, (atCell_files file _ _ files Hnd Hin).
  unfold fileIssues. rewrite !filter_app.
  rewrite (filter_none _ (missingIssues file)).
  2:{ unfold missingIssues. apply Forall_forall. intros e He.
      apply in_map_iff in He. destruct He as (col & <- & _).
      unfold atCell. cbn [row missingIssue issueAt].
      assert (Hne : Z.eqb (-1) (Z.of_nat r) = false) by (apply Z.eqb_neq; lia).
      rewrite Hne, andb_false_r. reflexivity. }
  cbn [app]. rewrite (atCell_gridIssues file r c rw header Hrow Hcol).
  f_equal. unfold duplicateIssues, duplicateAt. cbv zeta.
  destruct (Z.eqb_spec (findIdColumn (headers file)) (-1)) as [Hnone | Hsome].
  - cbn [negb filter].
    assert (Hne : Z.eqb (Z.of_nat c) (findIdColumn (headers file)) = false)
      by (apply Z.eqb_neq; lia).
    rewrite Hne. reflexivity.
  - cbn [negb].
    rewrite (atCell_duplicateScan file _ (Z.of_nat r) (Z.of_nat c) (data file) []
               0%Z r rw Hrow) by lia.
    cbn [Set_has existsb orb].
    destruct (Z.eqb_spec (Z.of_nat c) (findIdColumn (headers file))) as [<- | Hne];
      reflexivity.
Qed.

(** X17.  The issues the grid shows at a cell.  When no two files share an
    identifier, the issues [getCellErrors] finds, among those of all files,
    for the cell in row [r] and column [c] of a file are the issues of the
    cell validator for that cell, followed by the duplicate issue if the
    cell is in the identifier column and repeats a truthy value of a row
    above; no issue of another file or another cell is among them. *)
Theorem getCellErrors_of_validateAll (files : list DataFile) (file : DataFile)
    (r c : nat) (rw : list Cell) (header : string) (ids : IdSupply) :
  NoDup (map file_id files) ->
  In file files ->
  nth_error (data file) r = Some rw ->
  nth_error (headers file) c = Some header ->
  exists allErrors ids',
    validateAll files ids = (Normal allErrors, ids') /\
    map eraseId (getCellErrors allErrors (file_id file) (Z.of_nat r) (Z.of_nat c))
    = cellIssues file (Z.of_nat r) (Z.of_nat c) header (getIndex rw (Z.of_nat c))
      ++ duplicateAt file r c rw.
Proof.
  intros Hnd Hin Hrow Hcol. eexists _, _. split; [apply validateAll_exact |].
  apply getCellErrors_lookup; assumption.
Qed.


Lemma getCellErrors_of_validateAll_witness :
  exists allErrors ids',
    validateAll [sampleFile "clients" ["id"; "email"]
                   [[CStr "7"; CStr "a@b.c"]; [CStr "7"; CStr "nobody"]]] noIds
    = (Normal allErrors, ids') /\
    map type (getCellErrors allErrors "f1" 1 0) = [duplicate] /\
    map type (getCellErrors allErrors "f1" 1 1) = [malformed].
Proof.
  set (file := sampleFile "clients" ["id"; "email"]
                 [[CStr "7"; CStr "a@b.c"]; [CStr "7"; CStr "nobody"]]).
  assert (Hnd : NoDup (map file_id [file])) by (repeat constructor; intros []).
  destruct (getCellErrors_of_validateAll [file] file 1 0 [CStr "7"; CStr "nobody"]
              "id" noIds Hnd (or_introl eq_refl) eq_refl eq_refl)
    as (allErrors & ids' & Hrun & Hid).
  destruct (getCellErrors_of_validateAll [file] file 1 1 [CStr "7"; CStr "nobody"]
              "email" noIds Hnd (or_introl eq_refl) eq_refl eq_refl)
    as (allErrors' & ids'' & Hrun' & Hemail).
  rewrite Hrun in Hrun'. inversion Hrun'; subst allErrors' ids''.
  exists allErrors, ids'. split; [exact Hrun |]. split.
  - transitivity (map type (map eraseId (getCellErrors allErrors "f1" 1 0))).
    + rewrite map_map. apply map_ext. intros e. destruct e; reflexivity.
    + change (getCellErrors allErrors "f1" 1 0)
        with (getCellErrors allErrors (file_id file) (Z.of_nat 1) (Z.of_nat 0)).
      rewrite Hid. vm_compute. reflexivity.
  - transitivity (map type (map eraseId (getCellErrors allErrors "f1" 1 1))).
    + rewrite map_map. apply map_ext. intros e. destruct e; reflexivity.
    + change (getCellErrors allErrors "f1" 1 1)
        with (getCellErrors allErrors (file_id file) (Z.of_nat 1) (Z.of_nat 1)).
      rewrite Hemail. vm_compute. reflexivity.
Defined.

(* ================================================================== *)
(** * The grid: the class of a cell *)
(* ================================================================== *)

Lemma existsb_severity_eraseId sev l :
  existsb (fun e => Severity_eqb (severity e) sev) (map eraseId l)
  = existsb (fun e => Severity_eqb (severity e) sev) l.
Proof.
  induction l as [| e l IH]; [reflexivity |].
  cbn [map existsb]. rewrite IH. destruct e; reflexivity.
Qed.

Lemma existsb_severity sev l :
  existsb (fun e => Severity_eqb (severity e) sev) l = true
  <-> Exists (fun e => severity e = sev) l.
Proof.
  rewrite existsb_exists, Exists_exists. split; intros (e & Hin & He); exists e;
    (split; [exact Hin |]); destruct (severity e), sev;
    try reflexivity; discriminate.
Qed.

Lemma duplicateAt_severity file r c rw e :
  In e (duplicateAt file r c rw) -> severity e = error.
Proof.
  unfold duplicateAt. cbv zeta. destruct (_ && _ && _); [| intros []].
  intros [<- | []]. reflexivity.
Qed.

(** X18.  The class of a cell of the grid follows the issues of the
    validator at that cell: it is the plain class exactly when there is
    none, the error class exactly when one of them is an error, and the
    warning class exactly when there are some and all are warnings. *)
Theorem getCellClass_of_validateAll (files : list DataFile) (file : DataFile)
    (r c : nat) (rw : list Cell) (header : string) (ids : IdSupply) :
  NoDup (map file_id files) ->
  In file files ->
  nth_error (data file) r = Some rw ->
  nth_error (headers file) c = Some header ->
  exists allErrors ids',
    validateAll files ids = (Normal allErrors, ids') /\
    let issues := cellIssues file (Z.of_nat r) (Z.of_nat c) header
                    (getIndex rw (Z.of_nat c)) ++ duplicateAt file r c rw in
    let class := getCellClass allErrors (file_id file) (Z.of_nat r) (Z.of_nat c) in
    (class = "data-cell" <-> issues = []) /\
    (class = "data-cell error" <-> Exists (fun e => severity e = error) issues) /\
    (class = "data-cell warning"
     <-> issues <> [] /\ Forall (fun e => severity e = warning) issues).
Proof.
  intros Hnd Hin Hrow Hcol. eexists _, _. split; [apply validateAll_exact |].
  cbv zeta. unfold getCellClass. cbv zeta.
  set (found := getCellErrors _ _ _ _).
  set (issues := cellIssues _ _ _ _ _ ++ _).
  assert (Hfound : map eraseId found = issues).
  { exact (getCellErrors_lookup files file r c rw header ids Hnd Hin Hrow Hcol). }
  assert (Hlen : length found = length issues)
    by (rewrite <- Hfound, length_map; reflexivity).
  assert (Hsev : forall e, In e issues -> severity e = error \/ severity e = warning).
  { intros e He. unfold issues in He. apply in_app_iff in He.
    destruct He as [He | He].
    - destruct (cellIssues_kinds _ _ _ _ _ _ He) as (_ & _ & _ & _ & _ & Hs & _).
      destruct Hs as [Hs | [Hs _]]; auto.
    - left. exact (duplicateAt_severity _ _ _ _ _ He). }
  rewrite <- (existsb_severity_eraseId error found).
  rewrite <- (existsb_severity_eraseId warning found). rewrite Hfound, Hlen.
  destruct issues as [| e0 rest] eqn:Hissues.
  - cbn. split; [tauto |]. split.
    + split; [discriminate | intros H; inversion H].
    + split; [discriminate | intros [H _]; congruence].
  - cbn [length Nat.eqb].
    destruct (existsb (fun e => Severity_eqb (severity e) error) (e0 :: rest))
      eqn:Herr.
    + apply existsb_severity in Herr. split; [split; discriminate |].
      split; [tauto |]. split; [discriminate |]. intros [_ Hall].
      apply Exists_exists in Herr. destruct Herr as (e & Hin' & He).
      rewrite Forall_forall in Hall. rewrite (Hall e Hin') in He. discriminate.
    + assert (Hnone : ~ Exists (fun e => severity e = error) (e0 :: rest)).
      { intros H. apply existsb_severity in H. congruence. }
      assert (Hall : Forall (fun e => severity e = warning) (e0 :: rest)).
      { apply Forall_forall. intros e He. destruct (Hsev e He) as [Hs | Hs];
          [| exact Hs].
        exfalso. apply Hnone. apply Exists_exists. exists e. auto. }
      assert (Hwarn : existsb (fun e => Severity_eqb (severity e) warning)
                        (e0 :: rest) = true).
      { apply existsb_severity. constructor. inversion Hall; assumption. }
      rewrite Hwarn. split; [split; discriminate |].
      split; [split; [discriminate | contradiction] |].
      split; [intros _; split; [discriminate | exact Hall] | reflexivity].
Qed.

Lemma getCellClass_of_validateAll_witness :
  exists allErrors ids',
    validateAll [sampleFile "clients" ["id"; "budget"]
                   [[CStr "7"; CStr "cheap"]]] noIds
    = (Normal allErrors, ids') /\
    getCellClass allErrors "f1" 0 1 = "data-cell warning" /\
    getCellClass allErrors "f1" 0 0 = "data-cell".
Proof.
  set (file := sampleFile "clients" ["id"; "budget"] [[CStr "7"; CStr "cheap"]]).
  assert (Hnd : NoDup (map file_id [file])) by (repeat constructor; intros []).
  destruct (getCellClass_of_validateAll [file] file 0 1 [CStr "7"; CStr "cheap"]
              "budget" noIds Hnd (or_introl eq_refl) eq_refl eq_refl)
    as (allErrors & ids' & Hrun & _ & _ & Hwarn).
  destruct (getCellClass_of_validateAll [file] file 0 0 [CStr "7"; CStr "cheap"]
              "id" noIds Hnd (or_introl eq_refl) eq_refl eq_refl)
    as (allErrors' & ids'' & Hrun' & Hplain & _).
  rewrite Hrun in Hrun'. inversion Hrun'; subst allErrors' ids''.
  exists allErrors, ids'. split; [exact Hrun |]. split.
  - apply Hwarn. vm_compute. split; [discriminate | repeat constructor].
  - apply Hplain. vm_compute. reflexivity.
Defined.

(* ================================================================== *)
(** * The grid: editing a cell while a search is on *)
(* ================================================================== *)

Lemma filteredData_shows file q :
  filteredData (Some file) q = filter (shows q) (data file).
Proof.
  unfold filteredData, shows. destruct q as [q |].
  - destruct (isEmptyString q); cbn [orb]; [| reflexivity].
    symmetry. apply filter_all. apply Forall_forall. reflexivity.
  - symmetry. apply filter_all. apply Forall_forall. reflexivity.
Qed.

Lemma positions_nth {A} (p : A -> bool) : forall l i0 k g,
  nth_error (positions p l i0) k = Some g ->
  (i0 + k <= g)%nat /\
  nth_error (filter p l) k = nth_error l (g - i0) /\
  (g - i0 < length l)%nat /\
  (g = (i0 + k)%nat <-> forallb p (firstn (S k) l) = true).
Proof.
  induction l as [| x l IH]; intros i0 k g Hnth.
  - destruct k; discriminate.
  - cbn [positions] in Hnth. cbn [filter firstn forallb length].
    destruct (p x) eqn:Hp.
    + cbn [app] in Hnth. destruct k as [| k].
      * inversion Hnth; subst g. rewrite Nat.sub_diag. cbn.
        split; [lia |]. split; [reflexivity |]. split; [lia |].
        destruct l; split; intros; try reflexivity; lia.
      * cbn [nth_error] in Hnth.
        destruct (IH (S i0) k g Hnth) as (Hle & Hsame & Hlt & Hiff).
        replace (g - i0)%nat with (S (g - S i0)) by lia. cbn [nth_error andb].
        split; [lia |]. split; [exact Hsame |]. split; [lia |].
        rewrite <- Hiff. lia.
    + cbn [app] in Hnth.
      destruct (IH (S i0) k g Hnth) as (Hle & Hsame & Hlt & _).
      replace (g - i0)%nat with (S (g - S i0)) by lia. cbn [nth_error andb].
      split; [lia |]. split; [exact Hsame |]. split; [lia |].
      split; [lia | discriminate].
Qed.

Lemma setRow_nth : forall grid k r i,
  (k < length grid)%nat ->
  nth_error (setRow grid k r) i
  = if Nat.eqb i k then Some r else nth_error grid i.
Proof.
  induction grid as [| x grid IH]; intros k r i Hk; [cbn in Hk; lia |].
  destruct k as [| k]; destruct i as [| i]; cbn; try reflexivity.
  apply IH. cbn in Hk. lia.
Qed.

Lemma setCell_nth value : forall r col,
  (col < length r)%nat ->
  exists r', setCell r col value = Some r' /\ length r' = length r /\
             forall j, nth_error r' j
                       = if Nat.eqb j col then Some value else nth_error r j.
Proof.
  induction r as [| x r IH]; intros col Hc; [cbn in Hc; lia |].
  destruct col as [| col].
  - exists (value :: r). split; [reflexivity |]. split; [reflexivity |].
    intros [| j]; reflexivity.
  - destruct (IH col) as (r' & Hset & Hlen & Hnth); [cbn in Hc; lia |].
    exists (x :: r'). cbn [setCell]. rewrite Hset. split; [reflexivity |].
    split; [cbn; rewrite Hlen; reflexivity |].
    intros [| j]; [reflexivity | apply Hnth].
Qed.

(** X19.  An edit made while a search is on goes to the grid row that has
    the index of the row on display, not to that row.  The row shown at
    index [k] is grid row [g] with [k <= g], and [g = k] exactly when the
    first [k + 1] rows of the grid are all on display.  [handleCellClick]
    opens the edit box with the text of grid row [k], and [handleCellSave]
    writes the value into grid row [k] and changes no other row, so that for
    [g <> k] the row on display stays as it was. *)
Theorem handleCellSave_under_search (file : DataFile) (q : option string)
    (value : string) (k c g : nat) (rw : list Cell) (ids : IdSupply) :
  nth_error (shownRows file q) k = Some g ->
  nth_error (data file) k = Some rw ->
  (c < length rw)%nat ->
  (k <= g)%nat /\
  nth_error (filteredData (Some file) q) k = nth_error (data file) g /\
  (g = k <-> forallb (shows q) (firstn (S k) (data file)) = true) /\
  handleCellClick (Some file) k c ids
  = (Normal (Some ((k, c), cellText (nth c rw CUndefined))), ids) /\
  exists newData rw',
    handleCellSave (Some file) (Some (k, c)) value ids
    = (Normal (Saved (file_id file) newData), ids) /\
    nth_error newData k = Some rw' /\
    (forall j, nth_error rw' j
               = if Nat.eqb j c then Some (CStr value) else nth_error rw j) /\
    (forall i, i <> k -> nth_error newData i = nth_error (data file) i) /\
    length newData = length (data file).
Proof.
  intros Hshown Hrow Hc. unfold shownRows in Hshown.
  destruct (positions_nth (shows q) (data file) 0 k g Hshown)
    as (Hle & Hsame & Hlt & Hiff).
  rewrite Nat.sub_0_r in Hsame, Hlt. cbn [Nat.add] in Hle, Hiff.
  split; [exact Hle |]. split; [rewrite filteredData_shows; exact Hsame |].
  split; [exact Hiff |].
  unfold handleCellClick, handleCellSave. rewrite Hrow.
  split; [reflexivity |].
  destruct (setCell_nth (CStr value) rw c Hc) as (rw' & Hset & _ & Hnth).
  rewrite Hset. exists (setRow (data file) k rw'), rw'.
  assert (Hk : (k < length (data file))%nat)
    by (apply nth_error_Some; congruence).
  split; [reflexivity |]. split; [| split; [exact Hnth | split]].
  - rewrite setRow_nth by exact Hk. rewrite Nat.eqb_refl. reflexivity.
  - intros i Hi. rewrite setRow_nth by exact Hk.
    apply Nat.eqb_neq in Hi. rewrite Hi. reflexivity.
  - clear - Hk. revert k Hk. induction (data file) as [| x l IH]; intros k Hk;
      [reflexivity |].
    destruct k; cbn; [reflexivity |]. rewrite IH; [reflexivity | cbn in Hk; lia].
Qed.

Lemma handleCellSave_under_search_witness :
  nth_error (shownRows (sampleFile "clients" ["id"; "name"]
                          [[CStr "1"; CStr "Acme"]; [CStr "2"; CStr "Zenith"]])
               (Some "zen")) 0 = Some 1%nat /\
  exists newData rw',
    handleCellSave
      (Some (sampleFile "clients" ["id"; "name"]
               [[CStr "1"; CStr "Acme"]; [CStr "2"; CStr "Zenith"]]))
      (Some (0%nat, 1%nat)) "Zenith Ltd" noIds
    = (Normal (Saved "f1" newData), noIds) /\
    nth_error newData 0 = Some rw' /\
    nth_error rw' 1 = Some (CStr "Zenith Ltd") /\
    nth_error newData 1 = Some [CStr "2"; CStr "Zenith"].
Proof.
  split; [reflexivity |].
  destruct (handleCellSave_under_search
              (sampleFile "clients" ["id"; "name"]
                 [[CStr "1"; CStr "Acme"]; [CStr "2"; CStr "Zenith"]])
              (Some "zen") "Zenith Ltd" 0 1 1 [CStr "1"; CStr "Acme"] noIds
              eq_refl eq_refl (le_n 2))
    as (_ & _ & _ & _ & newData & rw' & Hsave & Hrow & Hcell & Hother & _).
  exists newData, rw'. split; [exact Hsave |]. split; [exact Hrow |].
  split; [exact (Hcell 1%nat) |]. exact (Hother 1%nat (Nat.neq_succ_0 0)).
Defined.

(* ================================================================== *)
(** * The validation panel *)
(* ================================================================== *)

Lemma severity_partition (errors : list ValidationError) :
  (lengthZ (filter (fun e => Severity_eqb (severity e) error) errors)
   + lengthZ (filter (fun e => Severity_eqb (severity e) warning) errors)
   + lengthZ (filter (fun e => Severity_eqb (severity e) info) errors)
   = lengthZ errors)%Z.
Proof.
  unfold lengthZ. induction errors as [| e l IH]; [reflexivity |].
  cbn [filter]. destruct (severity e); cbn [Severity_eqb length]; lia.
Qed.

Lemma fileIssues_severity file :
  Forall (fun e => severity e = error \/ severity e = warning) (fileIssues file).
Proof.
  unfold fileIssues. rewrite !Forall_app. split; [| split].
  - unfold missingIssues. apply Forall_forall. intros e He.
    apply in_map_iff in He. destruct He as (col & <- & _). left. reflexivity.
  - unfold gridIssues. apply indexedFlatMap_Forall. intros rw r _.
    apply indexedFlatMap_Forall. intros header c _.
    apply Forall_forall. intros e He.
    destruct (cellIssues_kinds _ _ _ _ _ _ He) as (_ & _ & _ & _ & _ & Hs & _).
    destruct Hs as [Hs | [Hs _]]; auto.
  - eapply Forall_impl; [| apply duplicateIssues_shape].
    intros e (_ & _ & Hs & _). left. exact Hs.
Qed.

Lemma stamp_severity bodies : forall ids,
  map severity (stamp ids bodies) = map severity bodies.
Proof.
  induction bodies as [| b bs IH]; intros ids; [reflexivity |].
  cbn [stamp map]. rewrite IH. destruct b; reflexivity.
Qed.

(** X20.  The counters of the validation panel split the issues: the three
    counts add up to the number of issues, each severity filter lists as many
    issues as its counter says, and the filter for all lists every issue. *)
Theorem errorCounts_partition (errors : list ValidationError) :
  (count_error (errorCounts errors) + count_warning (errorCounts errors)
   + count_info (errorCounts errors) = lengthZ errors)%Z /\
  lengthZ (filteredErrors errors (FilterSeverity error))
  = count_error (errorCounts errors) /\
  lengthZ (filteredErrors errors (FilterSeverity warning))
  = count_warning (errorCounts errors) /\
  lengthZ (filteredErrors errors (FilterSeverity info))
  = count_info (errorCounts errors) /\
  filteredErrors errors FilterAll = errors.
Proof.
  split; [apply severity_partition |].
  split; [reflexivity |]. split; [reflexivity |]. split; [reflexivity |].
  unfold filteredErrors. apply filter_all. apply Forall_forall. reflexivity.
Qed.

(** X21.  What the panel and the page make of a validation pass over the
    files: no issue is informational, so that counter is zero and its filter
    lists nothing; the Continue button of the editing step is enabled
    exactly when every issue found is a warning. *)
Theorem panel_of_validateAll (files : list DataFile) (ids : IdSupply) :
  exists allErrors ids',
    validateAll files ids = (Normal allErrors, ids') /\
    count_info (errorCounts allErrors) = 0%Z /\
    filteredErrors allErrors (FilterSeverity info) = [] /\
    (count_error (errorCounts allErrors) + count_warning (errorCounts allErrors)
     = lengthZ allErrors)%Z /\
    (continueDisabled allErrors = false
     <-> Forall (fun e => severity e = warning) allErrors).
Proof.
  eexists _, _. split; [apply validateAll_exact |].
  set (allErrors := stamp ids (flat_map fileIssues files)).
  assert (Hsev : Forall (fun e => severity e = error \/ severity e = warning)
                   allErrors).
  { apply Forall_forall. intros e He.
    assert (Hin : In (severity e) (map severity allErrors))
      by (apply in_map; exact He).
    unfold allErrors in Hin. rewrite stamp_severity in Hin.
    apply in_map_iff in Hin. destruct Hin as (b & Hb & Hin).
    apply in_flat_map in Hin. destruct Hin as (file & _ & Hin).
    pose proof (fileIssues_severity file) as Hf. rewrite Forall_forall in Hf.
    rewrite <- Hb. apply Hf. exact Hin. }
  assert (Hinfo : filter (fun e => Severity_eqb (severity e) info) allErrors = []).
  { apply filter_none. eapply Forall_impl; [| exact Hsev].
    intros e [-> | ->]; reflexivity. }
  pose proof (severity_partition allErrors) as Hpart.
  cbn [errorCounts count_info count_error count_warning].
  unfold filteredErrors. rewrite Hinfo in Hpart |- *.
  split; [reflexivity |]. split; [reflexivity |].
  split; [unfold lengthZ in *; cbn [length] in Hpart; lia |].
  unfold continueDisabled. rewrite Z.ltb_ge. unfold lengthZ. split.
  - intros Hle.
    destruct (filter (fun e => Severity_eqb (severity e) error) allErrors)
      as [| e0 rest] eqn:Hnone; [| cbn [length] in Hle; lia].
    apply Forall_forall. intros e He. rewrite Forall_forall in Hsev.
    destruct (Hsev e He) as [Hs | Hs]; [| exact Hs].
    assert (Hin : In e (filter (fun e => Severity_eqb (severity e) error) allErrors))
      by (apply filter_In; split; [exact He | rewrite Hs; reflexivity]).
    rewrite Hnone in Hin. destruct Hin.
  - intros Hall. rewrite (filter_none _ allErrors); [cbn; lia |].
    eapply Forall_impl; [| exact Hall]. intros e ->. reflexivity.
Qed.

(* ================================================================== *)
(** * The rules builder *)
(* ================================================================== *)

Lemma addFields_spec (hs : list string) : forall fields,
  NoDup fields ->
  let fields' := fold_left
                   (fun fields header =>
                      if existsb (String.eqb header) fields then fields
                      else push fields header) hs fields in
  NoDup fields' /\ forall h, In h fields' <-> In h fields \/ In h hs.
Proof.
  induction hs as [| x hs IH]; intros fields Hnd; cbn [fold_left].
  - split; [exact Hnd |]. intros h. cbn. tauto.
  - destruct (existsb (String.eqb x) fields) eqn:Hx.
    + destruct (IH fields Hnd) as [Hnd' Hin]. split; [exact Hnd' |].
      intros h. rewrite Hin. cbn [In]. split; [tauto |].
      intros [H | [<- | H]]; auto. left.
      apply existsb_exists in Hx. destruct Hx as (y & Hy & Heq).
      apply String.eqb_eq in Heq. subst y. exact Hy.
    + assert (Hnd1 : NoDup (push fields x)).
      { unfold push. apply NoDup_app; [exact Hnd | repeat constructor; intros [] |].
        intros y Hy [Hxy | []]. subst y.
        assert (existsb (String.eqb x) fields = true)
          by (apply existsb_exists; exists x; split;
              [exact Hy | apply String.eqb_refl]).
        congruence. }
      destruct (IH (push fields x) Hnd1) as [Hnd' Hin]. split; [exact Hnd' |].
      intros h. rewrite Hin. unfold push. rewrite in_app_iff. cbn [In]. tauto.
Qed.

(** X22.  The fields offered to a rule are the headers of the files, each
    once: a name is offered exactly when some file has it as a header, and
    none is offered twice. *)
Theorem getAvailableFields_spec (files : list DataFile) :
  NoDup (getAvailableFields files) /\
  forall h, In h (getAvailableFields files)
            <-> exists file, In file files /\ In h (headers file).
Proof.
  unfold getAvailableFields.
  assert (Hgen : forall fs fields,
             NoDup fields ->
             let fields' :=
               fold_left
                 (fun fields file =>
                    fold_left
                      (fun fields header =>
                         if existsb (String.eqb header) fields then fields
                         else push fields header)
                      (headers file) fields) fs fields in
             NoDup fields' /\
             forall h, In h fields'
                       <-> In h fields \/ exists file, In file fs /\ In h (headers file)).
  { induction fs as [| f fs IH]; intros fields Hnd; cbn [fold_left].
    - split; [exact Hnd |]. intros h. split; [tauto |].
      intros [H | (file & [] & _)]. exact H.
    - destruct (addFields_spec (headers f) fields Hnd) as [Hnd1 Hin1].
      destruct (IH _ Hnd1) as [Hnd2 Hin2]. split; [exact Hnd2 |].
      intros h. rewrite Hin2, Hin1. split.
      + intros [[H | H] | (file & Hf & H)]; [tauto | |].
        * right. exists f. split; [left; reflexivity | exact H].
        * right. exists file. split; [right; exact Hf | exact H].
      + intros [H | (file & [<- | Hf] & H)]; [tauto | tauto |].
        right. exists file. tauto. }
  destruct (Hgen files [] (NoDup_nil _)) as [Hnd Hin]. split; [exact Hnd |].
  intros h. rewrite Hin. cbn [In]. tauto.
Qed.

Lemma deleteRule_absent ruleId rules :
  ~ In ruleId (map rule_id rules) -> deleteRule ruleId rules = rules.
Proof.
  intros Hnot. unfold deleteRule. apply filter_all. apply Forall_forall.
  intros r Hr. apply negb_true_iff, String.eqb_neq. intros Heq.
  apply Hnot. rewrite <- Heq. apply in_map. exact Hr.
Qed.

(** X23.  Saving a new rule.  With a name that is not empty and no rule
    under edit, [saveRule] draws one identifier and appends one rule that
    carries it; the priority stored is never zero or NaN (both become 1).
    If the identifier is not yet in use, deleting the new rule gives back
    the list of rules as it was. *)
Theorem saveRule_new (newRule : PartialRule) (name : string) (ty : RuleType)
    (rules : list Rule) (ids : IdSupply) :
  p_name newRule = Some name -> name <> EmptyString ->
  p_type newRule = Some ty ->
  exists rule,
    saveRule newRule None rules ids = (Normal (Some (rules ++ [rule])), tailIds ids) /\
    rule_id rule = ids 0%nat /\ rule_name rule = name /\ rule_type rule = ty /\
    (exists n, rule_priority rule = Some n /\ n <> 0%Z) /\
    (~ In (ids 0%nat) (map rule_id rules) ->
     deleteRule (ids 0%nat) (rules ++ [rule]) = rules).
Proof.
  intros Hname Hne Hty. exists (ruleOfForm (ids 0%nat) name ty newRule).
  unfold saveRule. rewrite Hname, Hty.
  destruct name as [| a name]; [contradiction |]. cbn [isEmptyString].
  split; [reflexivity |]. split; [reflexivity |]. split; [reflexivity |].
  split; [reflexivity |]. split.
  - cbn [rule_priority ruleOfForm]. destruct (p_priority newRule) as [[n |] |].
    + destruct (Z.eqb_spec n 0) as [-> | Hn].
      * exists 1%Z. split; [reflexivity | discriminate].
      * exists n. split; [reflexivity | exact Hn].
    + exists 1%Z. split; [reflexivity | discriminate].
    + exists 1%Z. split; [reflexivity | discriminate].
  - intros Hfresh. unfold deleteRule. rewrite filter_app.
    fold (deleteRule (ids 0%nat) rules). rewrite (deleteRule_absent _ _ Hfresh).
    cbn [filter rule_id ruleOfForm]. rewrite String.eqb_refl. cbn [negb].
    apply app_nil_r.
Qed.

Lemma saveRule_new_witness :
  exists rule,
    saveRule (mkPartialRule None (Some "Night shift") (Some load_limit) None None
                None None (Some (Some 0%Z)))
      None [] (fun _ => "r1")
    = (Normal (Some [rule]), tailIds (fun _ => "r1")) /\
    rule_priority rule = Some 1%Z.
Proof.
  destruct (saveRule_new (mkPartialRule None (Some "Night shift") (Some load_limit)
                            None None None None (Some (Some 0%Z)))
              "Night shift" load_limit [] (fun _ => "r1") eq_refl)
    as (rule & Hrun & Hid & _ & _ & (n & Hn & _) & _);
    [discriminate | reflexivity |].
  exists rule. split; [exact Hrun |].
  inversion Hrun as [Hrule]. subst rule. reflexivity.
Defined.

(** X24.  Saving a rule under edit.  With a name that is not empty and a
    rule under edit whose identifier is not empty, [saveRule] draws no
    identifier and replaces every rule that has the identifier by the rule of
    the form; the number of rules, their identifiers and their order stay as
    they were.  With an empty name nothing is saved. *)
Theorem saveRule_edit (newRule : PartialRule) (edited : Rule) (name : string)
    (ty : RuleType) (rules : list Rule) (ids : IdSupply) :
  p_name newRule = Some name -> name <> EmptyString ->
  p_type newRule = Some ty ->
  rule_id edited <> EmptyString ->
  exists rules',
    saveRule newRule (Some edited) rules ids = (Normal (Some rules'), ids) /\
    map rule_id rules' = map rule_id rules /\
    (forall i r, nth_error rules i = Some r ->
       nth_error rules' i
       = Some (if String.eqb (rule_id r) (rule_id edited)
               then ruleOfForm (rule_id edited) name ty newRule else r)) /\
    saveRule (mkPartialRule (p_id newRule) (Some EmptyString) (p_type newRule)
                (p_description newRule) (p_conditions newRule)
                (p_actions newRule) (p_enabled newRule) (p_priority newRule))
      (Some edited) rules ids
    = (Normal None, ids).
Proof.
  intros Hname Hne Hty Hid. unfold saveRule. rewrite Hname, Hty.
  destruct name as [| a name]; [contradiction |]. cbn [isEmptyString p_name p_type].
  destruct (rule_id edited) as [| b i] eqn:Hi; [contradiction |].
  cbn [isEmptyString]. eexists. split; [reflexivity |].
  cbn [rule_id ruleOfForm]. split; [| split].
  - rewrite map_map. apply map_ext. intros r.
    destruct (String.eqb (rule_id r) (String b i)) eqn:E; [| reflexivity].
    apply String.eqb_eq in E. cbn [rule_id]. symmetry. exact E.
  - intros k r Hk. rewrite nth_error_map, Hk. reflexivity.
  - destruct (p_type newRule); reflexivity.
Qed.

Lemma saveRule_edit_witness :
  exists rules',
    saveRule (fst (editRule (mkRule "r1" "Night shift" load_limit EmptyString [] []
                              true (Some 2%Z))))
      (Some (mkRule "r1" "Night shift" load_limit EmptyString [] [] true (Some 2%Z)))
      [mkRule "r0" "Day shift" co_run EmptyString [] [] true (Some 1%Z);
       mkRule "r1" "Old name" load_limit EmptyString [] [] false (Some 2%Z)]
      noIds
    = (Normal (Some rules'), noIds) /\
    map rule_id rules' = ["r0"; "r1"].
Proof.
  destruct (saveRule_edit
              (fst (editRule (mkRule "r1" "Night shift" load_limit EmptyString [] []
                                true (Some 2%Z))))
              (mkRule "r1" "Night shift" load_limit EmptyString [] [] true (Some 2%Z))
              "Night shift" load_limit
              [mkRule "r0" "Day shift" co_run EmptyString [] [] true (Some 1%Z);
               mkRule "r1" "Old name" load_limit EmptyString [] [] false (Some 2%Z)]
              noIds eq_refl)
    as (rules' & Hrun & Hids & _); [discriminate | reflexivity | discriminate |].
  exists rules'. split; [exact Hrun | exact Hids].
Defined.

Lemma toggled_involutive r : toggled (toggled r) = r.
Proof. destruct r. unfold toggled. cbn. rewrite negb_involutive. reflexivity. Qed.

Lemma toggleRule_other ruleId rules :
  ~ In ruleId (map rule_id rules) -> toggleRule ruleId rules = rules.
Proof.
  intros Hnot. unfold toggleRule. rewrite <- (map_id rules) at 2.
  apply map_ext_in. intros r Hr.
  destruct (String.eqb (rule_id r) ruleId) eqn:E; [| reflexivity].
  apply String.eqb_eq in E. exfalso. apply Hnot. rewrite <- E.
  apply in_map. exact Hr.
Qed.

(** X25.  Switching a rule on or off.  [toggleRule] applied twice gives the
    rules back, and keeps the identifiers in place.  When the identifiers
    of the rules are distinct and the rule is among them, one application
    changes the number of active rules of the export summary, which is also
    the one of the rules file, by exactly one: down if the rule was enabled,
    up if not. *)
Theorem toggleRule_activeRules (files : list DataFile) (rules : list Rule)
    (r : Rule) :
  NoDup (map rule_id rules) -> In r rules ->
  toggleRule (rule_id r) (toggleRule (rule_id r) rules) = rules /\
  map rule_id (toggleRule (rule_id r) rules) = map rule_id rules /\
  summary_activeRules (getExportSummary files (toggleRule (rule_id r) rules))
  = (summary_activeRules (getExportSummary files rules)
     + if rule_enabled r then -1 else 1)%Z /\
  forall N (priorities : PriorityWeights N),
    meta_activeRules (snd (generateRulesJSON (toggleRule (rule_id r) rules) priorities))
    = summary_activeRules (getExportSummary files (toggleRule (rule_id r) rules)).
Proof.
  intros Hnd Hin. split; [| split; [| split]].
  - unfold toggleRule. rewrite map_map. rewrite <- (map_id rules) at 2.
    apply map_ext. intros x. destruct (String.eqb (rule_id x) (rule_id r)) eqn:E.
    + cbn [rule_id toggled]. rewrite E. apply toggled_involutive.
    + rewrite E. reflexivity.
  - unfold toggleRule. rewrite map_map. apply map_ext. intros x.
    destruct (String.eqb (rule_id x) (rule_id r)); reflexivity.
  - cbn [summary_activeRules getExportSummary]. unfold lengthZ.
    clear files. induction rules as [| x rules IH]; [destruct Hin |].
    cbn [map] in Hnd. inversion Hnd as [| ? ? Hnot Hnd']; subst.
    destruct Hin as [-> | Hin].
    + cbn [toggleRule map]. fold (toggleRule (rule_id r) rules).
      rewrite String.eqb_refl, (toggleRule_other _ _ Hnot).
      cbn [filter rule_enabled toggled]. destruct (rule_enabled r);
        cbn [negb length]; lia.
    + cbn [toggleRule map]. fold (toggleRule (rule_id r) rules).
      assert (E : String.eqb (rule_id x) (rule_id r) = false).
      { apply String.eqb_neq. intros Heq. apply Hnot. rewrite Heq.
        apply in_map. exact Hin. }
      rewrite E. cbn [filter]. specialize (IH Hnd' Hin).
      destruct (rule_enabled x); cbn [length]; lia.
  - intros N priorities. reflexivity.
Qed.

Lemma toggleRule_activeRules_witness :
  summary_activeRules
    (getExportSummary []
       (toggleRule "r1"
          [mkRule "r0" "Day shift" co_run EmptyString [] [] true (Some 1%Z);
           mkRule "r1" "Night shift" load_limit EmptyString [] [] true (Some 2%Z)]))
  = 1%Z.
Proof.
  assert (Hnd : NoDup (map rule_id
            [mkRule "r0" "Day shift" co_run EmptyString [] [] true (Some 1%Z);
             mkRule "r1" "Night shift" load_limit EmptyString [] [] true (Some 2%Z)])).
  { cbn. constructor; [intros [H | []]; discriminate |].
    constructor; [intros [] | constructor]. }
  destruct (toggleRule_activeRules []
              [mkRule "r0" "Day shift" co_run EmptyString [] [] true (Some 1%Z);
               mkRule "r1" "Night shift" load_limit EmptyString [] [] true (Some 2%Z)]
              (mkRule "r1" "Night shift" load_limit EmptyString [] [] true (Some 2%Z))
              Hnd (or_intror (or_introl eq_refl)))
    as (_ & _ & Hactive & _).
  exact Hactive.
Defined.

Lemma replaceAt_past {A} (y : A) : forall l i index,
  (index < i)%nat -> replaceAt l i index y = l.
Proof.
  induction l as [| x l IH]; intros i index Hlt; [reflexivity |].
  cbn [replaceAt]. destruct (Nat.eqb_spec i index) as [Heq | _]; [lia |].
  rewrite IH by lia. reflexivity.
Qed.

Lemma replaceAt_spec {A} (y : A) : forall l i index,
  (i <= index)%nat ->
  replaceAt l i index y
  = if Nat.ltb (index - i) (length l)
    then firstn (index - i) l ++ y :: skipn (S (index - i)) l
    else l.
Proof.
  induction l as [| x l IH]; intros i index Hle; [reflexivity |].
  cbn [replaceAt]. destruct (Nat.eqb_spec i index) as [-> | Hne].
  - rewrite Nat.sub_diag. rewrite replaceAt_past by lia. reflexivity.
  - rewrite IH by lia. replace (index - i)%nat with (S (index - S i)) by lia.
    cbn [length firstn skipn app].
    change (Nat.ltb (S (index - S i)) (S (length l)))
      with (Nat.ltb (index - S i) (length l)).
    destruct (Nat.ltb (index - S i) (length l)); reflexivity.
Qed.

Lemma removeAt_past {A} : forall (l : list A) i index,
  (index < i)%nat -> removeAt l i index = l.
Proof.
  induction l as [| x l IH]; intros i index Hlt; [reflexivity |].
  cbn [removeAt]. destruct (Nat.eqb_spec i index) as [Heq | _]; [lia |].
  cbn [negb app]. rewrite IH by lia. reflexivity.
Qed.

Lemma removeAt_spec {A} : forall (l : list A) i index,
  (i <= index)%nat ->
  removeAt l i index = firstn (index - i) l ++ skipn (S (index - i)) l.
Proof.
  induction l as [| x l IH]; intros i index Hle.
  - cbn. rewrite firstn_nil. reflexivity.
  - cbn [removeAt]. destruct (Nat.eqb_spec i index) as [-> | Hne].
    + rewrite Nat.sub_diag. cbn [negb app firstn skipn].
      apply removeAt_past. lia.
    + cbn [negb app]. rewrite IH by lia.
      replace (index - i)%nat with (S (index - S i)) by lia. reflexivity.
Qed.

(** X26.  Editing the conditions of the form by index.  Updating puts the
    condition at the index and removing takes the condition at the index
    out, the others keeping their order; with an index that is not in the
    list either leaves the conditions as they are.  Removing the condition
    [addCondition] has just appended gives the conditions back. *)
Theorem condition_edits (prev : PartialRule) (cs : list RuleCondition)
    (index : nat) (condition : RuleCondition) :
  p_conditions prev = Some cs ->
  p_conditions (updateCondition index condition prev)
  = Some (if Nat.ltb index (length cs)
          then firstn index cs ++ condition :: skipn (S index) cs else cs) /\
  p_conditions (removeCondition index prev)
  = Some (firstn index cs ++ skipn (S index) cs) /\
  ((length cs <= index)%nat -> p_conditions (removeCondition index prev) = Some cs) /\
  removeCondition (length cs) (addCondition prev) = withConditions prev cs.
Proof.
  intros Hcs. unfold updateCondition, removeCondition, addCondition.
  rewrite Hcs. cbn [p_conditions withConditions orEmpty].
  rewrite (replaceAt_spec condition cs 0 index) by lia.
  rewrite !(removeAt_spec _ 0) by lia. rewrite !Nat.sub_0_r.
  split; [reflexivity |]. split; [reflexivity |]. split.
  - intros Hle. rewrite firstn_all2 by exact Hle.
    rewrite skipn_all2 by lia. rewrite app_nil_r. reflexivity.
  - rewrite firstn_app, Nat.sub_diag, firstn_all. cbn [firstn].
    rewrite app_nil_r. rewrite skipn_all2 by (rewrite length_app; cbn; lia).
    rewrite app_nil_r. reflexivity.
Qed.

Lemma condition_edits_witness :
  p_conditions (removeCondition 0
                  (updateCondition 0 (mkRuleCondition "priority" equals "5" (Some AND))
                     (addCondition blankForm)))
  = Some [].
Proof.
  destruct (condition_edits
              (updateCondition 0 (mkRuleCondition "priority" equals "5" (Some AND))
                 (addCondition blankForm))
              [mkRuleCondition "priority" equals "5" (Some AND)] 0
              (mkRuleCondition "priority" equals "5" (Some AND)) eq_refl)
    as (_ & Hremove & _).
  exact Hremove.
Defined.

(* ================================================================== *)
(** * Priority weights: templates, and what a slider shows *)
(* ================================================================== *)

(** X27.  Every template, and the default [resetToDefault] restores, leaves
    the Continue button enabled, although the doubles of the
    priority-focused template do not add up to exactly 1.  With all five weights at zero
    [handleSliderChange] does not divide, the weights stay at zero and the
    button is disabled. *)
Theorem templates_enable_continue :
  Forall (fun t => continueToExportDisabled (fst (applyTemplate t)) = false)
    templates /\
  continueToExportDisabled (fst resetToDefault) = false /\
  map (fun t => PrimFloat.eqb (weightTotal (snd t)) 1%float) templates
  = [true; false; true; true] /\
  forall key,
    handleSliderChange (mkPriorityWeights 0%float 0%float 0%float 0%float 0%float)
      key 0%float
    = mkPriorityWeights 0%float 0%float 0%float 0%float 0%float /\
    continueToExportDisabled
      (handleSliderChange (mkPriorityWeights 0%float 0%float 0%float 0%float 0%float)
         key 0%float) = true.
Proof.
  split; [| split; [| split]].
  - repeat constructor.
  - vm_compute. reflexivity.
  - vm_compute. reflexivity.
  - intros key. destruct key; split; vm_compute; reflexivity.
Qed.






(* ================================================================== *)
(** * A drop of files *)
(* ================================================================== *)




